(** * The curve engine of sdfk_frontend ([curve_helper.py]), embedded and verified

    The development follows the Python source function by function.

    - Python floats are modelled by the rationals [Q]: every arithmetic step
      is exact, and the transcendental functions of [math] and
      [scipy.special] are taken as an interface ([MathLib]).
    - Python values that arrive as decoded JSON are the untyped [Py.pyval];
      the exceptions the source catches or lets escape are the constructors
      of [Py.exn], and fallible code returns a [Py.result].
    - The process-wide generator of the [random] module is an explicit
      oracle [Random.rng] threaded through a state-and-exception monad. *)

From Stdlib Require Import ZArith QArith Qround Qabs List String Ascii Bool Lia Lqa.
From Stdlib Require Import Sorting.Sorted Sorting.Permutation.
Import ListNotations.

Set Warnings "-register-all".
Set Warnings "-notation-overridden".
Set Warnings "-notation-incompatible-prefix".

Local Open Scope string_scope.
Local Open Scope Z_scope.
Local Open Scope Q_scope.

(* ===================================================================== *)
(** * Python values, exceptions and the operations the source applies    *)
(* ===================================================================== *)

Module Py.

Inductive exn : Type :=
| KeyError | IndexError | TypeError | ValueError | AttributeError.

Inductive result (A : Type) : Type :=
| Ok (a : A)
| Raise (e : exn).

Arguments Ok {A} a.
Arguments Raise {A} e.

Definition bind {A B : Type} (m : result A) (k : A -> result B) : result B :=
  match m with
  | Ok a => k a
  | Raise e => Raise e
  end.

Definition exn_eqb (a b : exn) : bool :=
  match a, b with
  | KeyError, KeyError | IndexError, IndexError | TypeError, TypeError
  | ValueError, ValueError | AttributeError, AttributeError => true
  | _, _ => false
  end.

(** [try: m  except (e1, ..., en): h] *)
Definition try_except {A : Type} (m : result A) (caught : list exn) (h : result A)
  : result A :=
  match m with
  | Ok a => Ok a
  | Raise e => if existsb (exn_eqb e) caught then h else Raise e
  end.

(** [try: m  except Exception: h]; every exception of [exn] is an [Exception]. *)
Definition try_except_all {A : Type} (m : result A) (h : A) : A :=
  match m with
  | Ok a => a
  | Raise _ => h
  end.

Fixpoint mapM {A B : Type} (f : A -> result B) (l : list A) : result (list B) :=
  match l with
  | [] => Ok []
  | x :: xs =>
      bind (f x) (fun y => bind (mapM f xs) (fun ys => Ok (y :: ys)))
  end.

(** A decoded JSON document / a Python object built from dicts, lists,
    strings and numbers.  A dict is an association list in insertion order. *)
Inductive pyval : Type :=
| VNone
| VBool (b : bool)
| VNum (q : Q)
| VStr (s : string)
| VList (l : list pyval)
| VDict (d : list (string * pyval)).

Fixpoint lookup (d : list (string * pyval)) (k : string) : option pyval :=
  match d with
  | [] => None
  | (k', v) :: d' => if String.eqb k' k then Some v else lookup d' k
  end.

(** [v[k]] for a string key [k]. *)
Definition getitem (v : pyval) (k : string) : result pyval :=
  match v with
  | VDict d => match lookup d k with Some x => Ok x | None => Raise KeyError end
  | _ => Raise TypeError
  end.

(** [v[0]] *)
Definition getitem0 (v : pyval) : result pyval :=
  match v with
  | VList (x :: _) => Ok x
  | VList [] => Raise IndexError
  | VStr (String c _) => Ok (VStr (String c EmptyString))
  | VStr EmptyString => Raise IndexError
  | VDict _ => Raise KeyError
  | _ => Raise TypeError
  end.

(** [v.get(k, default)] *)
Definition get (v : pyval) (k : string) (default : pyval) : result pyval :=
  match v with
  | VDict d => Ok (match lookup d k with Some x => x | None => default end)
  | _ => Raise AttributeError
  end.

Definition is_str (k : string) (v : pyval) : bool :=
  match v with
  | VStr s => String.eqb s k
  | _ => false
  end.

Definition is_substring (k s : string) : bool :=
  match index 0 k s with
  | Some _ => true
  | None => false
  end.

(** [k in v] for a string [k]. *)
Definition contains (k : string) (v : pyval) : result bool :=
  match v with
  | VDict d => Ok (match lookup d k with Some _ => true | None => false end)
  | VList l => Ok (existsb (is_str k) l)
  | VStr s => Ok (is_substring k s)
  | _ => Raise TypeError
  end.

(** [len(v)] *)
Definition len (v : pyval) : result nat :=
  match v with
  | VList l => Ok (List.length l)
  | VDict d => Ok (List.length d)
  | VStr s => Ok (String.length s)
  | _ => Raise TypeError
  end.

Fixpoint chars (s : string) : list pyval :=
  match s with
  | EmptyString => []
  | String c s' => VStr (String c EmptyString) :: chars s'
  end.

(** The elements a [for x in v] loop visits. *)
Definition iter (v : pyval) : result (list pyval) :=
  match v with
  | VList l => Ok l
  | VDict d => Ok (map (fun kv => VStr (fst kv)) d)
  | VStr s => Ok (chars s)
  | _ => Raise TypeError
  end.

(** A value used as a number; [bool] is a subtype of [int]. *)
Definition as_number (v : pyval) : result Q :=
  match v with
  | VNum q => Ok q
  | VBool b => Ok (if b then 1 else 0)
  | _ => Raise TypeError
  end.

Definition Qlt_bool (a b : Q) : bool := negb (Qle_bool b a).

(** [int(q)]: truncation toward zero. *)
Definition int (q : Q) : Z :=
  if Qle_bool 0 q then Qfloor q else Qceiling q.

(** The two-argument builtins [min(a, b)] and [max(a, b)] keep the first
    argument unless the second is strictly better. *)
Definition min2 (a b : Q) : Q := if Qlt_bool b a then b else a.
Definition max2 (a b : Q) : Q := if Qlt_bool a b then b else a.

(** [min(xs)] and [max(xs)] over a non-empty sequence. *)
Definition min_of (x : Q) (xs : list Q) : Q := fold_left min2 xs x.
Definition max_of (x : Q) (xs : list Q) : Q := fold_left max2 xs x.

End Py.

Export Py.

Declare Scope py_scope.
Notation "x <- m ;; k" := (Py.bind m (fun x => k))
  (at level 61, m at next level, right associativity) : py_scope.
Notation "' ( x , y ) <- m ;; k" := (Py.bind m (fun p => let '(x, y) := p in k))
  (at level 61, x name, y name, m at next level, right associativity) : py_scope.
Local Open Scope py_scope.

(* ===================================================================== *)
(** * The numpy operations the source uses                               *)
(* ===================================================================== *)

Module Np.

(** [np.linspace(0, 1, n)] *)
Definition linspace01 (n : Z) : result (list Q) :=
  if (n <? 0)%Z then Raise ValueError
  else
    let k := Z.to_nat n in
    Ok (map (fun i => inject_Z (Z.of_nat i) / inject_Z (n - 1)) (seq 0 k)).

(** Conversion of one element to [float64] when numpy builds an array of
    doubles from a Python sequence: numbers and bools convert; [None],
    strings and dicts are refused with [TypeError] (no safe cast), a nested
    sequence with [ValueError] (wrong depth). *)
Definition as_float (v : pyval) : result Q :=
  match v with
  | VNum q => Ok q
  | VBool b => Ok (if b then 1 else 0)
  | VList _ => Raise ValueError
  | _ => Raise TypeError
  end.

(** The index [j] of the last sample point with [xp[j] <= x], searched from
    index [i] on ([None] when there is none). *)
Fixpoint last_le (x : Q) (xp : list Q) (i : nat) : option nat :=
  match xp with
  | [] => None
  | p :: ps =>
      match last_le x ps (S i) with
      | Some j => Some j
      | None => if Qle_bool p x then Some i else None
      end
  end.

(** One evaluation of the interpolant, over non-empty [xp] and [fp] of equal
    length.  For non-decreasing [xp] (the only case numpy specifies) the
    interval found is the one numpy's binary search finds. *)
Definition interp1 (xp fp : list Q) (x : Q) : Q :=
  let n := List.length xp in
  if Qlt_bool (nth (n - 1) xp 0) x then nth (n - 1) fp 0
  else if Qlt_bool x (nth 0 xp 0) then nth 0 fp 0
  else
    match last_le x xp 0 with
    | None => nth 0 fp 0
    | Some j =>
        if Nat.eqb j (n - 1) then nth j fp 0
        else if Qeq_bool (nth j xp 0) x then nth j fp 0
        else
          let slope := (nth (S j) fp 0 - nth j fp 0) / (nth (S j) xp 0 - nth j xp 0) in
          slope * (x - nth j xp 0) + nth j fp 0
    end.

(** [np.interp(x, xp, fp)] *)
Definition interp (x : list Q) (xp fp : list pyval) : result (list Q) :=
  fp' <- mapM as_float fp ;;
  xp' <- mapM as_float xp ;;
  match xp' with
  | [] => Raise ValueError
  | _ =>
      if Nat.eqb (List.length fp') (List.length xp')
      then Ok (map (interp1 xp' fp') x)
      else Raise ValueError
  end.

(** [np.allclose(a, b)] for an array [a] and a scalar [b], with the default
    tolerances [rtol = 1e-05], [atol = 1e-08]. *)
Definition isclose (b a : Q) : bool :=
  Qle_bool (Qabs (a - b)) (1e-8 + 1e-5 * Qabs b).

Definition allclose (a : list Q) (b : Q) : bool := forallb (isclose b) a.

(** [np.full_like(a, fill)] for an array of doubles [a]. *)
Definition full_like (a : list Q) (fill : Z) : list Q :=
  map (fun _ => inject_Z fill) a.

(** [x.astype(np.uint8)] on one double: drop the fraction, keep eight bits. *)
Definition astype_uint8 (q : Q) : Q := inject_Z (Py.int q mod 256).

(** [np.gradient(a)]: one-sided differences at the ends, central inside. *)
Fixpoint central (prev cur : Q) (rest : list Q) : list Q :=
  match rest with
  | [] => [cur - prev]
  | nxt :: rest' => ((nxt - prev) / 2) :: central cur nxt rest'
  end.

Definition gradient (a : list Q) : result (list Q) :=
  match a with
  | x0 :: x1 :: rest => Ok ((x1 - x0) :: central x0 x1 rest)
  | _ => Raise ValueError
  end.

Definition sum (a : list Q) : Q := fold_left Qplus a 0.

(** [np.mean(a)] *)
Definition mean (a : list Q) : Q := sum a / inject_Z (Z.of_nat (List.length a)).

(** [a.cumsum()] on an integer array. *)
Fixpoint cumsum_from (acc : Z) (l : list Z) : list Z :=
  match l with
  | [] => []
  | x :: xs => (acc + x)%Z :: cumsum_from (acc + x)%Z xs
  end.

Definition cumsum (l : list Z) : list Z := cumsum_from 0%Z l.

End Np.

(* ===================================================================== *)
(** * The [random] module: an oracle threaded through the computation    *)
(* ===================================================================== *)

Module Random.

(** The generator: an unbounded supply of raw draws and a read position. *)
Record rng : Type := mkRng { draws : nat -> N; pos : nat }.

(** Code that consumes random draws and may raise. *)
Definition M (A : Type) : Type := rng -> result (A * rng).

Definition ret {A : Type} (a : A) : M A := fun g => Ok (a, g).

Definition bindM {A B : Type} (m : M A) (k : A -> M B) : M B :=
  fun g =>
    match m g with
    | Ok (a, g') => k a g'
    | Raise e => Raise e
    end.

Definition raise {A : Type} (e : exn) : M A := fun _ => Raise e.

Definition lift {A : Type} (r : result A) : M A :=
  fun g =>
    match r with
    | Ok a => Ok (a, g)
    | Raise e => Raise e
    end.

Definition next : M N :=
  fun g => Ok (draws g (pos g), mkRng (draws g) (S (pos g))).

(** [random.random()]: 53 random bits scaled into [0, 1). *)
Definition unit_of (r : N) : Q :=
  Qmake (Z.of_N (r mod 9007199254740992)) 9007199254740992.

Definition random : M Q := bindM next (fun r => ret (unit_of r)).

(** [random.uniform(a, b)] is [a + (b - a) * random()]. *)
Definition uniform (a b : Q) : M Q :=
  bindM random (fun u => ret (a + (b - a) * u)).

(** A uniform integer below [n], for [0 < n]. *)
Definition randbelow (n : Z) : M Z :=
  bindM next (fun r => ret (Z.of_N r mod n)%Z).

(** [random.randint(a, b)]: an integer of [a..b], [ValueError] when empty. *)
Definition randint (a b : Z) : M Z :=
  if (b <? a)%Z then raise ValueError
  else bindM (randbelow (b - a + 1)) (fun k => ret (a + k)%Z).

(** [random.choice(seq)] *)
Definition choice {A : Type} (l : list A) : M A :=
  match l with
  | [] => raise IndexError
  | d :: _ =>
      bindM (randbelow (Z.of_nat (List.length l)))
            (fun k => ret (nth (Z.to_nat k) l d))
  end.

(** [n] successive runs of [m], results in order. *)
Fixpoint replicateM {A : Type} (n : nat) (m : M A) : M (list A) :=
  match n with
  | O => ret []
  | S n' => bindM m (fun x => bindM (replicateM n' m) (fun xs => ret (x :: xs)))
  end.

(** A [for] loop that appends one result per element. *)
Fixpoint forM {A B : Type} (l : list A) (f : A -> M B) : M (list B) :=
  match l with
  | [] => ret []
  | x :: xs => bindM (f x) (fun y => bindM (forM xs f) (fun ys => ret (y :: ys)))
  end.

End Random.

Export Random.

Declare Scope rng_scope.
Delimit Scope rng_scope with rng.
Notation "x <~ m ;; k" := (Random.bindM m (fun x => k))
  (at level 61, m at next level, right associativity) : rng_scope.
Local Open Scope rng_scope.

(** [sorted(xs)] on numbers: a stable insertion sort. *)
Fixpoint insert_sorted (x : Q) (l : list Q) : list Q :=
  match l with
  | [] => [x]
  | y :: ys => if Py.Qlt_bool x y then x :: y :: ys else y :: insert_sorted x ys
  end.

Fixpoint sorted (l : list Q) : list Q :=
  match l with
  | [] => []
  | x :: xs => insert_sorted x (sorted xs)
  end.

(* ===================================================================== *)
(** * enums.py                                                           *)
(* ===================================================================== *)

Inductive FloatCurveType : Type :=
| PARABOLIC | SINUSOIDAL | EXPONENTIAL | LOGARITHMIC | BELL | CUBIC | STEP
| RANDOM | QUADRATIC | HYPERBOLIC | LERP | DRAGON | CYCLE | RAINBOW
| EULER_SPIRAL | FIBONACCI_WEIGHTED.

(** [list(FloatCurveType)], in definition order. *)
Definition all_FloatCurveType : list FloatCurveType :=
  [PARABOLIC; SINUSOIDAL; EXPONENTIAL; LOGARITHMIC; BELL; CUBIC; STEP;
   RANDOM; QUADRATIC; HYPERBOLIC; LERP; DRAGON; CYCLE; RAINBOW;
   EULER_SPIRAL; FIBONACCI_WEIGHTED].

(** [member.name] *)
Definition name_of (ty : FloatCurveType) : string :=
  match ty with
  | PARABOLIC => "PARABOLIC" | SINUSOIDAL => "SINUSOIDAL"
  | EXPONENTIAL => "EXPONENTIAL" | LOGARITHMIC => "LOGARITHMIC"
  | BELL => "BELL" | CUBIC => "CUBIC" | STEP => "STEP" | RANDOM => "RANDOM"
  | QUADRATIC => "QUADRATIC" | HYPERBOLIC => "HYPERBOLIC" | LERP => "LERP"
  | DRAGON => "DRAGON" | CYCLE => "CYCLE" | RAINBOW => "RAINBOW"
  | EULER_SPIRAL => "EULER_SPIRAL"
  | FIBONACCI_WEIGHTED => "FIBONACCI_WEIGHTED"
  end.

(** [FloatCurveType[s]]: lookup of a member by name, [KeyError] otherwise. *)
Definition FloatCurveType_getitem (s : string) : result FloatCurveType :=
  match find (fun ty => String.eqb (name_of ty) s) all_FloatCurveType with
  | Some ty => Ok ty
  | None => Raise KeyError
  end.

Definition FloatCurveType_eqb (a b : FloatCurveType) : bool :=
  String.eqb (name_of a) (name_of b).

(** [s.upper()] on an ASCII string. *)
Definition upper_ascii (c : ascii) : ascii :=
  let n := nat_of_ascii c in
  if (andb (Nat.leb 97 n) (Nat.leb n 122)) then ascii_of_nat (n - 32) else c.

Fixpoint upper (s : string) : string :=
  match s with
  | EmptyString => EmptyString
  | String c s' => String (upper_ascii c) (upper s')
  end.

(* ===================================================================== *)
(** * The interface of [math] and [scipy.special]                        *)
(* ===================================================================== *)

(** The transcendental functions are library code outside the repository;
    the synthesis code is parametric in them.  Division is the total
    division of [Q]. *)
Class MathLib : Type := {
  m_pi : Q;
  m_e : Q;
  m_sin : Q -> Q;
  m_exp : Q -> Q;
  m_log : Q -> Q;
  m_log1p : Q -> Q;
  m_sqrt : Q -> Q;
  m_pow : Q -> Q -> Q;          (* [x ** y] for a float exponent *)
  fresnel : Q -> Q * Q          (* [scipy.special.fresnel]: (S, C) *)
}.

(* ===================================================================== *)
(** * curve_helper.py: class CurveHelper                                 *)
(* ===================================================================== *)

(** One keyframe, as the dict the source appends to [keys]. *)
Record Key : Type := mkKey {
  interpMode : string;
  tangentMode : string;
  tangentWeightMode : string;
  time : Q;
  value : Q;
  arriveTangent : Q;
  arriveTangentWeight : Q;
  leaveTangent : Q;
  leaveTangentWeight : Q
}.

Record FloatCurve : Type := mkFloatCurve {
  keys : list Key;
  defaultValue : Q;
  preInfinityExtrap : string;
  postInfinityExtrap : string
}.

Definition Key_to_py (k : Key) : pyval :=
  VDict [("interpMode", VStr (interpMode k));
         ("tangentMode", VStr (tangentMode k));
         ("tangentWeightMode", VStr (tangentWeightMode k));
         ("time", VNum (time k));
         ("value", VNum (value k));
         ("arriveTangent", VNum (arriveTangent k));
         ("arriveTangentWeight", VNum (arriveTangentWeight k));
         ("leaveTangent", VNum (leaveTangent k));
         ("leaveTangentWeight", VNum (leaveTangentWeight k))].

Definition FloatCurve_to_py (c : FloatCurve) : pyval :=
  VDict [("keys", VList (map Key_to_py (keys c)));
         ("defaultValue", VNum (defaultValue c));
         ("preInfinityExtrap", VStr (preInfinityExtrap c));
         ("postInfinityExtrap", VStr (postInfinityExtrap c))].

(** FLT_MAX, the placeholder stored in [defaultValue]. *)
Definition FLT_MAX : Q := 3.4028234663852886e+38.

Module CurveHelper.

(** [remap(values, old_min, old_max, new_min, new_max)], on an array. *)
Definition remap (values : list Q) (old_min old_max new_min new_max : Q) : list Q :=
  map (fun v => (v - old_min) / (old_max - old_min) * (new_max - new_min) + new_min)
      values.

(** [0 if abs(v) < epsilon else v] *)
Definition snap (epsilon : Q) (v : pyval) : result pyval :=
  a <- as_number v ;;
  Ok (if Py.Qlt_bool (Qabs a) epsilon then VNum 0 else v).

Definition epsilon_default : Q := 1e-6.

(** [extract_curve_data(curve, epsilon=1e-6)] *)
Definition extract_curve_data (curve : pyval) (epsilon : Q)
  : result (list pyval * list pyval) :=
  n <- len curve ;;
  if Nat.eqb n 1 then
    k0 <- getitem0 curve ;;
    constant_value <- getitem k0 "value" ;;
    Ok ([VNum 0; VNum 1], [constant_value; constant_value])
  else
    ks <- iter curve ;;
    times <- mapM (fun key => getitem key "time") ks ;;
    values <- mapM (fun key => getitem key "value") ks ;;
    values <- mapM (snap epsilon) values ;;
    Ok (times, values).

(** [clamp(value, min_value, max_value)] *)
Definition clamp (v min_value max_value : Q) : Q :=
  Py.max2 min_value (Py.min2 v max_value).

(** [process_alpha_channel(alpha_normalized)] *)
Definition process_alpha_channel (alpha_normalized : list Q) : result (list Q) :=
  match alpha_normalized with
  | [] => Raise IndexError
  | a0 :: rest =>
      if Np.allclose alpha_normalized a0 then
        Ok (Np.full_like alpha_normalized (Py.int (a0 * 255)))
      else
        let min_alpha := Py.min_of a0 rest in
        let max_alpha := Py.max_of a0 rest in
        if Qeq_bool min_alpha max_alpha then
          Ok (Np.full_like alpha_normalized 255)
        else
          Ok (map Np.astype_uint8 (remap alpha_normalized min_alpha max_alpha 0 255))
  end.

Section Synthesis.

Context {ML : MathLib}.

(** [generate_dragon_step_value(t)] *)
Definition generate_dragon_step_value (t : Q) : Q :=
  let theta := t * 4 * m_pi in
  let v := 0.3 * m_sin theta
           + 0.2 * m_sin (3 * theta + m_pi / 4)
           + 0.1 * m_sin (5 * theta + m_pi / 2) in
  let normalized_value := (v + 0.6) / 1.2 in
  clamp normalized_value 0 1.

(** [generate_rainbow_value(t)] *)
Definition generate_rainbow_value (t : Q) : Q :=
  let v := (m_sin (2 * m_pi * t - m_pi / 2) + 1) / 2 in
  clamp v 0 1.

(** [generate_euler_spiral_value(t)] *)
Definition generate_euler_spiral_value (t : Q) : Q :=
  let '(_, C) := fresnel t in
  let normalized_value := 2 * C in
  clamp normalized_value 0 1.

(** [generate_fibonacci_weighted_value(t)] *)
Definition generate_fibonacci_weighted_value (t : Q) : Q :=
  let phi := (1 + m_sqrt 5) / 2 in
  let v := m_pow t phi / (m_pow t phi + m_pow (1 - t) phi) in
  clamp v 0 1.

(** The [value = ...] line of each branch of the family dispatch.  STEP and
    RANDOM draw from the generator, inside the per-key loop. *)
Definition shape_value (ty : FloatCurveType) (t : Q) : M Q :=
  match ty with
  | PARABOLIC => ret ((t - 0.5) ^ 2)
  | SINUSOIDAL => ret ((m_sin (t * m_pi - m_pi / 2) + 1) / 2)
  | EXPONENTIAL => ret (t ^ 3)
  | LOGARITHMIC => ret (m_log1p (t * (m_e - 1)) / m_log m_e)
  | BELL => ret (m_exp (- ((t - 0.5) ^ 2) / (2 * 0.05 ^ 2)))
  | CUBIC => ret (4 * (t - 0.5) ^ 3 + 0.5)
  | STEP =>
      step_position <~ uniform 0.3 0.7 ;;
      ret (if Py.Qlt_bool t step_position then 0 else 1)
  | RANDOM => uniform 0 1
  | QUADRATIC => ret (t ^ 2)
  | HYPERBOLIC => ret (1 / (1 + m_exp (-10 * (t - 0.5))))
  | LERP => ret t
  | DRAGON => ret (generate_dragon_step_value t)
  | CYCLE => ret ((m_sin (2 * m_pi * t) + 1) / 2)
  | RAINBOW => ret (generate_rainbow_value t)
  | EULER_SPIRAL => ret (generate_euler_spiral_value t)
  | FIBONACCI_WEIGHTED => ret (generate_fibonacci_weighted_value t)
  end.

(** The four tangent scalars of a branch, in the order the source draws
    them: arrive tangent, leave tangent, arrive weight, leave weight. *)
Definition draw_tangents (at_lo at_hi lt_lo lt_hi aw_lo aw_hi lw_lo lw_hi : Q)
  : M (Q * Q * Q * Q) :=
  arrive_tangent <~ uniform at_lo at_hi ;;
  leave_tangent <~ uniform lt_lo lt_hi ;;
  arrive_tangent_weight <~ uniform aw_lo aw_hi ;;
  leave_tangent_weight <~ uniform lw_lo lw_hi ;;
  ret (arrive_tangent, leave_tangent, arrive_tangent_weight, leave_tangent_weight).

Definition shape_tangents (ty : FloatCurveType) : M (Q * Q * Q * Q) :=
  match ty with
  | PARABOLIC => draw_tangents (-0.2) 0.2 (-0.2) 0.2 0.2 0.6 0.2 0.6
  | SINUSOIDAL => draw_tangents (-0.2) 0.2 (-0.2) 0.2 0.3 0.7 0.3 0.7
  | EXPONENTIAL => draw_tangents 0 0.3 0.5 1.0 0.1 0.4 0.5 1.0
  | LOGARITHMIC => draw_tangents 0.1 0.5 0.1 0.5 0.1 0.3 0.1 0.3
  | BELL => draw_tangents (-0.1) 0.1 (-0.1) 0.1 0.2 0.5 0.2 0.5
  | CUBIC => draw_tangents (-0.2) 0.2 (-0.2) 0.2 0.3 0.7 0.3 0.7
  | STEP => ret (0, 0, 0, 0)
  | RANDOM => draw_tangents (-0.5) 0.5 (-0.5) 0.5 0 1 0 1
  | QUADRATIC => draw_tangents (-0.3) 0.3 (-0.3) 0.3 0.2 0.6 0.2 0.6
  | HYPERBOLIC => draw_tangents (-0.4) 0.4 (-0.4) 0.4 0.3 0.7 0.3 0.7
  | LERP => ret (0, 0, 0, 0)
  | DRAGON => draw_tangents (-0.3) 0.3 (-0.3) 0.3 0.3 0.7 0.3 0.7
  | CYCLE => draw_tangents (-0.2) 0.2 (-0.2) 0.2 0.3 0.7 0.3 0.7
  | RAINBOW => draw_tangents (-0.3) 0.3 (-0.3) 0.3 0.3 0.7 0.3 0.7
  | EULER_SPIRAL => draw_tangents (-0.4) 0.4 (-0.4) 0.4 0.3 0.7 0.3 0.7
  | FIBONACCI_WEIGHTED => draw_tangents (-0.5) 0.5 (-0.5) 0.5 0.3 0.7 0.3 0.7
  end.

(** (interp_mode, tangent_mode, tangent_weight_mode) of each branch. *)
Definition shape_modes (ty : FloatCurveType) : string * string * string :=
  match ty with
  | PARABOLIC | BELL | CUBIC | QUADRATIC | HYPERBOLIC =>
      ("RCIM_Cubic", "RCTM_Auto", "RCTWM_WeightedBoth")
  | SINUSOIDAL | CYCLE => ("RCIM_Cubic", "RCTM_Auto", "RCTWM_WeightedArrive")
  | EXPONENTIAL => ("RCIM_Linear", "RCTM_Break", "RCTWM_WeightedLeave")
  | LOGARITHMIC => ("RCIM_Linear", "RCTM_Break", "RCTWM_WeightedArrive")
  | STEP => ("RCIM_Constant", "RCTM_Break", "RCTWM_WeightedNone")
  | RANDOM | LERP => ("RCIM_Linear", "RCTM_Break", "RCTWM_WeightedNone")
  | DRAGON | RAINBOW | EULER_SPIRAL | FIBONACCI_WEIGHTED =>
      ("RCIM_Cubic", "RCTM_User", "RCTWM_WeightedBoth")
  end.

(** The noise amplitude [0.1 / (math.log(num_keys + 1) + 1)]. *)
Definition noise_range (num_keys : Z) : Q :=
  0.1 / (m_log (inject_Z (num_keys + 1)) + 1).

Definition build_key (ty : FloatCurveType) (t v : Q) (tg : Q * Q * Q * Q) : Key :=
  let '(interp_mode, tangent_mode, tangent_weight_mode) := shape_modes ty in
  let '(arrive_tangent, leave_tangent, arrive_tangent_weight, leave_tangent_weight) := tg in
  mkKey interp_mode tangent_mode tangent_weight_mode t v
        arrive_tangent arrive_tangent_weight leave_tangent leave_tangent_weight.

(** One iteration of the key loop of [generate_random_float_curve]. *)
Definition random_key (ty : FloatCurveType) (num_keys : Z) (t : Q) : M Key :=
  v <~ shape_value ty t ;;
  tg <~ shape_tangents ty ;;
  noise <~ uniform (- noise_range num_keys) (noise_range num_keys) ;;
  let v := clamp (v + noise) 0 1 in
  ret (build_key ty t v tg).

(** [generate_random_float_curve(min_keys, max_keys, float_curve_type)] *)
Definition generate_random_float_curve
  (min_keys max_keys : Z) (float_curve_type : option FloatCurveType) : M FloatCurve :=
  ty <~ match float_curve_type with
        | None => choice all_FloatCurveType
        | Some ty => ret ty
        end ;;
  num_keys <~ randint min_keys max_keys ;;
  draws <~ replicateM (Z.to_nat num_keys) (uniform 0 1) ;;
  let times := sorted draws in
  keys <~ forM times (random_key ty num_keys) ;;
  ret (mkFloatCurve keys FLT_MAX "RCCE_Constant" "RCCE_Constant").

(** [default_key_counts] *)
Definition default_key_counts (ty : FloatCurveType) : Z :=
  match ty with
  | PARABOLIC => 120 | SINUSOIDAL => 130 | EXPONENTIAL => 115
  | LOGARITHMIC => 115 | BELL => 125 | CUBIC => 120 | STEP => 110
  | QUADRATIC => 120 | HYPERBOLIC => 115 | LERP => 110 | DRAGON => 140
  | CYCLE => 130 | RAINBOW => 150 | EULER_SPIRAL => 135
  | FIBONACCI_WEIGHTED => 125 | RANDOM => 150
  end.

(** One iteration of the key loop of [generate_float_curve]. *)
Definition scaled_key (ty : FloatCurveType) (num_keys : Z) (noise_scale : Q) (t : Q)
  : M Key :=
  v <~ shape_value ty t ;;
  tg <~ shape_tangents ty ;;
  v <~ (if negb (Qeq_bool noise_scale 0) then
          noise <~ uniform (- noise_range num_keys) (noise_range num_keys) ;;
          ret (clamp (v + noise * noise_scale) 0 1)
        else ret v) ;;
  ret (build_key ty t v tg).

(** [generate_float_curve(float_curve_type, resolution_scale, noise_scale)].
    The fallback argument of [default_key_counts.get] is evaluated before
    the lookup, so one [randint] draw is always consumed. *)
Definition generate_float_curve
  (float_curve_type : option FloatCurveType) (resolution_scale noise_scale : Q)
  : M FloatCurve :=
  ty <~ match float_curve_type with
        | None => choice all_FloatCurveType
        | Some ty => ret ty
        end ;;
  let min_keys := 2%Z in
  let max_keys := 100%Z in
  _fallback <~ randint min_keys max_keys ;;
  let default_num_keys := default_key_counts ty in
  num_keys <~ (if FloatCurveType_eqb ty RANDOM then randint min_keys max_keys
               else
                 let n := Py.int (inject_Z default_num_keys * resolution_scale) in
                 ret (Z.max min_keys (Z.min n max_keys))) ;;
  draws <~ replicateM (Z.to_nat num_keys) (uniform 0 1) ;;
  let times := sorted draws in
  keys <~ forM times (scaled_key ty num_keys noise_scale) ;;
  ret (mkFloatCurve keys FLT_MAX "RCCE_Constant" "RCCE_Constant").

End Synthesis.

(** ** Collaborators outside the repository's source

    [uuid.uuid4], the clock, [str] of a non-string value, PIL's
    [Image.alpha_composite], [np.std], and the metadata hook
    [CurveHelper.append_metadata], which the class calls but does not
    define. *)

Definition pixel : Type := (Z * Z * Z * Z)%type.
Definition Image : Type := list (list pixel).

Class Host : Type := {
  uuid4 : string;
  utc_time_string : string;
  py_str : pyval -> string;
  append_metadata : string -> pyval -> result unit;
  alpha_composite : Image -> Image -> Image;
  np_std : list Q -> Q
}.

Record GradientInfo : Type := mkGradientInfo {
  red_gradient_mean : Q;
  green_gradient_mean : Q;
  blue_gradient_mean : Q;
  alpha_spikiness : Q
}.

(** ["-".join(parts)] *)
Fixpoint join_dash (parts : list string) : string :=
  match parts with
  | [] => ""
  | [p] => p
  | p :: ps => p ++ "-" ++ join_dash ps
  end.

(** [s.strip("-")] *)
Fixpoint lstrip_dash (s : string) : string :=
  match s with
  | String "-" s' => lstrip_dash s'
  | _ => s
  end.

Fixpoint rstrip_dash (s : string) : string :=
  match s with
  | EmptyString => EmptyString
  | String c s' =>
      match rstrip_dash s' with
      | EmptyString => if Ascii.eqb c "-" then EmptyString else String c EmptyString
      | r => String c r
      end
  end.

Definition strip_dash (s : string) : string := rstrip_dash (lstrip_dash s).

Section Assembly.

Context {ML : MathLib} {H : Host}.

(** The text ["{}".format(v)] puts for [v]. *)
Definition format_value (v : pyval) : string :=
  match v with
  | VStr s => s
  | _ => py_str v
  end.

Definition asset_import_data : pyval :=
  VDict [("_ClassName", VStr "/Script/Engine.AssetImportData");
         ("sourceData", VDict [])].

(** The seven [random.uniform(0, randomize_adjustments)] draws. *)
Definition draw_adjustments (randomize_adjustments : Q) : M (list (string * pyval)) :=
  adjustHue <~ uniform 0 randomize_adjustments ;;
  adjustSaturation <~ uniform 0 randomize_adjustments ;;
  adjustBrightness <~ uniform 0 randomize_adjustments ;;
  adjustBrightnessCurve <~ uniform 0 randomize_adjustments ;;
  adjustVibrance <~ uniform 0 randomize_adjustments ;;
  adjustMinAlpha <~ uniform 0 randomize_adjustments ;;
  adjustMaxAlpha <~ uniform 0 randomize_adjustments ;;
  ret [("adjustHue", VNum adjustHue);
       ("adjustSaturation", VNum adjustSaturation);
       ("adjustBrightness", VNum adjustBrightness);
       ("adjustBrightnessCurve", VNum adjustBrightnessCurve);
       ("adjustVibrance", VNum adjustVibrance);
       ("adjustMinAlpha", VNum adjustMinAlpha);
       ("adjustMaxAlpha", VNum adjustMaxAlpha)].

Definition channels : list string := ["R"; "G"; "B"; "A"].

(** The base [curve_json] dict of both assemblers. *)
Definition base_curve_json (float_curves : list (string * pyval))
  (adjustments : list (string * pyval)) : list (string * pyval) :=
  [("floatCurves", VDict float_curves)] ++ adjustments ++
  [("assetImportData", asset_import_data);
   ("created_at", VStr utc_time_string)].

(** [generate_random_color_curve()] *)
Definition generate_random_color_curve : M pyval :=
  let curve_id := uuid4 in
  float_curve_types <~ forM channels (fun _ => choice all_FloatCurveType) ;;
  float_curves <~ forM (combine channels float_curve_types)
     (fun ct => c <~ generate_random_float_curve 2 100 (Some (snd ct)) ;;
                ret (fst ct, FloatCurve_to_py c)) ;;
  adjustments <~ draw_adjustments 0.1 ;;
  let curve_type_comp := join_dash (map name_of float_curve_types) in
  let curve_json := VDict (base_curve_json float_curves adjustments) in
  ret (VDict [("curve_id", VStr curve_id);
              ("curve_type_comp", VStr curve_type_comp);
              ("curve_json", curve_json)]).

(** The local helper [get_enum(json_key, default)] of
    [generate_color_curve_from_spec]: only [KeyError] is handled. *)
Definition get_enum (json_data : list (string * pyval)) (json_key default : string)
  : result FloatCurveType :=
  try_except
    (match (match lookup json_data json_key with
            | Some v => v
            | None => VStr default
            end) with
     | VStr s => FloatCurveType_getitem (upper s)
     | _ => Raise AttributeError
     end)
    [KeyError]
    (Ok PARABOLIC).

(** [json_data.get(key, default)] read where the source needs a number. *)
Definition get_number (json_data : list (string * pyval)) (key : string) (default : Q)
  : result Q :=
  match lookup json_data key with
  | Some v => as_number v
  | None => Ok default
  end.

Definition get_value (json_data : list (string * pyval)) (key : string)
  (default : pyval) : pyval :=
  match lookup json_data key with
  | Some v => v
  | None => default
  end.

Definition is_truthy_dict (d : list (string * pyval)) : bool :=
  match d with
  | [] => false
  | _ => true
  end.

(** [generate_color_curve_from_spec(json_data, float_curve_type)].  A scale
    that is not a number is reported as [TypeError] when it is read. *)
Definition generate_color_curve_from_spec
  (json_data : option (list (string * pyval)))
  (float_curve_type : option FloatCurveType) : M pyval :=
  let curve_id := uuid4 in
  match json_data with
  | None =>
      float_curve_types <~ forM channels
         (fun _ => match float_curve_type with
                   | Some ty => ret ty
                   | None => choice all_FloatCurveType
                   end) ;;
      float_curves <~ forM (combine channels float_curve_types)
         (fun ct => c <~ generate_random_float_curve 2 100 (Some (snd ct)) ;;
                    ret (fst ct, FloatCurve_to_py c)) ;;
      adjustments <~ draw_adjustments 0 ;;
      let curve_type_comp := join_dash (map name_of float_curve_types) in
      let curve_json := VDict (base_curve_json float_curves adjustments) in
      ret (VDict [("curve_id", VStr curve_id);
                  ("curve_type_comp", VStr curve_type_comp);
                  ("curve_json", curve_json)])
  | Some jd =>
      float_curve_types <~ forM channels
         (fun ch => lift (get_enum jd (ch ++ "_float_curve_type") "PARABOLIC")) ;;
      float_curves <~ forM (combine channels float_curve_types)
         (fun ct =>
            resolution_scale <~ lift (get_number jd (fst ct ++ "_resolution_scale") 1.0) ;;
            noise_scale <~ lift (get_number jd (fst ct ++ "_noise_scale") 0.0) ;;
            c <~ generate_float_curve (Some (snd ct)) resolution_scale noise_scale ;;
            ret (fst ct, FloatCurve_to_py c)) ;;
      x_type <~ lift (get_enum jd "meta_x_offset_curve_type" "PARABOLIC") ;;
      x_rs <~ lift (get_number jd "meta_x_resolution_scale" 1.0) ;;
      x_ns <~ lift (get_number jd "meta_x_noise_scale" 0.0) ;;
      x_offset_curve <~ generate_float_curve (Some x_type) x_rs x_ns ;;
      y_type <~ lift (get_enum jd "meta_y_offset_curve_type" "PARABOLIC") ;;
      y_rs <~ lift (get_number jd "meta_y_resolution_scale" 1.0) ;;
      y_ns <~ lift (get_number jd "meta_y_noise_scale" 0.0) ;;
      y_offset_curve <~ generate_float_curve (Some y_type) y_rs y_ns ;;
      randomize_adjustments <~
        (if is_truthy_dict jd then lift (get_number jd "randomize_adjustments" 0)
         else ret 0) ;;
      adjustments <~ draw_adjustments randomize_adjustments ;;
      let name := get_value jd "name" (VStr "Unnamed Curve") in
      let curve_type_comp :=
        if is_truthy_dict jd then
          VStr (strip_dash
                  (join_dash
                     [format_value name;
                      format_value (get_value jd "R_float_curve_type" (VStr ""));
                      format_value (get_value jd "G_float_curve_type" (VStr ""));
                      format_value (get_value jd "B_float_curve_type" (VStr ""));
                      format_value (get_value jd "A_float_curve_type" (VStr ""))]))
        else name in
      let curve_json :=
        VDict (base_curve_json float_curves adjustments ++
               [("metaCurves",
                 VDict [("x_offset_curve", FloatCurve_to_py x_offset_curve);
                        ("y_offset_curve", FloatCurve_to_py y_offset_curve);
                        ("x_offset_scale", get_value jd "meta_x_offset_scale" (VNum 0.0));
                        ("y_offset_scale", get_value jd "meta_y_offset_scale" (VNum 0.0))])]) in
      let final_json :=
        VDict [("curve_id", VStr curve_id);
               ("name", name);
               ("description", get_value jd "description" (VStr ""));
               ("curve_type_comp", curve_type_comp);
               ("curve_json", curve_json)] in
      _ <~ lift (append_metadata curve_id name) ;;
      ret final_json
  end.

End Assembly.

Section Rasterizer.

Context {H : Host}.

(** [all(channel in float_curves for channel in ["R", "G", "B", "A"])] *)
Fixpoint all_channels_in (cs : list string) (float_curves : pyval) : result bool :=
  match cs with
  | [] => Ok true
  | c :: cs' =>
      b <- contains c float_curves ;;
      if b then all_channels_in cs' float_curves else Ok false
  end.

(** [extract_curve_data(float_curves[c]["keys"])] *)
Definition channel_data (float_curves : pyval) (c : string)
  : result (list pyval * list pyval) :=
  fc <- getitem float_curves c ;;
  ks <- getitem fc "keys" ;;
  extract_curve_data ks epsilon_default.

(** The four extractions, the four resamplings and the alpha remap shared
    by the rasterizer and the row integral. *)
Definition sample_channels (float_curves : pyval) (width : Z)
  : result (list Q * list Q * list Q * list Q * list Q) :=
  '(red_times, red_values) <- channel_data float_curves "R" ;;
  '(green_times, green_values) <- channel_data float_curves "G" ;;
  '(blue_times, blue_values) <- channel_data float_curves "B" ;;
  '(alpha_times, alpha_values) <- channel_data float_curves "A" ;;
  xs <- Np.linspace01 width ;;
  red_normalized <- Np.interp xs red_times red_values ;;
  xs <- Np.linspace01 width ;;
  green_normalized <- Np.interp xs green_times green_values ;;
  xs <- Np.linspace01 width ;;
  blue_normalized <- Np.interp xs blue_times blue_values ;;
  xs <- Np.linspace01 width ;;
  alpha_normalized <- Np.interp xs alpha_times alpha_values ;;
  alpha_remapped <- process_alpha_channel alpha_normalized ;;
  Ok (red_normalized, green_normalized, blue_normalized, alpha_normalized,
      alpha_remapped).

Fixpoint map_index {A B : Type} (f : nat -> A -> B) (i : nat) (l : list A) : list B :=
  match l with
  | [] => []
  | x :: xs => f i x :: map_index f (S i) xs
  end.

(** [draw.rectangle([x0, y0, x1, y1], fill=c)]: both corners included. *)
Definition draw_rectangle (img : Image) (x0 y0 x1 y1 : nat) (c : pixel) : Image :=
  map_index
    (fun y row =>
       map_index
         (fun x p =>
            if (Nat.leb y0 y && Nat.leb y y1 && Nat.leb x0 x && Nat.leb x x1)%bool
            then c else p)
         0%nat row)
    0%nat img.

(** [range(0, n, step)] *)
Definition range_step (n step : nat) : list nat :=
  map (fun i => (i * step)%nat) (seq 0 ((n + step - 1) / step)).

(** [create_checkered_background(width, height, square_size=8)] *)
Definition create_checkered_background (width height square_size : nat) : Image :=
  let background : Image := repeat (repeat (255, 255, 255, 0)%Z width) height in
  let colors : list pixel := [(200, 200, 200, 255)%Z; (255, 255, 255, 255)%Z] in
  fold_left
    (fun img y =>
       fold_left
         (fun img x =>
            let fill_color :=
              nth (((x / square_size) + (y / square_size)) mod 2)%nat colors
                  (255, 255, 255, 255)%Z in
            draw_rectangle img x y (x + square_size) (y + square_size) fill_color)
         (range_step width square_size) img)
    (range_step height square_size) background.

(** The statistics and samples computed inside the second [try] block. *)
Definition thumbnail_signals (float_curves : pyval)
  : result (list Q * list Q * list Q * list Q * (list Q * list Q * list Q * Q)) :=
  '(rgb_a, alpha_remapped) <- sample_channels float_curves 128 ;;
  let '(red_normalized, green_normalized, blue_normalized, _) := rgb_a in
  red_gradient <- Np.gradient red_normalized ;;
  green_gradient <- Np.gradient green_normalized ;;
  blue_gradient <- Np.gradient blue_normalized ;;
  alpha_gradient <- Np.gradient alpha_remapped ;;
  let alpha_spikiness := np_std alpha_gradient in
  Ok (red_normalized, green_normalized, blue_normalized, alpha_remapped,
      (red_gradient, green_gradient, blue_gradient, alpha_spikiness)).

Fixpoint zip4 {A : Type} (r g b a : list A) : list (A * A * A * A) :=
  match r, g, b, a with
  | r0 :: r', g0 :: g', b0 :: b', a0 :: a' => (r0, g0, b0, a0) :: zip4 r' g' b' a'
  | _, _, _, _ => []
  end.

(** [generate_thumbnail_from_curve(curve_json, transparent_background)];
    the result is the pair the source returns, [None] being [(None, None)]. *)
Definition generate_thumbnail_from_curve (curve_json : pyval)
  (transparent_background : bool) : result (option Image * option GradientInfo) :=
  let texture_width := 128%nat in
  let texture_height := 128%nat in
  match getitem curve_json "floatCurves" with
  | Raise KeyError => Ok (None, None)
  | Raise e => Raise e
  | Ok float_curves =>
      ok <- all_channels_in channels float_curves ;;
      if negb ok then Ok (None, None)
      else
        match thumbnail_signals float_curves with
        | Raise e =>
            if existsb (exn_eqb e) [IndexError; KeyError; TypeError]
            then Ok (None, None) else Raise e
        | Ok (red_normalized, green_normalized, blue_normalized, alpha_remapped,
              (red_gradient, green_gradient, blue_gradient, alpha_spikiness)) =>
            let row :=
              map (fun p =>
                     let '(r, g, b, a) := p in
                     (Py.int (clamp (r * 255) 0 255),
                      Py.int (clamp (g * 255) 0 255),
                      Py.int (clamp (b * 255) 0 255),
                      Py.int (clamp a 0 255)))
                  (zip4 red_normalized green_normalized blue_normalized
                        alpha_remapped) in
            let combined_img : Image := repeat row texture_height in
            let combined_with_background :=
              if negb transparent_background then
                alpha_composite
                  (create_checkered_background texture_width texture_height 8)
                  combined_img
              else combined_img in
            let gradient_info :=
              mkGradientInfo (Np.mean (map Qabs red_gradient))
                             (Np.mean (map Qabs green_gradient))
                             (Np.mean (map Qabs blue_gradient))
                             alpha_spikiness in
            Ok (Some combined_with_background, Some gradient_info)
        end
  end.

(** The [grayscale_row] of [compute_integral_from_curve_json]; [None] when
    the channel check returns early. *)
Definition grayscale_row (curve_json : pyval) (width : Z)
  : result (option (list Z)) :=
  float_curves <- getitem curve_json "floatCurves" ;;
  ok <- all_channels_in channels float_curves ;;
  if negb ok then Ok None
  else
    '(rgb_a, alpha_remapped) <- sample_channels float_curves width ;;
    let '(red_normalized, green_normalized, blue_normalized, _) := rgb_a in
    Ok (Some
          (map (fun p =>
                  let '(r, g, b, a) := p in
                  Py.int ((r + g + b) / 3 * (a / 255)))
               (zip4 (map (fun v => v * 255) red_normalized)
                     (map (fun v => v * 255) green_normalized)
                     (map (fun v => v * 255) blue_normalized)
                     alpha_remapped))).

(** [compute_integral_from_curve_json(curve_json, width=128)]: every
    exception is caught and turned into [None]. *)
Definition compute_integral_from_curve_json (curve_json : pyval) (width : Z)
  : option (list Z) :=
  try_except_all
    (g <- grayscale_row curve_json width ;;
     Ok (option_map Np.cumsum g))
    None.

End Rasterizer.

(** One entry of the exported [floatCurves] list. *)
Definition export_channel (float_curves : pyval) (channel : string)
  : result (option pyval) :=
  b <- contains channel float_curves ;;
  if b then
    fc <- getitem float_curves channel ;;
    ks <- get fc "keys" (VList []) ;;
    dv <- get fc "defaultValue" (VNum FLT_MAX) ;;
    pre <- get fc "preInfinityExtrap" (VStr "RCCE_Constant") ;;
    post <- get fc "postInfinityExtrap" (VStr "RCCE_Constant") ;;
    Ok (Some (VDict [("keys", ks); ("defaultValue", dv);
                     ("preInfinityExtrap", pre); ("postInfinityExtrap", post)]))
  else Ok None.

Fixpoint cat_options {A : Type} (l : list (option A)) : list A :=
  match l with
  | [] => []
  | Some x :: l' => x :: cat_options l'
  | None :: l' => cat_options l'
  end.

(** [convert_to_UE_output_format], between [json.loads] and [json.dumps]:
    from the decoded document to the document that is encoded. *)
Definition convert_to_UE_output_format (data : pyval) : result pyval :=
  adjustHue <- get data "adjustHue" (VNum 0.0) ;;
  adjustSaturation <- get data "adjustSaturation" (VNum 0.0) ;;
  adjustBrightness <- get data "adjustBrightness" (VNum 0.0) ;;
  adjustBrightnessCurve <- get data "adjustBrightnessCurve" (VNum 0.0) ;;
  adjustVibrance <- get data "adjustVibrance" (VNum 0.0) ;;
  adjustMinAlpha <- get data "adjustMinAlpha" (VNum 0.0) ;;
  adjustMaxAlpha <- get data "adjustMaxAlpha" (VNum 0.0) ;;
  assetImportData <- get data "assetImportData" (VDict []) ;;
  float_curves <- get data "floatCurves" (VDict []) ;;
  entries <- mapM (export_channel float_curves) ["R"; "G"; "B"; "A"] ;;
  Ok (VDict [("floatCurves", VList (cat_options entries));
             ("adjustHue", adjustHue);
             ("adjustSaturation", adjustSaturation);
             ("adjustBrightness", adjustBrightness);
             ("adjustBrightnessCurve", adjustBrightnessCurve);
             ("adjustVibrance", adjustVibrance);
             ("adjustMinAlpha", adjustMinAlpha);
             ("adjustMaxAlpha", adjustMaxAlpha);
             ("assetImportData", assetImportData)]).

End CurveHelper.

Import CurveHelper.

(* ===================================================================== *)
(** * Vocabulary of the statements                                       *)
(* ===================================================================== *)

(** What [extract_curve_data] stores for the value of a keyframe of a curve
    that does not have exactly one keyframe. *)
Definition snapped (epsilon : Q) (k : Key) : pyval :=
  if Py.Qlt_bool (Qabs (value k)) epsilon then VNum 0 else VNum (value k).



Definition key_at (t v : Q) : Key :=
  mkKey "RCIM_Linear" "RCTM_Break" "RCTWM_WeightedNone" t v 0 0 0 0.

Definition curve_of (ks : list Key) : pyval :=
  FloatCurve_to_py (mkFloatCurve ks FLT_MAX "RCCE_Constant" "RCCE_Constant").

(** A small record with the four channels: red and green ramps, a constant
    blue, and an alpha ramp. *)
Definition sample_record : pyval :=
  VDict [("floatCurves",
          VDict [("R", curve_of [key_at 0 0.2; key_at 1 0.8]);
                 ("G", curve_of [key_at 0 1; key_at 0.5 0; key_at 1 1]);
                 ("B", curve_of [key_at 0.5 0.5]);
                 ("A", curve_of [key_at 0 0; key_at 1 1])]);
         ("adjustHue", VNum 0);
         ("created_at", VStr "2024-01-01T00:00:00Z")].

(** A record with the four channels present whose red curve has an empty
    key list. *)
Definition empty_keys_record : pyval :=
  VDict [("floatCurves",
          VDict [("R", curve_of []);
                 ("G", curve_of [key_at 0 1; key_at 1 0]);
                 ("B", curve_of [key_at 0.5 0.5]);
                 ("A", curve_of [key_at 0 0; key_at 1 1])])].

(** [m] returns normally from every generator state, with a result in [Q]. *)
Definition returns {A : Type} (m : M A) (Q : A -> Prop) : Prop :=
  forall g, exists a g', m g = Ok (a, g') /\ Q a.

(** [a] is a result [m] can return. *)
Definition produces {A : Type} (m : M A) (a : A) : Prop :=
  exists g g', m g = Ok (a, g').


(** What one iteration of the key loop of [generate_float_curve] leaves in
    a keyframe at time [t]: the value of the family's branch, and the noise
    term only when [noise_scale] is not zero. *)
Definition scaled_key_post {ML : MathLib} (ty : FloatCurveType) (noise_scale : Q)
  (t : Q) (k : Key) : Prop :=
  time k = t
  /\ exists v0, produces (shape_value ty t) v0
       /\ if Qeq_bool noise_scale 0 then value k = v0
          else exists noise, value k = clamp (v0 + noise * noise_scale) 0 1.

(** The same for [generate_random_float_curve], whose noise is a draw from
    [uniform(-amplitude, amplitude)], always added. *)
Definition random_key_post {ML : MathLib} (ty : FloatCurveType) (amplitude : Q)
  (t : Q) (k : Key) : Prop :=
  time k = t
  /\ 0 <= value k /\ value k <= 1
  /\ exists v0 u, produces (shape_value ty t) v0
       /\ 0 <= u /\ u < 1
       /\ value k = clamp (v0 + (- amplitude + (amplitude - - amplitude) * u)) 0 1.

(** A placeholder for the math library, for evaluating the code on concrete
    generator states: the constants are rounded and every function is the
    constant 0.  What is evaluated with it below (key counts, ordering, step
    thresholds, record fields) does not depend on these functions. *)
Definition placeholder_math : MathLib :=
  {| m_pi := 3.141592653589793;
     m_e := 2.718281828459045;
     m_sin := fun _ => 0;
     m_exp := fun _ => 0;
     m_log := fun _ => 0;
     m_log1p := fun _ => 0;
     m_sqrt := fun _ => 0;
     m_pow := fun _ _ => 0;
     fresnel := fun _ => (0, 0) |}.

(** A host whose metadata hook succeeds. *)
Definition quiet_host : Host :=
  {| uuid4 := "3f2b8c1e-5d4a-4e6f-9a7b-0c1d2e3f4a5b";
     utc_time_string := "2024-01-01T00:00:00Z";
     py_str := fun _ => "";
     append_metadata := fun _ _ => Ok tt;
     alpha_composite := fun _ img => img;
     np_std := fun _ => 0 |}.

(** A generator whose every raw draw is 0. *)
Definition zero_rng : rng := mkRng (fun _ => 0%N) 0.


(** The seven adjustment entries of an assembled record. *)
Definition adjustment_fields (a1 a2 a3 a4 a5 a6 a7 : Q) : list (string * pyval) :=
  [("adjustHue", VNum a1);
   ("adjustSaturation", VNum a2);
   ("adjustBrightness", VNum a3);
   ("adjustBrightnessCurve", VNum a4);
   ("adjustVibrance", VNum a5);
   ("adjustMinAlpha", VNum a6);
   ("adjustMaxAlpha", VNum a7)].

(** The [curve_json] the assemblers build: four float curves keyed R, G, B,
    A, the adjustments, the asset stub, the timestamp, and, in spec mode,
    further entries ([metaCurves]). *)
Definition assembled_curve_json {H : Host} (rec : pyval) : Prop :=
  exists (cR cG cB cA : FloatCurve) (a1 a2 a3 a4 a5 a6 a7 : Q)
         (extra : list (string * pyval)),
    rec = VDict (base_curve_json
                   [("R", FloatCurve_to_py cR); ("G", FloatCurve_to_py cG);
                    ("B", FloatCurve_to_py cB); ("A", FloatCurve_to_py cA)]
                   (adjustment_fields a1 a2 a3 a4 a5 a6 a7)
                 ++ extra)%list.

(** The fields the export writes besides [floatCurves]. *)
Definition exported_fields : list string :=
  ["adjustHue"; "adjustSaturation"; "adjustBrightness"; "adjustBrightnessCurve";
   "adjustVibrance"; "adjustMinAlpha"; "adjustMaxAlpha"; "assetImportData"].

(** The keys of a dict, in order. *)
Definition dict_keys (v : pyval) : list string :=
  match v with
  | VDict d => map fst d
  | _ => []
  end.

(** A spec whose shape-family fields are strings and whose scale fields
    are numbers, where present. *)
Definition is_str_or_absent (jd : list (string * pyval)) (key : string) : bool :=
  match lookup jd key with
  | None | Some (VStr _) => true
  | _ => false
  end.

Definition is_number_or_absent (jd : list (string * pyval)) (key : string) : bool :=
  match lookup jd key with
  | None | Some (VNum _) | Some (VBool _) => true
  | _ => false
  end.

Definition type_keys : list string :=
  (map (fun ch => (ch ++ "_float_curve_type")%string) channels
   ++ ["meta_x_offset_curve_type"; "meta_y_offset_curve_type"])%list.

Definition number_keys : list string :=
  (map (fun ch => (ch ++ "_resolution_scale")%string) channels
   ++ map (fun ch => (ch ++ "_noise_scale")%string) channels
   ++ ["meta_x_resolution_scale"; "meta_x_noise_scale";
       "meta_y_resolution_scale"; "meta_y_noise_scale";
       "randomize_adjustments"])%list.

Definition well_typed_spec (jd : list (string * pyval)) : bool :=
  forallb (is_str_or_absent jd) type_keys
  && forallb (is_number_or_absent jd) number_keys.

(** The metadata hook does not raise. *)
Definition hook_succeeds {H : Host} : Prop :=
  forall (curve_id : string) (name : pyval), append_metadata curve_id name = Ok tt.

(** What spec-mode assembly stores for channel [ch]: the curve synthesized in
    scaled mode for the family [get_enum] resolves and the channel's two
    scales. *)
Definition spec_channel_post {ML : MathLib} (jd : list (string * pyval))
  (ch : string) (e : string * pyval) : Prop :=
  exists ty rs ns c,
    get_enum jd (ch ++ "_float_curve_type") "PARABOLIC" = Ok ty
    /\ get_number jd (ch ++ "_resolution_scale") 1.0 = Ok rs
    /\ get_number jd (ch ++ "_noise_scale") 0.0 = Ok ns
    /\ produces (generate_float_curve (Some ty) rs ns) c
    /\ e = (ch, FloatCurve_to_py c).

(** What the export transform makes of an assembled record [final]: the four
    float curves as a list in R, G, B, A order, the seven adjustments and the
    asset stub as they are, and nothing else; [created_at] is not copied. *)
Definition exported_as_coded {H : Host} (final : pyval) : Prop :=
  exists rec out fR fG fB fA,
    getitem final "curve_json" = Ok rec
    /\ getitem rec "floatCurves"
       = Ok (VDict [("R", fR); ("G", fG); ("B", fB); ("A", fA)])
    /\ convert_to_UE_output_format rec = Ok out
    /\ getitem out "floatCurves" = Ok (VList [fR; fG; fB; fA])
    /\ Forall (fun k => exists v, getitem rec k = Ok v /\ getitem out k = Ok v)
              exported_fields
    /\ dict_keys out = "floatCurves" :: exported_fields
    /\ getitem rec "created_at" = Ok (VStr utc_time_string)
    /\ getitem out "created_at" = Raise KeyError.


(* ===================================================================== *)
(** * The rest of the embedded source                                    *)
(* ===================================================================== *)

(** ** More of numpy *)

(** [np.arange(1, n + 1)] on integers. *)
Definition arange1 (n : Z) : list Z :=
  map (fun i => (Z.of_nat i + 1)%Z) (seq 0 (Z.to_nat n)).

(** [np.outer(a, b)] *)
Definition outer (a b : list Z) : list (list Z) :=
  map (fun x => map (fun y => (x * y)%Z) b) a.

(** [np.arange(0, stop, step)] on floats: [ceil(stop / step)] values
    [0, step, 2 * step, ...], none when that count is not positive; a zero
    step is a division by zero ([None]). *)
Definition arange0 (stop step : Q) : option (list Q) :=
  if Qeq_bool step 0 then None
  else Some (map (fun i => inject_Z (Z.of_nat i) * step)
                 (seq 0 (Z.to_nat (Qceiling (stop / step))))).

(** [np.interp(x, xp, fp)] for a scalar [x]. *)
Definition interp_at (x : Q) (xp fp : list pyval) : result Q :=
  ys <- Np.interp [x] xp fp ;;
  Ok (hd 0 ys).

(** ** More of enums.py *)

(** [member.value] *)
Definition FloatCurveType_value (ty : FloatCurveType) : string :=
  match ty with
  | PARABOLIC => "parabolic" | SINUSOIDAL => "sinusoidal"
  | EXPONENTIAL => "exponential" | LOGARITHMIC => "logarithmic"
  | BELL => "bell" | CUBIC => "cubic" | STEP => "step" | RANDOM => "random"
  | QUADRATIC => "quadratic" | HYPERBOLIC => "hyperbolic" | LERP => "lerp"
  | DRAGON => "dragon" | CYCLE => "cycle" | RAINBOW => "rainbow"
  | EULER_SPIRAL => "euler_spiral"
  | FIBONACCI_WEIGHTED => "fibonacci_weighted"
  end.

Inductive InterpMode : Type :=
| RCIM_LINEAR | RCIM_CUBIC | RCIM_QUADRATIC | RCIM_CONSTANT | RCIM_NEAREST
| RCIM_SLINEAR | RCIM_POLYNOMIAL | RCIM_BARYCENTRIC | RCIM_KROGH | RCIM_PCHIP
| RCIM_AKIMA.

(** [list(InterpMode)], in definition order. *)
Definition all_InterpMode : list InterpMode :=
  [RCIM_LINEAR; RCIM_CUBIC; RCIM_QUADRATIC; RCIM_CONSTANT; RCIM_NEAREST;
   RCIM_SLINEAR; RCIM_POLYNOMIAL; RCIM_BARYCENTRIC; RCIM_KROGH; RCIM_PCHIP;
   RCIM_AKIMA].

(** [member.value] *)
Definition InterpMode_value (m : InterpMode) : string :=
  match m with
  | RCIM_LINEAR => "RCIM_Linear" | RCIM_CUBIC => "RCIM_Cubic"
  | RCIM_QUADRATIC => "RCIM_Quadratic" | RCIM_CONSTANT => "RCIM_Constant"
  | RCIM_NEAREST => "RCIM_Nearest" | RCIM_SLINEAR => "RCIM_Slinear"
  | RCIM_POLYNOMIAL => "RCIM_Polynomial" | RCIM_BARYCENTRIC => "RCIM_Barycentric"
  | RCIM_KROGH => "RCIM_Krogh" | RCIM_PCHIP => "RCIM_Pchip"
  | RCIM_AKIMA => "RCIM_Akima"
  end.

(** [InterpMode(s)]: lookup of a member by value, [ValueError] otherwise. *)
Definition InterpMode_call (s : string) : result InterpMode :=
  match find (fun m => String.eqb (InterpMode_value m) s) all_InterpMode with
  | Some m => Ok m
  | None => Raise ValueError
  end.

Definition InterpMode_eqb (a b : InterpMode) : bool :=
  String.eqb (InterpMode_value a) (InterpMode_value b).

(** The dict literal of [to_plotting_kind]. *)
Definition plotting_kinds : list (InterpMode * string) :=
  [(RCIM_LINEAR, "linear"); (RCIM_CUBIC, "cubic"); (RCIM_QUADRATIC, "quadratic");
   (RCIM_CONSTANT, "constant"); (RCIM_NEAREST, "nearest");
   (RCIM_SLINEAR, "slinear"); (RCIM_POLYNOMIAL, "polynomial");
   (RCIM_BARYCENTRIC, "barycentric"); (RCIM_KROGH, "krogh");
   (RCIM_PCHIP, "pchip"); (RCIM_AKIMA, "akima")].

(** [self.to_plotting_kind()]: [{...}.get(self, "linear")] *)
Definition to_plotting_kind (self : InterpMode) : string :=
  match find (fun kv => InterpMode_eqb (fst kv) self) plotting_kinds with
  | Some kv => snd kv
  | None => "linear"
  end.

(** [InterpMode.available_plotting_kinds()] *)
Definition available_plotting_kinds : list string :=
  map to_plotting_kind all_InterpMode.

(** ** More of curve_helper.py *)

(** [generate_random_key(time_range=(0, 1))]; the dict literal is evaluated
    entry by entry, in the order it is written. *)
Definition generate_random_key (time_range : Q * Q) : M Key :=
  interp_mode <~ choice ["RCIM_Constant"; "RCIM_Linear"; "RCIM_Cubic"] ;;
  tangent_mode <~ choice ["RCTM_Auto"; "RCTM_Break"; "RCTM_User"] ;;
  t <~ uniform (fst time_range) (snd time_range) ;;
  v <~ uniform 0 1 ;;
  leave_tangent_weight <~ uniform 0 1 ;;
  ret (mkKey interp_mode tangent_mode "RCTWM_WeightedNone" t v
             0 0 0 leave_tangent_weight).

(** How a generator ends: exhausted, or by an exception.
    [ZeroDivisionError] is raised by no function above and is kept apart from
    the exceptions of [Py.exn]. *)
Inductive gen_end : Type :=
| StopIteration
| Raises (e : exn)
| RaisesZeroDivisionError.

(** A generator run to its end: what it yielded, in order, and how it ended. *)
Definition generator (A : Type) : Type := (list A * gen_end)%type.

(** A [for] loop whose body yields one value per element. *)
Fixpoint yield_each {A B : Type} (body : A -> result B) (l : list A) : generator B :=
  match l with
  | [] => ([], StopIteration)
  | x :: xs =>
      match body x with
      | Ok y => let '(ys, e) := yield_each body xs in (y :: ys, e)
      | Raise e => ([], Raises e)
      end
  end.

(** [step_through_curve(float_curve, step_size=0.1)] *)
Definition step_through_curve (float_curve : pyval) (step_size : Q)
  : generator (Q * Q) :=
  match (ks <- getitem float_curve "keys" ;; extract_curve_data ks epsilon_default) with
  | Raise e => ([], Raises e)
  | Ok (times, values) =>
      match arange0 (1 + step_size) step_size with
      | None => ([], RaisesZeroDivisionError)
      | Some ts =>
          yield_each
            (fun t =>
               let t := clamp t 0 1 in
               interpolated_value <- interp_at t times values ;;
               Ok (t, interpolated_value))
            ts
      end
  end.

(** [compute_integral_from_curve_data(curve_data, width=128, height=128)];
    numpy's integer array is an array of unbounded integers here. *)
Definition compute_integral_from_curve_data (curve_data : pyval) (width height : Z)
  : result (list (list Z)) :=
  let filled (c : Q) := VList (repeat (VNum c) (Z.to_nat width)) in
  r_curve <- get curve_data "r_curve" (filled 0) ;;
  g_curve <- get curve_data "g_curve" (filled 0) ;;
  b_curve <- get curve_data "b_curve" (filled 0) ;;
  a_curve <- get curve_data "a_curve" (filled 1) ;;
  rs <- iter r_curve ;;
  gs <- iter g_curve ;;
  bs <- iter b_curve ;;
  alphas <- iter a_curve ;;
  row_values <- mapM (fun p =>
                        let '(r, g, b, a) := p in
                        r <- as_number r ;;
                        g <- as_number g ;;
                        b <- as_number b ;;
                        a <- as_number a ;;
                        Ok (Py.int ((r + g + b) / 3 * a)))
                     (zip4 rs gs bs alphas) ;;
  let row_integral := Np.cumsum row_values in
  Ok (outer (arange1 height) row_integral).

(** ** read.py: the page arithmetic of [read_page] *)

(** [read_page]: the number of pages for [total_records] records shown
    [records_per_page] at a time. *)
Definition total_pages (total_records records_per_page : Z) : Z :=
  (total_records / records_per_page
   + (if (0 <? total_records mod records_per_page)%Z then 1 else 0))%Z.

(** One run of the page: the two navigation buttons ([previous], [next]: what
    [st.button] returned) applied to the page number kept in the session. *)
Definition turn_page (previous next : bool) (page total : Z) : Z :=
  let page := if (previous && (1 <? page)%Z)%bool then (page - 1)%Z else page in
  if (next && (page <? total)%Z)%bool then (page + 1)%Z else page.

(** The offset handed to [fetch_records]. *)
Definition page_offset (page records_per_page : Z) : Z :=
  ((page - 1) * records_per_page)%Z.

(* ===================================================================== *)
(** * Vocabulary of the further statements                               *)
(* ===================================================================== *)

(** [s.lower()] on an ASCII string. *)
Definition lower_ascii (c : ascii) : ascii :=
  let n := nat_of_ascii c in
  if (andb (Nat.leb 65 n) (Nat.leb n 90)) then ascii_of_nat (n + 32) else c.

Fixpoint lower (s : string) : string :=
  match s with
  | EmptyString => EmptyString
  | String c s' => String (lower_ascii c) (lower s')
  end.


(** The pixel in column [x] of row [y]. *)
Definition pixel_at (img : Image) (x y : nat) : option pixel :=
  match nth_error img y with
  | Some row => nth_error row x
  | None => None
  end.

(** What drawing the square that starts at [(x0, y0)] does to the pixel at
    [(x, y)], and the same for a band of squares and for all bands. *)
Definition square_color (s x0 y0 : nat) : pixel :=
  nth (((x0 / s) + (y0 / s)) mod 2)%nat
      [(200, 200, 200, 255)%Z; (255, 255, 255, 255)%Z] (255, 255, 255, 255)%Z.

Definition paint_cell (s x y : nat) (p : pixel) (x0 y0 : nat) : pixel :=
  if (Nat.leb y0 y && Nat.leb y (y0 + s) && Nat.leb x0 x && Nat.leb x (x0 + s))%bool
  then square_color s x0 y0
  else p.

Definition paint_band (s : nat) (xs : list nat) (x y : nat) (p : pixel) (y0 : nat)
  : pixel :=
  fold_left (fun p x0 => paint_cell s x y p x0 y0) xs p.

(** The exceptions the rasterizer's handler lists. *)
Definition caught_by_rasterizer (e : exn) : Prop :=
  e = IndexError \/ e = KeyError \/ e = TypeError.

(** The four components of a pixel are whole numbers of [0 .. 255]. *)
Definition is_rgba (p : pixel) : Prop :=
  let '(r, g, b, a) := p in
  (0 <= r <= 255)%Z /\ (0 <= g <= 255)%Z /\ (0 <= b <= 255)%Z /\ (0 <= a <= 255)%Z.

(** A [floatCurves] dict with a float curve of at least one key under each
    of R, G, B and A. *)
Definition complete_curves (fcs : list (string * pyval)) : Prop :=
  exists cR cG cB cA : FloatCurve,
    lookup fcs "R" = Some (FloatCurve_to_py cR)
    /\ lookup fcs "G" = Some (FloatCurve_to_py cG)
    /\ lookup fcs "B" = Some (FloatCurve_to_py cB)
    /\ lookup fcs "A" = Some (FloatCurve_to_py cA)
    /\ keys cR <> [] /\ keys cG <> [] /\ keys cB <> [] /\ keys cA <> [].


(** A record with one key lacking its ["value"] in the green curve. *)
Definition broken_key_curves : pyval :=
  VDict [("R", curve_of [key_at 0 0.2; key_at 1 0.8]);
         ("G", VDict [("keys", VList [Key_to_py (key_at 0 1);
                                      VDict [("time", VNum 1)]])]);
         ("B", curve_of [key_at 0.5 0.5]);
         ("A", curve_of [key_at 0 0; key_at 1 1])].

Definition broken_key_record : pyval := VDict [("floatCurves", broken_key_curves)].

(** The three mode fields of a key. *)
Definition key_modes (k : Key) : string * string * string :=
  (interpMode k, tangentMode k, tangentWeightMode k).

(** The ranges no tangent field of a synthesized key leaves. *)
Definition tangents_in_range (k : Key) : Prop :=
  -0.5 <= arriveTangent k <= 0.5
  /\ -0.5 <= leaveTangent k <= 1
  /\ 0 <= arriveTangentWeight k <= 1
  /\ 0 <= leaveTangentWeight k <= 1.

(** The names of the seven adjustment fields. *)
Definition adjust_keys : list string :=
  ["adjustHue"; "adjustSaturation"; "adjustBrightness"; "adjustBrightnessCurve";
   "adjustVibrance"; "adjustMinAlpha"; "adjustMaxAlpha"].

(** Every adjustment of the record [rec] is a number that satisfies [P]. *)
Definition adjustments_satisfy (P : Q -> Prop) (rec : pyval) : Prop :=
  Forall (fun k => exists a, getitem rec k = Ok (VNum a) /\ P a) adjust_keys.

(** The record [final] rasterizes: its [curve_json] gets a thumbnail with
    statistics and a row integral of 128 entries. *)
Definition rasterizes {H : Host} (final : pyval) : Prop :=
  exists rec img info row,
    getitem final "curve_json" = Ok rec
    /\ generate_thumbnail_from_curve rec true = Ok (Some img, Some info)
    /\ compute_integral_from_curve_json rec 128 = Some row
    /\ List.length row = 128%nat.

(** A draw of [random.uniform(0, r)]: [r] times a number of [0, 1). *)
Definition drawn_up_to (r a : Q) : Prop := exists u, 0 <= u /\ u < 1 /\ a = 0 + (r - 0) * u.

(** The [randomize_adjustments] of a spec: the field when the spec has any
    entry, 0 otherwise. *)
Definition randomize_adjustments_of (jd : list (string * pyval)) : result Q :=
  if is_truthy_dict jd then get_number jd "randomize_adjustments" 0 else Ok 0.

(** The fields of an exported float curve. *)
Definition curve_fields : list string :=
  ["keys"; "defaultValue"; "preInfinityExtrap"; "postInfinityExtrap"].

(** The channels of R, G, B, A that the dict [fcs] has, in that order. *)
Definition present_channels (fcs : list (string * pyval)) : list string :=
  filter (fun ch => match lookup fcs ch with Some _ => true | None => false end)
         ["R"; "G"; "B"; "A"].

(** The exported curve [curve] is the export of channel [ch] of [fcs]: it
    has the four curve fields, each with the channel's value for it when the
    channel has one, and an empty key list when the channel has no keys. *)
Definition exports_channel (fcs : list (string * pyval)) (ch : string)
  (curve : pyval) : Prop :=
  exists fc,
    lookup fcs ch = Some (VDict fc)
    /\ dict_keys curve = curve_fields
    /\ (forall k v, In k curve_fields -> lookup fc k = Some v -> getitem curve k = Ok v)
    /\ (lookup fc "keys" = None -> getitem curve "keys" = Ok (VList [])).

(** The curve that [curve_data.get(key, [fill] * width)] reads. *)
Definition curve_or_fill (d : list (string * pyval)) (key : string) (fill : Q)
  (width : Z) : pyval :=
  get_value d key (VList (repeat (VNum fill) (Z.to_nat width))).

(** The gray level of one column: the mean of the three colours, weighted
    by alpha, with its fraction dropped. *)
Definition gray_level (p : Q * Q * Q * Q) : Z :=
  let '(r, g, b, a) := p in Py.int ((r + g + b) / 3 * a).




(* ===================================================================== *)
(** * Properties of the embedded code                                    *)
(* ===================================================================== *)

(** ** Comparisons, [min], [max], [int] *)

Lemma Qlt_bool_true (a b : Q) : Py.Qlt_bool a b = true <-> a < b.
Proof.
  unfold Py.Qlt_bool. rewrite negb_true_iff. split.
  - intros Hf. apply Qnot_le_lt. intro Hle.
    apply Qle_bool_iff in Hle. congruence.
  - intros Hlt. destruct (Qle_bool b a) eqn:E; auto.
    apply Qle_bool_iff in E. exfalso. exact (Qlt_not_le _ _ Hlt E).
Qed.

Lemma Qlt_bool_false (a b : Q) : Py.Qlt_bool a b = false <-> b <= a.
Proof.
  unfold Py.Qlt_bool. rewrite negb_false_iff. apply Qle_bool_iff.
Qed.



Lemma min2_le_r (a b : Q) : Py.min2 a b <= b.
Proof.
  unfold Py.min2. destruct (Py.Qlt_bool b a) eqn:E.
  - apply Qle_refl.
  - now apply Qlt_bool_false in E.
Qed.

Lemma max2_ge_l (a b : Q) : a <= Py.max2 a b.
Proof.
  unfold Py.max2. destruct (Py.Qlt_bool a b) eqn:E.
  - apply Qlt_bool_true in E. now apply Qlt_le_weak.
  - apply Qle_refl.
Qed.








Lemma int_nonneg (x : Q) : 0 <= x -> Py.int x = Qfloor x.
Proof.
  intros Hx. unfold Py.int. apply Qle_bool_iff in Hx. now rewrite Hx.
Qed.

Lemma clamp_bounds (v lo hi : Q) : lo <= hi -> lo <= clamp v lo hi <= hi.
Proof.
  intros Hlh. unfold clamp. split; [apply max2_ge_l |].
  unfold Py.max2. destruct (Py.Qlt_bool lo (Py.min2 v hi)) eqn:E.
  - apply min2_le_r.
  - exact Hlh.
Qed.

(** ** The result monad *)

Lemma mapM_map_ok {A B C : Type} (f : B -> result C) (g : A -> B) (h : A -> C)
  (l : list A) :
  (forall x, In x l -> f (g x) = Ok (h x)) ->
  mapM f (map g l) = Ok (map h l).
Proof.
  induction l as [|x xs IH]; intros Hf; simpl; [reflexivity |].
  rewrite (Hf x (or_introl eq_refl)). simpl.
  rewrite IH by (intros y Hy; apply Hf; now right). reflexivity.
Qed.

Lemma mapM_length {A B : Type} (f : A -> result B) (l : list A) (r : list B) :
  mapM f l = Ok r -> List.length r = List.length l.
Proof.
  revert r. induction l as [|x xs IH]; intros r; simpl.
  - intros E. now inversion E.
  - destruct (f x); simpl; [| discriminate].
    destruct (mapM f xs); simpl; [| discriminate].
    intros E. inversion E; subst. simpl. f_equal. now apply IH.
Qed.

(** ** [extract_curve_data] *)

Lemma extract_curve_data_single (k : Key) (epsilon : Q) :
  extract_curve_data (VList [Key_to_py k]) epsilon
  = Ok ([VNum 0; VNum 1], [VNum (value k); VNum (value k)]).
Proof. reflexivity. Qed.

Lemma extract_curve_data_multi (ks : list Key) (epsilon : Q) :
  List.length ks <> 1%nat ->
  extract_curve_data (VList (map Key_to_py ks)) epsilon
  = Ok (map (fun k => VNum (time k)) ks, map (snapped epsilon) ks).
Proof.
  intros Hlen. unfold extract_curve_data. simpl len. rewrite length_map.
  simpl Py.bind. destruct (Nat.eqb_spec (List.length ks) 1) as [E|_]; [contradiction |].
  simpl iter. simpl Py.bind.
  rewrite (mapM_map_ok _ Key_to_py (fun k => VNum (time k))) by reflexivity.
  simpl Py.bind.
  rewrite (mapM_map_ok _ Key_to_py (fun k => VNum (value k))) by reflexivity.
  simpl Py.bind.
  rewrite (mapM_map_ok (snap epsilon) (fun k => VNum (value k)) (snapped epsilon))
    by reflexivity.
  reflexivity.
Qed.

(** C10.  In [extract_curve_data] the snap-to-zero is applied only to curves
    that do not have exactly one keyframe.  For a keyframe whose value [v]
    has [0 < |v| < 1e-6]: the single-keyframe curve extracts to times
    [[0, 1]] and values [[v, v]], [v] untouched; in any curve where the same
    keyframe has at least one neighbour, extraction succeeds and the value
    at that keyframe's position is exactly [0]. *)
Theorem extract_curve_data_snaps_only_multi_key :
  forall (k : Key),
    0 < Qabs (value k) -> Qabs (value k) < 1e-6 ->
    extract_curve_data (VList [Key_to_py k]) epsilon_default
    = Ok ([VNum 0; VNum 1], [VNum (value k); VNum (value k)])
    /\ forall (before after : list Key),
         (before ++ after)%list <> [] ->
         exists times values,
           extract_curve_data (VList (map Key_to_py (before ++ k :: after)%list))
                              epsilon_default
           = Ok (times, values)
           /\ nth_error times (List.length before) = Some (VNum (time k))
           /\ nth_error values (List.length before) = Some (VNum 0).
Proof.
  intros k Hpos Hsmall. split; [apply extract_curve_data_single |].
  intros before after Hne.
  eexists; eexists. split.
  - apply extract_curve_data_multi. rewrite length_app. simpl.
    destruct before, after; simpl; try lia. now contradiction Hne.
  - split.
    + rewrite nth_error_map, nth_error_app2, Nat.sub_diag by lia. reflexivity.
    + rewrite nth_error_map, nth_error_app2, Nat.sub_diag by lia. simpl.
      unfold snapped. apply Qlt_bool_true in Hsmall.
      unfold epsilon_default. now rewrite Hsmall.
Qed.

(** ** [process_alpha_channel] *)














Lemma extract_curve_data_snaps_only_multi_key_witness :
  let k := mkKey "RCIM_Linear" "RCTM_Break" "RCTWM_WeightedNone" 0.5 1e-7 0 0 0 0 in
  extract_curve_data (VList [Key_to_py k]) epsilon_default
  = Ok ([VNum 0; VNum 1], [VNum 1e-7; VNum 1e-7])
  /\ exists times values,
       extract_curve_data (VList (map Key_to_py [k; k])) epsilon_default
       = Ok (times, values)
       /\ nth_error values 0 = Some (VNum 0).
Proof.
  intros k.
  assert (Hpos : 0 < Qabs (value k)) by (vm_compute; reflexivity).
  assert (Hsmall : Qabs (value k) < 1e-6) by (vm_compute; reflexivity).
  destruct (extract_curve_data_snaps_only_multi_key k Hpos Hsmall) as [Hone Hmulti].
  split; [exact Hone |].
  destruct (Hmulti [] [k]) as [times [values [E [_ Hv]]]]; [discriminate |].
  exists times, values. split; [exact E | exact Hv].
Defined.

(** ** The row integral *)

Lemma cumsum_from_length (l : list Z) :
  forall acc, List.length (Np.cumsum_from acc l) = List.length l.
Proof. induction l; intros acc; simpl; [reflexivity | now rewrite IHl]. Qed.






(** ** The row integral is returned for complete records *)

Lemma mapM_as_float_VNum (l : list Q) : mapM Np.as_float (map VNum l) = Ok l.
Proof.
  rewrite (mapM_map_ok Np.as_float VNum (fun q => q)) by reflexivity.
  now rewrite map_id.
Qed.

Lemma interp_numbers (xs ts vs : list Q) :
  ts <> [] -> List.length vs = List.length ts ->
  Np.interp xs (map VNum ts) (map VNum vs) = Ok (map (Np.interp1 ts vs) xs).
Proof.
  intros Hne Hlen. unfold Np.interp. rewrite !mapM_as_float_VNum.
  unfold Py.bind. destruct ts as [|t ts']; [contradiction |].
  rewrite Hlen, Nat.eqb_refl. reflexivity.
Qed.

Lemma linspace01_length (w : Z) :
  (0 <= w)%Z -> exists xs, Np.linspace01 w = Ok xs /\ List.length xs = Z.to_nat w.
Proof.
  intros Hw. unfold Np.linspace01.
  destruct (Z.ltb_spec w 0) as [Hlt | _]; [lia |].
  eexists. split; [reflexivity |]. now rewrite length_map, length_seq.
Qed.

Lemma process_alpha_channel_length (a : list Q) :
  a <> [] ->
  exists out, process_alpha_channel a = Ok out /\ List.length out = List.length a.
Proof.
  intros Hne. destruct a as [|a0 rest]; [contradiction |].
  unfold process_alpha_channel.
  destruct (Np.allclose (a0 :: rest) a0).
  - eexists. split; [reflexivity |]. unfold Np.full_like. now rewrite length_map.
  - destruct (Qeq_bool _ _).
    + eexists. split; [reflexivity |]. unfold Np.full_like. now rewrite length_map.
    + eexists. split; [reflexivity |]. unfold remap. now rewrite !length_map.
Qed.

Lemma zip4_length {A : Type} (r g b a : list A) (n : nat) :
  List.length r = n -> List.length g = n -> List.length b = n ->
  List.length a = n -> List.length (zip4 r g b a) = n.
Proof.
  revert g b a n. induction r as [|r0 r' IH]; intros g b a n Hr Hg Hb Ha.
  - simpl in Hr. subst n. reflexivity.
  - destruct g, b, a, n; simpl in *; try discriminate.
    f_equal. apply IH; congruence.
Qed.

Lemma snapped_number (epsilon : Q) (k : Key) :
  snapped epsilon k
  = VNum (if Py.Qlt_bool (Qabs (value k)) epsilon then 0 else value k).
Proof. unfold snapped. now destruct (Py.Qlt_bool _ _). Qed.

Lemma extract_curve_data_numbers (ks : list Key) (epsilon : Q) :
  ks <> [] ->
  exists ts vs,
    extract_curve_data (VList (map Key_to_py ks)) epsilon
    = Ok (map VNum ts, map VNum vs)
    /\ ts <> [] /\ List.length vs = List.length ts.
Proof.
  intros Hne. destruct (Nat.eq_dec (List.length ks) 1) as [E1 | Hn1].
  - destruct ks as [|k [|k' ks']]; try discriminate.
    exists [0; 1], [value k; value k]. split; [reflexivity |].
    split; [discriminate | reflexivity].
  - rewrite (extract_curve_data_multi ks epsilon Hn1).
    exists (map time ks),
           (map (fun k => if Py.Qlt_bool (Qabs (value k)) epsilon then 0
                          else value k) ks).
    rewrite !map_map. split.
    + do 2 f_equal. apply map_ext. intros k. apply snapped_number.
    + split; [destruct ks; [contradiction | discriminate] |].
      now rewrite !length_map.
Qed.

Lemma channel_data_numbers (fcs : list (string * pyval)) (ch : string)
  (c : FloatCurve) :
  lookup fcs ch = Some (FloatCurve_to_py c) -> keys c <> [] ->
  exists ts vs,
    channel_data (VDict fcs) ch = Ok (map VNum ts, map VNum vs)
    /\ ts <> [] /\ List.length vs = List.length ts.
Proof.
  intros Hl Hne. unfold channel_data, getitem. rewrite Hl.
  cbn [Py.bind FloatCurve_to_py lookup String.eqb Ascii.eqb Bool.eqb].
  apply extract_curve_data_numbers. exact Hne.
Qed.

Lemma all_channels_in_present (fcs : list (string * pyval)) (cs : list string) :
  Forall (fun c => exists v, lookup fcs c = Some v) cs ->
  all_channels_in cs (VDict fcs) = Ok true.
Proof.
  induction 1 as [|c cs [v Hv] _ IH]; simpl; [reflexivity |].
  rewrite Hv. simpl. exact IH.
Qed.

(** A record whose four channels hold float curves with at least one key
    each gets a row integral, one entry per sample. *)
Lemma row_integral_returned_for_complete_record :
  forall (d fcs : list (string * pyval)) (cR cG cB cA : FloatCurve) (width : Z),
    lookup d "floatCurves" = Some (VDict fcs) ->
    lookup fcs "R" = Some (FloatCurve_to_py cR) ->
    lookup fcs "G" = Some (FloatCurve_to_py cG) ->
    lookup fcs "B" = Some (FloatCurve_to_py cB) ->
    lookup fcs "A" = Some (FloatCurve_to_py cA) ->
    keys cR <> [] -> keys cG <> [] -> keys cB <> [] -> keys cA <> [] ->
    (0 < width)%Z ->
    exists row,
      compute_integral_from_curve_json (VDict d) width = Some row
      /\ List.length row = Z.to_nat width.
Proof.
  intros d fcs cR cG cB cA width Hd HR HG HB HA KR KG KB KA Hw.
  destruct (channel_data_numbers fcs "R" cR HR KR) as [tR [vR [ER [NR LR]]]].
  destruct (channel_data_numbers fcs "G" cG HG KG) as [tG [vG [EG [NG LG]]]].
  destruct (channel_data_numbers fcs "B" cB HB KB) as [tB [vB [EB [NB LB]]]].
  destruct (channel_data_numbers fcs "A" cA HA KA) as [tA [vA [EA [NA LA]]]].
  destruct (linspace01_length width ltac:(lia)) as [xs [Exs Lxs]].
  assert (Hne : map (Np.interp1 tA vA) xs <> []).
  { destruct xs; [simpl in Lxs; lia | discriminate]. }
  destruct (process_alpha_channel_length _ Hne) as [out [Eout Lout]].
  assert (Hall : all_channels_in channels (VDict fcs) = Ok true).
  { apply all_channels_in_present. unfold channels.
    repeat constructor; eexists; eassumption. }
  assert (Hg : exists g, grayscale_row (VDict d) width = Ok (Some g)
                         /\ List.length g = Z.to_nat width).
  { unfold grayscale_row, getitem. rewrite Hd. unfold Py.bind at 1.
    rewrite Hall. unfold Py.bind at 1. cbn [negb].
    unfold sample_channels. rewrite ER, EG, EB, EA, Exs.
    cbn [Py.bind].
    rewrite (interp_numbers xs tR vR NR LR), (interp_numbers xs tG vG NG LG),
      (interp_numbers xs tB vB NB LB), (interp_numbers xs tA vA NA LA).
    cbn [Py.bind]. rewrite Eout. cbn [Py.bind].
    eexists. split; [reflexivity |].
    rewrite length_map.
    apply zip4_length; rewrite ?Lout, ?length_map; exact Lxs. }
  destruct Hg as [g [Eg Lg]].
  exists (Np.cumsum g). split.
  - unfold compute_integral_from_curve_json. rewrite Eg. reflexivity.
  - unfold Np.cumsum. now rewrite cumsum_from_length.
Qed.

(** ** Missing channels and malformed keyframe data *)

Lemma all_channels_in_missing (fc : list (string * pyval)) (c : string)
  (cs : list string) :
  In c cs -> lookup fc c = None -> all_channels_in cs (VDict fc) = Ok false.
Proof.
  intros Hin Hnone. induction cs as [|c' cs IH]; [contradiction |].
  simpl. destruct (lookup fc c') eqn:E; simpl.
  - destruct Hin as [-> | Hin]; [congruence | now apply IH].
  - reflexivity.
Qed.

(** The part of C1 that the code honours: a record that lacks one of the
    channels R, G, B, A (or has no [floatCurves] at all) gets [(None, None)]
    from the rasterizer and [None] from the row integral. *)
Lemma missing_channel_gives_no_result :
  forall (H : Host) (d fc : list (string * pyval)) (c : string)
         (transparent_background : bool) (width : Z),
    lookup d "floatCurves" = Some (VDict fc) ->
    In c channels -> lookup fc c = None ->
    generate_thumbnail_from_curve (VDict d) transparent_background = Ok (None, None)
    /\ compute_integral_from_curve_json (VDict d) width = None.
Proof.
  intros H d fc c tb width Hfc Hin Hnone.
  pose proof (all_channels_in_missing fc c channels Hin Hnone) as Hall.
  split.
  - unfold generate_thumbnail_from_curve, getitem. rewrite Hfc.
    cbv beta iota. rewrite Hall. reflexivity.
  - unfold compute_integral_from_curve_json, grayscale_row, getitem.
    rewrite Hfc. unfold Py.bind. rewrite Hall. reflexivity.
Qed.

Lemma missing_floatCurves_gives_no_result :
  forall (H : Host) (d : list (string * pyval))
         (transparent_background : bool) (width : Z),
    lookup d "floatCurves" = None ->
    generate_thumbnail_from_curve (VDict d) transparent_background = Ok (None, None)
    /\ compute_integral_from_curve_json (VDict d) width = None.
Proof.
  intros H d tb width Hfc. split.
  - unfold generate_thumbnail_from_curve, getitem. now rewrite Hfc.
  - unfold compute_integral_from_curve_json, grayscale_row, getitem.
    now rewrite Hfc.
Qed.

(** C1, where the code departs from it.  With the four channels present and
    an empty key list in the red curve, [np.interp] raises [ValueError];
    the rasterizer's handler lists only [IndexError], [KeyError] and
    [TypeError], so the exception leaves [generate_thumbnail_from_curve],
    while [compute_integral_from_curve_json], which catches [Exception],
    returns [None] on the same record. *)
Theorem empty_keys_escape_the_rasterizer :
  forall (H : Host) (transparent_background : bool),
    generate_thumbnail_from_curve empty_keys_record transparent_background
    = Raise ValueError
    /\ compute_integral_from_curve_json empty_keys_record 128 = None.
Proof.
  intros H tb. split; reflexivity.
Qed.

(** ** Reasoning about code that draws random numbers *)

Lemma returns_ret {A : Type} (a : A) (Q : A -> Prop) : Q a -> returns (ret a) Q.
Proof. intros Ha g. exists a, g. split; [reflexivity | exact Ha]. Qed.

Lemma returns_bind {A B : Type} (m : M A) (k : A -> M B)
  (Q : A -> Prop) (R : B -> Prop) :
  returns m Q -> (forall a, Q a -> returns (k a) R) -> returns (bindM m k) R.
Proof.
  intros Hm Hk g. destruct (Hm g) as [a [g1 [E Ha]]].
  destruct (Hk a Ha g1) as [b [g2 [E2 Hb]]].
  exists b, g2. split; [| exact Hb]. unfold bindM. now rewrite E.
Qed.

Lemma returns_mono {A : Type} (m : M A) (Q R : A -> Prop) :
  returns m Q -> (forall a, Q a -> R a) -> returns m R.
Proof.
  intros Hm HQR g. destruct (Hm g) as [a [g1 [E Ha]]].
  exists a, g1. split; [exact E | now apply HQR].
Qed.

Lemma returns_produces {A : Type} (m : M A) (Q : A -> Prop) :
  returns m Q -> returns m (fun a => Q a /\ produces m a).
Proof.
  intros Hm g. destruct (Hm g) as [a [g1 [E Ha]]].
  exists a, g1. split; [exact E |]. split; [exact Ha |]. now exists g, g1.
Qed.

Lemma returns_lift {A : Type} (r : result A) (a : A) (Q : A -> Prop) :
  r = Ok a -> Q a -> returns (lift r) Q.
Proof.
  intros -> Ha g. exists a, g. split; [reflexivity | exact Ha].
Qed.

Lemma unit_of_range (r : N) : 0 <= unit_of r /\ unit_of r < 1.
Proof.
  unfold unit_of, Qle, Qlt. cbn [Qnum Qden].
  pose proof (N.mod_lt r 9007199254740992 ltac:(discriminate)) as Hlt.
  generalize dependent (r mod 9007199254740992)%N. intros m Hlt.
  split; lia.
Qed.

Lemma returns_random : returns random (fun u => 0 <= u /\ u < 1).
Proof.
  intros g. eexists; eexists. split; [reflexivity |]. apply unit_of_range.
Qed.

Lemma returns_uniform (a b : Q) :
  returns (uniform a b)
          (fun x => exists u, 0 <= u /\ u < 1 /\ x = a + (b - a) * u).
Proof.
  intros g. eexists; eexists. split; [reflexivity |].
  eexists. destruct (unit_of_range (draws g (pos g))) as [H0 H1].
  split; [exact H0 |]. split; [exact H1 | reflexivity].
Qed.

Lemma returns_uniform_any (a b : Q) : returns (uniform a b) (fun _ => True).
Proof. eapply returns_mono; [apply returns_uniform | trivial]. Qed.

Lemma returns_randint (a b : Z) :
  (a <= b)%Z -> returns (randint a b) (fun k => a <= k <= b)%Z.
Proof.
  intros Hab g. unfold randint.
  destruct (Z.ltb_spec b a) as [Hlt | _]; [lia |].
  eexists; eexists. split; [reflexivity |]. simpl.
  pose proof (Z.mod_pos_bound (Z.of_N (draws g (pos g))) (b - a + 1) ltac:(lia)).
  lia.
Qed.

Lemma returns_choice {A : Type} (l : list A) :
  l <> [] -> returns (choice l) (fun x => In x l).
Proof.
  intros Hne g. destruct l as [|d l']; [contradiction |].
  eexists; eexists. split; [reflexivity |]. simpl ret.
  apply nth_In.
  pose proof (Z.mod_pos_bound (Z.of_N (draws g (pos g)))
                (Z.of_nat (List.length (d :: l'))) ltac:(simpl; lia)).
  lia.
Qed.

Lemma returns_replicateM {A : Type} (n : nat) (m : M A) (Q : A -> Prop) :
  returns m Q ->
  returns (replicateM n m) (fun l => List.length l = n /\ Forall Q l).
Proof.
  intros Hm. induction n as [|n IH]; simpl.
  - apply returns_ret. split; [reflexivity | constructor].
  - eapply returns_bind; [exact Hm |]. intros x Hx.
    eapply returns_bind; [exact IH |]. intros xs [Hlen Hxs].
    apply returns_ret. split; [simpl; now rewrite Hlen | now constructor].
Qed.

Lemma returns_forM {A B : Type} (l : list A) (f : A -> M B) (R : A -> B -> Prop) :
  (forall x, In x l -> returns (f x) (R x)) ->
  returns (forM l f) (fun ys => Forall2 R l ys).
Proof.
  induction l as [|x xs IH]; intros Hf; simpl.
  - apply returns_ret. constructor.
  - eapply returns_bind; [apply Hf; now left |]. intros y Hy.
    eapply returns_bind; [apply IH; intros z Hz; apply Hf; now right |].
    intros ys Hys. apply returns_ret. now constructor.
Qed.

(** ** [sorted] *)

Lemma insert_sorted_length (x : Q) (l : list Q) :
  List.length (insert_sorted x l) = S (List.length l).
Proof.
  induction l as [|y ys IH]; simpl; [reflexivity |].
  destruct (Py.Qlt_bool x y); simpl; [reflexivity | now rewrite IH].
Qed.

Lemma sorted_length (l : list Q) : List.length (sorted l) = List.length l.
Proof.
  induction l as [|x xs IH]; simpl; [reflexivity |].
  now rewrite insert_sorted_length, IH.
Qed.

Lemma insert_sorted_Sorted (x : Q) (l : list Q) :
  Sorted Qle l -> Sorted Qle (insert_sorted x l).
Proof.
  induction 1 as [|y ys Hs IH Hhd]; simpl.
  - repeat constructor.
  - destruct (Py.Qlt_bool x y) eqn:E.
    + apply Qlt_bool_true in E. constructor; [now constructor |].
      constructor. now apply Qlt_le_weak.
    + apply Qlt_bool_false in E. constructor; [exact IH |].
      destruct ys as [|z zs]; simpl.
      * now constructor.
      * destruct (Py.Qlt_bool x z); constructor; [exact E |].
        now inversion Hhd.
Qed.

Lemma sorted_Sorted (l : list Q) : Sorted Qle (sorted l).
Proof.
  induction l as [|x xs IH]; simpl; [constructor |].
  now apply insert_sorted_Sorted.
Qed.

Lemma sorted_StronglySorted (l : list Q) : StronglySorted Qle (sorted l).
Proof.
  apply Sorted_StronglySorted; [| apply sorted_Sorted].
  intros a b c. apply Qle_trans.
Qed.

Lemma insert_sorted_In (x y : Q) (l : list Q) :
  In y (insert_sorted x l) -> y = x \/ In y l.
Proof.
  induction l as [|z zs IH]; simpl.
  - intros [<- | []]. now left.
  - destruct (Py.Qlt_bool x z); simpl.
    + intros [<- | H]; [now left | now right].
    + intros [<- | H]; [right; now left |].
      destruct (IH H) as [-> | Hin]; [now left | right; now right].
Qed.

Lemma sorted_In (y : Q) (l : list Q) : In y (sorted l) -> In y l.
Proof.
  induction l as [|x xs IH]; simpl; [trivial |].
  intros H. destruct (insert_sorted_In _ _ _ H) as [-> | Hin];
    [now left | right; now apply IH].
Qed.

(** ** Lists related element by element *)

Lemma Forall2_right {A B : Type} (R : A -> B -> Prop) (P : B -> Prop)
  (l : list A) (l' : list B) :
  (forall a b, In a l -> R a b -> P b) -> Forall2 R l l' -> Forall P l'.
Proof.
  intros HRP HF. induction HF as [|a b l l' Hab HF IH]; constructor.
  - apply (HRP a b); [now left | exact Hab].
  - apply IH. intros a' b' Hin. apply HRP. now right.
Qed.

Lemma Forall2_map_eq {A B C : Type} (f : B -> C) (g : A -> C)
  (l : list A) (l' : list B) :
  Forall2 (fun a b => f b = g a) l l' -> map f l' = map g l.
Proof.
  induction 1 as [|a b l l' Hab HF IH]; simpl; [reflexivity |].
  now rewrite Hab, IH.
Qed.

(** ** The keyframe synthesizer *)

Section SynthesisProperties.

Context {ML : MathLib}.

Lemma build_key_time (ty : FloatCurveType) (t v : Q) (tg : Q * Q * Q * Q) :
  time (build_key ty t v tg) = t.
Proof.
  unfold build_key. destruct (shape_modes ty) as [[? ?] ?].
  destruct tg as [[[? ?] ?] ?]. reflexivity.
Qed.

Lemma build_key_value (ty : FloatCurveType) (t v : Q) (tg : Q * Q * Q * Q) :
  value (build_key ty t v tg) = v.
Proof.
  unfold build_key. destruct (shape_modes ty) as [[? ?] ?].
  destruct tg as [[[? ?] ?] ?]. reflexivity.
Qed.

Lemma returns_draw_tangents (a b c d e f g h : Q) :
  returns (draw_tangents a b c d e f g h) (fun _ => True).
Proof.
  unfold draw_tangents.
  repeat (eapply returns_bind; [apply returns_uniform_any | intros ? _]).
  now apply returns_ret.
Qed.

Lemma returns_shape_tangents (ty : FloatCurveType) :
  returns (shape_tangents ty) (fun _ => True).
Proof.
  destruct ty; simpl;
    first [apply returns_draw_tangents | now apply returns_ret].
Qed.

Lemma returns_shape_value (ty : FloatCurveType) (t : Q) :
  returns (shape_value ty t) (fun _ => True).
Proof.
  destruct ty; simpl;
    first [ now apply returns_ret
          | apply returns_uniform_any
          | eapply returns_bind; [apply returns_uniform_any | intros ? _];
            now apply returns_ret ].
Qed.



Lemma returns_random_key (ty : FloatCurveType) (num_keys : Z) (t : Q) :
  returns (random_key ty num_keys t) (random_key_post ty (noise_range num_keys) t).
Proof.
  unfold random_key.
  eapply returns_bind; [apply returns_produces, returns_shape_value |].
  intros v0 [_ Hv0].
  eapply returns_bind; [apply returns_shape_tangents | intros tg _].
  eapply returns_bind; [apply returns_uniform |].
  intros noise [u [H0 [H1 ->]]].
  apply returns_ret. unfold random_key_post.
  rewrite build_key_time, build_key_value.
  split; [reflexivity |].
  pose proof (clamp_bounds (v0 + (- noise_range num_keys
                + (noise_range num_keys - - noise_range num_keys) * u)) 0 1
                ltac:(lra)) as [Hlo Hhi].
  split; [exact Hlo |]. split; [exact Hhi |].
  exists v0, u. repeat split; assumption.
Qed.

Lemma returns_scaled_key (ty : FloatCurveType) (num_keys : Z) (noise_scale t : Q) :
  returns (scaled_key ty num_keys noise_scale t) (scaled_key_post ty noise_scale t).
Proof.
  unfold scaled_key.
  eapply returns_bind; [apply returns_produces, returns_shape_value |].
  intros v0 [_ Hv0].
  eapply returns_bind; [apply returns_shape_tangents | intros tg _].
  eapply returns_bind
    with (Q := fun v => if Qeq_bool noise_scale 0 then v = v0
                        else exists noise, v = clamp (v0 + noise * noise_scale) 0 1).
  - destruct (Qeq_bool noise_scale 0); simpl.
    + now apply returns_ret.
    + eapply returns_bind; [apply returns_uniform_any | intros noise _].
      apply returns_ret. now exists noise.
  - intros v Hv. apply returns_ret. unfold scaled_key_post.
    rewrite build_key_time, build_key_value.
    split; [reflexivity |]. exists v0. split; [exact Hv0 | exact Hv].
Qed.

Lemma returns_chosen_type (float_curve_type : option FloatCurveType) :
  returns (match float_curve_type with
           | None => choice all_FloatCurveType
           | Some ty => ret ty
           end)
          (fun ty => forall t0, float_curve_type = Some t0 -> ty = t0).
Proof.
  destruct float_curve_type as [ty |].
  - apply returns_ret. intros t0 E. now inversion E.
  - eapply returns_mono; [apply returns_choice; discriminate |].
    intros; discriminate.
Qed.

(** What [generate_random_float_curve] returns, for bounds
    [min_keys <= max_keys]. *)
Lemma generate_random_float_curve_spec
  (min_keys max_keys : Z) (float_curve_type : option FloatCurveType) :
  (min_keys <= max_keys)%Z ->
  returns (generate_random_float_curve min_keys max_keys float_curve_type)
    (fun c =>
       exists ty num_keys,
         (forall t0, float_curve_type = Some t0 -> ty = t0)
         /\ (min_keys <= num_keys <= max_keys)%Z
         /\ List.length (keys c) = Z.to_nat num_keys
         /\ StronglySorted Qle (map time (keys c))
         /\ Forall (fun k => random_key_post ty (noise_range num_keys) (time k) k)
                   (keys c)).
Proof.
  intros Hle. unfold generate_random_float_curve.
  eapply returns_bind; [apply returns_chosen_type | intros ty Hty].
  eapply returns_bind; [apply (returns_randint _ _ Hle) | intros num_keys Hn].
  eapply returns_bind;
    [apply (returns_replicateM _ _ _ (returns_uniform_any 0 1)) |].
  intros ds [Hlen _].
  eapply returns_bind;
    [apply (returns_forM _ _ (random_key_post ty (noise_range num_keys)));
     intros t _; apply returns_random_key |].
  intros ks HF. apply returns_ret. simpl keys.
  exists ty, num_keys. split; [exact Hty |]. split; [exact Hn |].
  split; [now rewrite <- (Forall2_length HF), sorted_length |].
  split.
  - rewrite (Forall2_map_eq time (fun t => t) (sorted ds) ks).
    + rewrite map_id. apply sorted_StronglySorted.
    + eapply Forall2_impl; [| exact HF]. intros t k Hk. apply Hk.
  - eapply Forall2_right; [| exact HF]. intros t k _ Hk. cbv beta.
    assert (Ht : time k = t) by apply Hk. subst t. exact Hk.
Qed.

(** What [generate_float_curve] returns. *)
Lemma generate_float_curve_spec
  (float_curve_type : option FloatCurveType) (resolution_scale noise_scale : Q) :
  returns (generate_float_curve float_curve_type resolution_scale noise_scale)
    (fun c =>
       exists ty num_keys,
         (forall t0, float_curve_type = Some t0 -> ty = t0)
         /\ (if FloatCurveType_eqb ty RANDOM then (2 <= num_keys <= 100)%Z
             else num_keys
                  = Z.max 2 (Z.min (Py.int (inject_Z (default_key_counts ty)
                                            * resolution_scale)) 100))
         /\ List.length (keys c) = Z.to_nat num_keys
         /\ StronglySorted Qle (map time (keys c))
         /\ Forall (fun k => scaled_key_post ty noise_scale (time k) k) (keys c)).
Proof.
  unfold generate_float_curve.
  eapply returns_bind; [apply returns_chosen_type | intros ty Hty].
  eapply returns_bind; [apply (returns_randint 2 100); lia | intros fallback _].
  eapply returns_bind
    with (Q := fun num_keys =>
                 if FloatCurveType_eqb ty RANDOM then (2 <= num_keys <= 100)%Z
                 else num_keys
                      = Z.max 2 (Z.min (Py.int (inject_Z (default_key_counts ty)
                                                * resolution_scale)) 100)).
  { destruct (FloatCurveType_eqb ty RANDOM).
    - apply (returns_randint 2 100). lia.
    - now apply returns_ret. }
  intros num_keys Hn.
  eapply returns_bind;
    [apply (returns_replicateM _ _ _ (returns_uniform_any 0 1)) |].
  intros ds [Hlen _].
  eapply returns_bind;
    [apply (returns_forM _ _ (scaled_key_post ty noise_scale));
     intros t _; apply returns_scaled_key |].
  intros ks HF. apply returns_ret. simpl keys.
  exists ty, num_keys. split; [exact Hty |]. split; [exact Hn |].
  split; [now rewrite <- (Forall2_length HF), sorted_length |].
  split.
  - rewrite (Forall2_map_eq time (fun t => t) (sorted ds) ks).
    + rewrite map_id. apply sorted_StronglySorted.
    + eapply Forall2_impl; [| exact HF]. intros t k Hk. apply Hk.
  - eapply Forall2_right; [| exact HF]. intros t k _ Hk. cbv beta.
    assert (Ht : time k = t) by apply Hk. subst t. exact Hk.
Qed.

(** C5 (as the code has it).  For bounds [0 <= min_keys <= max_keys],
    [generate_random_float_curve] returns a curve whose key count [n] lies
    in [min_keys, max_keys], whose keyframe times are in non-decreasing
    order, and each of whose values lies in [0, 1], being the clamp of the
    family's value at the key's time plus a draw from
    [uniform(-a, a)] with [a = 0.1 / (ln(n + 1) + 1)]. *)
Theorem random_mode_count_order_and_range :
  forall (float_curve_type : option FloatCurveType) (min_keys max_keys : Z),
    (0 <= min_keys)%Z -> (min_keys <= max_keys)%Z ->
    returns (generate_random_float_curve min_keys max_keys float_curve_type)
      (fun c =>
         let n := Z.of_nat (List.length (keys c)) in
         (min_keys <= n <= max_keys)%Z
         /\ StronglySorted Qle (map time (keys c))
         /\ Forall (fun k => 0 <= value k /\ value k <= 1) (keys c)
         /\ exists ty,
              (forall t0, float_curve_type = Some t0 -> ty = t0)
              /\ Forall
                   (fun k =>
                      exists v0 u,
                        produces (shape_value ty (time k)) v0
                        /\ 0 <= u /\ u < 1
                        /\ value k
                           = clamp (v0 + (- noise_range n
                                          + (noise_range n - - noise_range n) * u))
                                   0 1)
                   (keys c)).
Proof.
  intros float_curve_type min_keys max_keys H0 Hle.
  eapply returns_mono; [apply (generate_random_float_curve_spec _ _ _ Hle) |].
  intros c [ty [num_keys [Hty [Hn [Hlen [Hsorted Hkeys]]]]]]. cbv zeta.
  assert (En : Z.of_nat (List.length (keys c)) = num_keys) by lia.
  rewrite En. split; [exact Hn |]. split; [exact Hsorted |]. split.
  - eapply Forall_impl; [| exact Hkeys]. intros k Hk.
    destruct Hk as [_ [Hlo [Hhi _]]]. now split.
  - exists ty. split; [exact Hty |].
    eapply Forall_impl; [| exact Hkeys]. intros k Hk.
    destruct Hk as [_ [_ [_ Hex]]]. exact Hex.
Qed.



End SynthesisProperties.

(** ** Evaluations on concrete generator states *)

Lemma random_mode_count_order_and_range_witness :
  (0 <= 2)%Z /\ (2 <= 5)%Z
  /\ returns (generate_random_float_curve (ML := placeholder_math) 2 5 (Some LERP))
       (fun c => (2 <= Z.of_nat (List.length (keys c)) <= 5)%Z
                 /\ StronglySorted Qle (map time (keys c))).
Proof.
  split; [lia |]. split; [lia |].
  eapply returns_mono.
  - apply (@random_mode_count_order_and_range placeholder_math (Some LERP) 2 5); lia.
  - intros c [Hn [Hs _]]. split; [exact Hn | exact Hs].
Defined.

(** C5, refuted as stated: with bounds -5 <= -1 the curve has no key at
    all, and 0 is not in [-5, -1]. *)
Lemma random_mode_negative_bounds_give_no_keys :
  (-5 <= -1)%Z
  /\ exists c g',
       generate_random_float_curve (ML := placeholder_math) (-5) (-1) (Some LERP)
                                   zero_rng
       = Ok (c, g')
       /\ keys c = []
       /\ ~ (-5 <= Z.of_nat (List.length (keys c)) <= -1)%Z.
Proof.
  split; [lia |]. eexists; eexists. split; [vm_compute; reflexivity |].
  split; [reflexivity |]. simpl. lia.
Qed.





(** ** The curve assembler and the export transform *)

Lemma Forall2_combine {A B C : Type} (R1 : A -> B -> Prop) (R2 : A * B -> C -> Prop)
  (l : list A) (tys : list B) (es : list C) :
  Forall2 R1 l tys -> Forall2 R2 (combine l tys) es ->
  Forall2 (fun a e => exists t, R1 a t /\ R2 (a, t) e) l es.
Proof.
  intros H1. revert es. induction H1 as [|a t l tys Hat H1 IH]; intros es H2;
    simpl in H2; inversion H2; subst; constructor.
  - now exists t.
  - now apply IH.
Qed.

Section AssemblyProperties.

Context {ML : MathLib} {H : Host}.

Lemma returns_draw_adjustments (randomize_adjustments : Q) :
  returns (draw_adjustments randomize_adjustments)
          (fun adj => exists a1 a2 a3 a4 a5 a6 a7,
               adj = adjustment_fields a1 a2 a3 a4 a5 a6 a7).
Proof.
  unfold draw_adjustments.
  repeat (eapply returns_bind; [apply returns_uniform_any | intros ? _]).
  apply returns_ret. do 7 eexists. reflexivity.
Qed.

Lemma returns_random_curve_entry (ch : string) (ty : FloatCurveType) :
  returns (c <~ generate_random_float_curve 2 100 (Some ty) ;;
           ret (ch, FloatCurve_to_py c))
          (fun e => exists c, e = (ch, FloatCurve_to_py c)).
Proof.
  eapply returns_bind.
  - eapply returns_mono;
      [apply (generate_random_float_curve_spec 2 100 (Some ty)); lia |].
    intros c _. exact I.
  - intros c _. apply returns_ret. now exists c.
Qed.

(** The second loop of the random assemblers, over four chosen families. *)
Lemma returns_random_curve_entries (tys : list FloatCurveType) :
  Forall2 (fun _ _ => True) channels tys ->
  returns (forM (combine channels tys)
             (fun ct => c <~ generate_random_float_curve 2 100 (Some (snd ct)) ;;
                        ret (fst ct, FloatCurve_to_py c)))
          (fun fcs => exists cR cG cB cA,
               fcs = [("R", FloatCurve_to_py cR); ("G", FloatCurve_to_py cG);
                      ("B", FloatCurve_to_py cB); ("A", FloatCurve_to_py cA)]).
Proof.
  intros Htys.
  eapply returns_mono;
    [apply (returns_forM _ _ (fun ct e => exists c, e = (fst ct, FloatCurve_to_py c)));
     intros ct _; apply returns_random_curve_entry |].
  intros fcs Hfcs.
  pose proof (Forall2_combine _ _ _ _ _ Htys Hfcs) as HF.
  unfold channels in HF.
  inversion HF as [| ? e1 ? l1 [t1 [_ [c1 E1]]] HF1]; subst.
  inversion HF1 as [| ? e2 ? l2 [t2 [_ [c2 E2]]] HF2]; subst.
  inversion HF2 as [| ? e3 ? l3 [t3 [_ [c3 E3]]] HF3]; subst.
  inversion HF3 as [| ? e4 ? l4 [t4 [_ [c4 E4]]] HF4]; subst.
  inversion HF4; subst.
  now exists c1, c2, c3, c4.
Qed.

Lemma convert_assembled (cR cG cB cA : FloatCurve) (a1 a2 a3 a4 a5 a6 a7 : Q)
  (extra : list (string * pyval)) :
  convert_to_UE_output_format
    (VDict (base_curve_json
              [("R", FloatCurve_to_py cR); ("G", FloatCurve_to_py cG);
               ("B", FloatCurve_to_py cB); ("A", FloatCurve_to_py cA)]
              (adjustment_fields a1 a2 a3 a4 a5 a6 a7)
            ++ extra)%list)
  = Ok (VDict ([("floatCurves",
                 VList [FloatCurve_to_py cR; FloatCurve_to_py cG;
                        FloatCurve_to_py cB; FloatCurve_to_py cA])]
               ++ adjustment_fields a1 a2 a3 a4 a5 a6 a7
               ++ [("assetImportData", asset_import_data)])%list).
Proof. reflexivity. Qed.

Lemma exported_of_assembled (final rec : pyval) :
  getitem final "curve_json" = Ok rec ->
  assembled_curve_json rec ->
  exported_as_coded final.
Proof.
  intros Hrec [cR [cG [cB [cA [a1 [a2 [a3 [a4 [a5 [a6 [a7 [extra ->]]]]]]]]]]]].
  unfold exported_as_coded.
  eexists; eexists; eexists; eexists; eexists; eexists.
  split; [exact Hrec |]. split; [reflexivity |].
  split; [apply convert_assembled |]. split; [reflexivity |].
  split; [repeat constructor; eexists; split; reflexivity |].
  split; [reflexivity |]. split; reflexivity.
Qed.

(** [generate_random_color_curve] returns an assembled record. *)
Lemma returns_generate_random_color_curve :
  returns generate_random_color_curve
          (fun final => exists rec,
               getitem final "curve_json" = Ok rec /\ assembled_curve_json rec).
Proof.
  unfold generate_random_color_curve.
  eapply returns_bind;
    [apply (returns_forM _ _ (fun _ _ => True)); intros ch _;
     eapply returns_mono; [apply returns_choice; discriminate | trivial] |].
  intros tys Htys.
  eapply returns_bind; [apply (returns_random_curve_entries _ Htys) |].
  intros fcs [cR [cG [cB [cA ->]]]].
  eapply returns_bind; [apply returns_draw_adjustments |].
  intros adj [a1 [a2 [a3 [a4 [a5 [a6 [a7 ->]]]]]]].
  apply returns_ret. eexists. split; [reflexivity |].
  exists cR, cG, cB, cA, a1, a2, a3, a4, a5, a6, a7, [].
  now rewrite app_nil_r.
Qed.

(** So does [generate_color_curve_from_spec] without a spec. *)
Lemma returns_generate_without_spec (float_curve_type : option FloatCurveType) :
  returns (generate_color_curve_from_spec None float_curve_type)
          (fun final => exists rec,
               getitem final "curve_json" = Ok rec /\ assembled_curve_json rec).
Proof.
  unfold generate_color_curve_from_spec.
  eapply returns_bind;
    [apply (returns_forM _ _ (fun _ _ => True)); intros ch _;
     destruct float_curve_type;
     [now apply returns_ret
     | eapply returns_mono; [apply returns_choice; discriminate | trivial]] |].
  intros tys Htys.
  eapply returns_bind; [apply (returns_random_curve_entries _ Htys) |].
  intros fcs [cR [cG [cB [cA ->]]]].
  eapply returns_bind; [apply returns_draw_adjustments |].
  intros adj [a1 [a2 [a3 [a4 [a5 [a6 [a7 ->]]]]]]].
  apply returns_ret. eexists. split; [reflexivity |].
  exists cR, cG, cB, cA, a1, a2, a3, a4, a5, a6, a7, [].
  now rewrite app_nil_r.
Qed.

Lemma FloatCurveType_getitem_cases (s : string) :
  (exists ty, FloatCurveType_getitem s = Ok ty)
  \/ FloatCurveType_getitem s = Raise KeyError.
Proof.
  unfold FloatCurveType_getitem.
  destruct (find _ all_FloatCurveType) as [ty |]; [left; now exists ty | now right].
Qed.

(** [get_enum] returns a family for every string, and for an absent key. *)
Lemma get_enum_total (jd : list (string * pyval)) (key : string) :
  is_str_or_absent jd key = true ->
  exists ty, get_enum jd key "PARABOLIC" = Ok ty.
Proof.
  unfold is_str_or_absent, get_enum. destruct (lookup jd key) as [v |].
  - destruct v; try discriminate. intros _.
    destruct (FloatCurveType_getitem_cases (upper s)) as [[ty E] | E]; rewrite E.
    + now exists ty.
    + now exists PARABOLIC.
  - intros _. now exists PARABOLIC.
Qed.


Lemma get_number_total (jd : list (string * pyval)) (key : string) (default : Q) :
  is_number_or_absent jd key = true ->
  exists q, get_number jd key default = Ok q.
Proof.
  unfold is_number_or_absent, get_number. destruct (lookup jd key) as [v |].
  - destruct v; try discriminate; intros _; eexists; reflexivity.
  - intros _. now exists default.
Qed.

Lemma well_typed_type_key (jd : list (string * pyval)) (key : string) :
  well_typed_spec jd = true -> In key type_keys -> is_str_or_absent jd key = true.
Proof.
  unfold well_typed_spec. rewrite andb_true_iff. intros [Ht _] Hin.
  rewrite forallb_forall in Ht. now apply Ht.
Qed.

Lemma well_typed_number_key (jd : list (string * pyval)) (key : string) :
  well_typed_spec jd = true -> In key number_keys ->
  is_number_or_absent jd key = true.
Proof.
  unfold well_typed_spec. rewrite andb_true_iff. intros [_ Hn] Hin.
  rewrite forallb_forall in Hn. now apply Hn.
Qed.

Lemma returns_get_enum (jd : list (string * pyval)) (key : string) :
  well_typed_spec jd = true -> In key type_keys ->
  returns (lift (get_enum jd key "PARABOLIC"))
          (fun ty => get_enum jd key "PARABOLIC" = Ok ty).
Proof.
  intros Hwt Hin.
  destruct (get_enum_total jd key (well_typed_type_key _ _ Hwt Hin)) as [ty E].
  rewrite E. now apply (returns_lift _ ty).
Qed.

Lemma returns_get_number (jd : list (string * pyval)) (key : string) (default : Q) :
  well_typed_spec jd = true -> In key number_keys ->
  returns (lift (get_number jd key default))
          (fun q => get_number jd key default = Ok q).
Proof.
  intros Hwt Hin.
  destruct (get_number_total jd key default (well_typed_number_key _ _ Hwt Hin))
    as [q E].
  rewrite E. now apply (returns_lift _ q).
Qed.

Lemma returns_generate_float_curve_any
  (ty : FloatCurveType) (resolution_scale noise_scale : Q) :
  returns (generate_float_curve (Some ty) resolution_scale noise_scale)
          (fun c => produces (generate_float_curve (Some ty) resolution_scale
                                                   noise_scale) c).
Proof.
  eapply returns_mono;
    [apply returns_produces, generate_float_curve_spec | now intros c [_ Hp]].
Qed.

Lemma channel_keys_in (ch : string) :
  In ch channels ->
  In (ch ++ "_float_curve_type") type_keys
  /\ In (ch ++ "_resolution_scale") number_keys
  /\ In (ch ++ "_noise_scale") number_keys.
Proof.
  unfold channels. intros Hin.
  repeat (destruct Hin as [<- | Hin]; [vm_compute; tauto |]). contradiction.
Qed.

(** What [generate_color_curve_from_spec] returns for a well-typed spec. *)
Lemma returns_generate_from_spec
  (jd : list (string * pyval)) (float_curve_type : option FloatCurveType) :
  hook_succeeds -> well_typed_spec jd = true ->
  returns (generate_color_curve_from_spec (Some jd) float_curve_type)
          (fun final =>
             exists fcs a1 a2 a3 a4 a5 a6 a7 extra,
               Forall2 (spec_channel_post jd) channels fcs
               /\ getitem final "curve_json"
                  = Ok (VDict (base_curve_json
                                 fcs (adjustment_fields a1 a2 a3 a4 a5 a6 a7)
                               ++ extra)%list)).
Proof.
  intros Hhook Hwt. unfold generate_color_curve_from_spec.
  eapply returns_bind;
    [apply (returns_forM _ _
              (fun ch ty => get_enum jd (ch ++ "_float_curve_type") "PARABOLIC"
                            = Ok ty));
     intros ch Hch; apply returns_get_enum;
     [exact Hwt | apply (channel_keys_in ch Hch)] |].
  intros tys Htys.
  eapply returns_bind;
    [apply (returns_forM _ _
              (fun ct e =>
                 exists rs ns c,
                   get_number jd (fst ct ++ "_resolution_scale") 1.0 = Ok rs
                   /\ get_number jd (fst ct ++ "_noise_scale") 0.0 = Ok ns
                   /\ produces (generate_float_curve (Some (snd ct)) rs ns) c
                   /\ e = (fst ct, FloatCurve_to_py c))) |].
  { intros [ch0 ty0] Hct. apply in_combine_l in Hct. cbn [fst snd].
    destruct (channel_keys_in _ Hct) as [_ [Hrs Hns]].
    eapply returns_bind; [apply (returns_get_number _ _ _ Hwt Hrs) | intros rs Ers].
    eapply returns_bind; [apply (returns_get_number _ _ _ Hwt Hns) | intros ns Ens].
    eapply returns_bind; [apply returns_generate_float_curve_any | intros c Hc].
    apply returns_ret. now exists rs, ns, c. }
  intros fcs Hfcs.
  eapply returns_bind;
    [apply (returns_get_enum _ _ Hwt); vm_compute; tauto | intros x_type _].
  eapply returns_bind;
    [apply (returns_get_number _ _ _ Hwt); vm_compute; tauto | intros x_rs _].
  eapply returns_bind;
    [apply (returns_get_number _ _ _ Hwt); vm_compute; tauto | intros x_ns _].
  eapply returns_bind; [apply returns_generate_float_curve_any | intros x_curve _].
  eapply returns_bind;
    [apply (returns_get_enum _ _ Hwt); vm_compute; tauto | intros y_type _].
  eapply returns_bind;
    [apply (returns_get_number _ _ _ Hwt); vm_compute; tauto | intros y_rs _].
  eapply returns_bind;
    [apply (returns_get_number _ _ _ Hwt); vm_compute; tauto | intros y_ns _].
  eapply returns_bind; [apply returns_generate_float_curve_any | intros y_curve _].
  eapply returns_bind with (Q := fun _ => True).
  { destruct (is_truthy_dict jd).
    - eapply returns_mono;
        [apply (returns_get_number _ _ _ Hwt); vm_compute; tauto | trivial].
    - now apply returns_ret. }
  intros ra _.
  eapply returns_bind; [apply returns_draw_adjustments |].
  intros adj [a1 [a2 [a3 [a4 [a5 [a6 [a7 ->]]]]]]].
  eapply returns_bind; [apply (returns_lift _ tt (fun _ => True)); auto |].
  intros _ _. apply returns_ret.
  exists fcs, a1, a2, a3, a4, a5, a6, a7. eexists. split; [| reflexivity].
  eapply Forall2_impl; [| apply (Forall2_combine _ _ _ _ _ Htys Hfcs)].
  intros ch e [ty [Hty [rs [ns [c [Hrs [Hns [Hc He]]]]]]]].
  now exists ty, rs, ns, c.
Qed.

Lemma spec_channels_are_four (jd : list (string * pyval))
  (fcs : list (string * pyval)) :
  Forall2 (spec_channel_post jd) channels fcs ->
  exists cR cG cB cA,
    fcs = [("R", FloatCurve_to_py cR); ("G", FloatCurve_to_py cG);
           ("B", FloatCurve_to_py cB); ("A", FloatCurve_to_py cA)].
Proof.
  unfold channels. intros HF.
  inversion HF as [| ? e1 ? l1 [t1 [r1 [n1 [c1 [_ [_ [_ [_ E1]]]]]]]] HF1]; subst.
  inversion HF1 as [| ? e2 ? l2 [t2 [r2 [n2 [c2 [_ [_ [_ [_ E2]]]]]]]] HF2]; subst.
  inversion HF2 as [| ? e3 ? l3 [t3 [r3 [n3 [c3 [_ [_ [_ [_ E3]]]]]]]] HF3]; subst.
  inversion HF3 as [| ? e4 ? l4 [t4 [r4 [n4 [c4 [_ [_ [_ [_ E4]]]]]]]] HF4]; subst.
  inversion HF4; subst.
  now exists c1, c2, c3, c4.
Qed.

End AssemblyProperties.

Section AssemblyTheorems.

Context {ML : MathLib} {H : Host}.

(** C8 (as the code has it).  For every record the assemblers return,
    [convert_to_UE_output_format] succeeds on its [curve_json]; in the
    output, [floatCurves] is the list of the record's four float curves in
    the fixed order R, G, B, A; the seven adjustment fields and
    [assetImportData] are those of the record, unchanged; and the output has
    no other field, so [created_at] (and [metaCurves] of a spec-mode record)
    is not passed through. *)
Theorem export_reshapes_curves_and_keeps_listed_fields :
  returns generate_random_color_curve exported_as_coded
  /\ (forall float_curve_type,
         returns (generate_color_curve_from_spec None float_curve_type)
                 exported_as_coded)
  /\ (forall jd float_curve_type,
         hook_succeeds -> well_typed_spec jd = true ->
         returns (generate_color_curve_from_spec (Some jd) float_curve_type)
                 exported_as_coded).
Proof.
  split; [| split].
  - eapply returns_mono; [apply returns_generate_random_color_curve |].
    intros final [rec [Hrec Hasm]]. exact (exported_of_assembled _ _ Hrec Hasm).
  - intros ty. eapply returns_mono; [apply returns_generate_without_spec |].
    intros final [rec [Hrec Hasm]]. exact (exported_of_assembled _ _ Hrec Hasm).
  - intros jd ty Hhook Hwt.
    eapply returns_mono; [apply (returns_generate_from_spec _ _ Hhook Hwt) |].
    intros final [fcs [a1 [a2 [a3 [a4 [a5 [a6 [a7 [extra [HF Hrec]]]]]]]]]].
    destruct (spec_channels_are_four _ _ HF) as [cR [cG [cB [cA ->]]]].
    apply (exported_of_assembled _ _ Hrec).
    now exists cR, cG, cB, cA, a1, a2, a3, a4, a5, a6, a7, extra.
Qed.


End AssemblyTheorems.

Lemma quiet_host_hook_succeeds : hook_succeeds (H := quiet_host).
Proof. intros curve_id name. reflexivity. Qed.

Lemma export_reshapes_curves_and_keeps_listed_fields_witness :
  hook_succeeds (H := quiet_host)
  /\ well_typed_spec [("name", VStr "demo"); ("R_float_curve_type", VStr "STEP")]
     = true
  /\ returns (generate_color_curve_from_spec
                (ML := placeholder_math) (H := quiet_host)
                (Some [("name", VStr "demo"); ("R_float_curve_type", VStr "STEP")])
                None)
             (exported_as_coded (H := quiet_host)).
Proof.
  split; [exact quiet_host_hook_succeeds |]. split; [reflexivity |].
  destruct (@export_reshapes_curves_and_keeps_listed_fields
              placeholder_math quiet_host) as [_ [_ Hspec]].
  apply Hspec; [exact quiet_host_hook_succeeds | reflexivity].
Defined.

(** C8, refuted as stated: the record [generate_random_color_curve] returns
    has the top-level field [created_at], and the export of that record has
    no such field. *)
Lemma export_drops_created_at :
  exists final g' rec out,
    generate_random_color_curve (ML := placeholder_math) (H := quiet_host) zero_rng
    = Ok (final, g')
    /\ getitem final "curve_json" = Ok rec
    /\ convert_to_UE_output_format rec = Ok out
    /\ getitem rec "created_at" = Ok (VStr "2024-01-01T00:00:00Z")
    /\ getitem out "created_at" = Raise KeyError.
Proof.
  eexists; eexists; eexists; eexists.
  split; [vm_compute; reflexivity |].
  split; [reflexivity |]. split; [vm_compute; reflexivity |].
  split; reflexivity.
Qed.



(* ===================================================================== *)
(** * Further properties of the embedded code                            *)
(* ===================================================================== *)

(** ** Clamp *)

Lemma clamp_inside (v lo hi : Q) : lo <= v -> v <= hi -> clamp v lo hi == v.
Proof.
  intros Hlo Hhi. unfold clamp, Py.max2, Py.min2.
  destruct (Py.Qlt_bool hi v) eqn:E1.
  - apply Qlt_bool_true in E1. lra.
  - destruct (Py.Qlt_bool lo v) eqn:E2; [reflexivity |].
    apply Qlt_bool_false in E2. lra.
Qed.

Lemma clamp_below (v lo hi : Q) : lo <= hi -> v <= lo -> clamp v lo hi == lo.
Proof.
  intros Hlh Hv. unfold clamp, Py.max2, Py.min2.
  destruct (Py.Qlt_bool hi v) eqn:E1.
  - apply Qlt_bool_true in E1. lra.
  - destruct (Py.Qlt_bool lo v) eqn:E2; [| reflexivity].
    apply Qlt_bool_true in E2. lra.
Qed.

Lemma clamp_above (v lo hi : Q) : lo <= hi -> hi <= v -> clamp v lo hi == hi.
Proof.
  intros Hlh Hv. unfold clamp, Py.max2, Py.min2.
  destruct (Py.Qlt_bool hi v) eqn:E1.
  - destruct (Py.Qlt_bool lo hi) eqn:E2; [reflexivity |].
    apply Qlt_bool_false in E2. lra.
  - apply Qlt_bool_false in E1.
    destruct (Py.Qlt_bool lo v) eqn:E2; [lra |].
    apply Qlt_bool_false in E2. lra.
Qed.

(** X1.  [clamp(value, min_value, max_value)] with ordered bounds returns a
    number of [min_value, max_value]: the value itself when it lies inside,
    the nearer bound otherwise, and clamping twice changes nothing.  With
    the bounds the wrong way round ([max_value < min_value]) it returns
    [min_value] whatever the value. *)
Theorem clamp_is_the_nearest_point_of_the_range :
  forall (v lo hi : Q),
    (lo <= hi ->
     lo <= clamp v lo hi <= hi
     /\ (lo <= v <= hi -> clamp v lo hi == v)
     /\ (v <= lo -> clamp v lo hi == lo)
     /\ (hi <= v -> clamp v lo hi == hi)
     /\ clamp (clamp v lo hi) lo hi == clamp v lo hi)
    /\ (hi < lo -> clamp v lo hi = lo).
Proof.
  intros v lo hi. split.
  - intros Hlh.
    pose proof (clamp_bounds v lo hi Hlh) as [Hb1 Hb2].
    split; [split; assumption |].
    split; [intros [H1 H2]; now apply clamp_inside |].
    split; [intros H1; now apply clamp_below |].
    split; [intros H1; now apply clamp_above |].
    now apply clamp_inside.
  - intros Hinv. unfold clamp, Py.max2.
    destruct (Py.Qlt_bool lo (Py.min2 v hi)) eqn:E; [| reflexivity].
    apply Qlt_bool_true in E. pose proof (min2_le_r v hi). lra.
Qed.

Lemma clamp_is_the_nearest_point_of_the_range_witness :
  0 <= 1 /\ clamp 1.5 0 1 == 1 /\ clamp (-3) 0 1 == 0
  /\ 1 < 2 /\ clamp 0.5 2 1 = 2.
Proof.
  destruct (clamp_is_the_nearest_point_of_the_range 1.5 0 1) as [H1 _].
  destruct (clamp_is_the_nearest_point_of_the_range (-3) 0 1) as [H2 _].
  destruct (clamp_is_the_nearest_point_of_the_range 0.5 2 1) as [_ H3].
  assert (H01 : 0 <= 1) by (vm_compute; discriminate).
  assert (H12 : 1 < 2) by reflexivity.
  destruct (H1 H01) as [_ [_ [_ [Ha _]]]].
  destruct (H2 H01) as [_ [_ [Hb _]]].
  split; [exact H01 |].
  split; [apply Ha; vm_compute; discriminate |].
  split; [apply Hb; vm_compute; discriminate |].
  split; [exact H12 | exact (H3 H12)].
Defined.

(** ** Remap *)




(** ** Process_alpha_channel *)



Lemma Qfloor_byte (r : Q) : 0 <= r -> r <= 255 -> (0 <= Qfloor r <= 255)%Z.
Proof.
  intros H0 H255.
  pose proof (Qfloor_resp_le _ _ H0) as Hf0.
  pose proof (Qfloor_resp_le _ _ H255) as Hf255.
  change 0 with (inject_Z 0) in Hf0. change 255 with (inject_Z 255) in Hf255.
  rewrite Qfloor_Z in Hf0, Hf255. lia.
Qed.




(** ** Extract_curve_data *)

(** X4.  Whenever [extract_curve_data] returns, its two lists have the same
    length: two entries (times 0 and 1) for a curve of exactly one key, and
    one entry per key otherwise; so [np.interp] never sees sample points and
    values of different lengths. *)
Theorem extract_curve_data_returns_lists_of_equal_length :
  forall (curve : list pyval) (epsilon : Q) (times values : list pyval),
    extract_curve_data (VList curve) epsilon = Ok (times, values) ->
    List.length times = List.length values
    /\ (List.length curve = 1%nat -> times = [VNum 0; VNum 1])
    /\ (List.length curve <> 1%nat -> List.length times = List.length curve).
Proof.
  intros curve epsilon times values. unfold extract_curve_data.
  simpl len. simpl Py.bind.
  destruct (Nat.eqb_spec (List.length curve) 1) as [E1 | Hn1].
  - destruct curve as [|k0 [|k1 curve']]; try discriminate E1.
    cbn [getitem0 Py.bind].
    destruct (getitem k0 "value") as [cv |]; cbn [Py.bind]; [| discriminate].
    intros E. inversion E; subst. split; [reflexivity |].
    split; [reflexivity | contradiction].
  - simpl iter. simpl Py.bind.
    destruct (mapM (fun key => getitem key "time") curve) as [ts |] eqn:Et;
      simpl; [| discriminate].
    destruct (mapM (fun key => getitem key "value") curve) as [vs |] eqn:Ev;
      simpl; [| discriminate].
    destruct (mapM (snap epsilon) vs) as [vs' |] eqn:Es; simpl; [| discriminate].
    intros E. inversion E; subst.
    apply mapM_length in Et, Ev, Es.
    split; [congruence |]. split; [contradiction | intros _; exact Et].
Qed.

Lemma extract_curve_data_returns_lists_of_equal_length_witness :
  exists times values,
    extract_curve_data
      (VList [Key_to_py (key_at 0 0.25); Key_to_py (key_at 0.5 1);
              Key_to_py (key_at 1 0)]) epsilon_default = Ok (times, values)
    /\ List.length times = 3%nat /\ List.length values = 3%nat.
Proof.
  eexists; eexists.
  assert (E : extract_curve_data
      (VList [Key_to_py (key_at 0 0.25); Key_to_py (key_at 0.5 1);
              Key_to_py (key_at 1 0)]) epsilon_default
      = Ok ([VNum 0; VNum 0.5; VNum 1], [VNum 0.25; VNum 1; VNum 0]))
    by reflexivity.
  split; [exact E |].
  destruct (extract_curve_data_returns_lists_of_equal_length _ _ _ _ E)
    as [Heq [_ Hn]].
  split; [apply Hn; discriminate |].
  rewrite <- Heq. apply Hn. discriminate.
Defined.

(** ** Enums.py *)

Lemma InterpMode_call_value (m : InterpMode) : InterpMode_call (InterpMode_value m) = Ok m.
Proof. destruct m; reflexivity. Qed.

(** X5.  [InterpMode.to_plotting_kind] never falls back on its default: every
    member is a key of the table.  The kind of a member is its value without
    the prefix [RCIM_], in lower case; two different members have different
    kinds, so [available_plotting_kinds] lists eleven distinct kinds; and
    [InterpMode(m.value)] is [m]. *)
Theorem to_plotting_kind_covers_every_member :
  forall (m : InterpMode),
    (exists kind, In (m, kind) plotting_kinds /\ to_plotting_kind m = kind)
    /\ to_plotting_kind m
       = lower (substring 5 (String.length (InterpMode_value m) - 5) (InterpMode_value m))
    /\ (forall m', to_plotting_kind m' = to_plotting_kind m -> m' = m)
    /\ InterpMode_call (InterpMode_value m) = Ok m
    /\ List.length available_plotting_kinds = 11%nat
    /\ NoDup available_plotting_kinds.
Proof.
  intros m.
  split; [eexists; split; [| reflexivity]; destruct m; simpl; tauto |].
  split; [destruct m; reflexivity |].
  split; [intros m' E; destruct m; destruct m'; (reflexivity || discriminate E) |].
  split; [apply InterpMode_call_value |].
  split; [reflexivity |].
  unfold available_plotting_kinds. simpl.
  repeat (constructor; [simpl; intuition discriminate |]). constructor.
Qed.

(** X6.  The local helper [get_enum] resolves a shape family from its member
    name and also from its [value] (the lower-case spelling of [enums.py]),
    since the text is upper-cased before the lookup and every value in upper
    case is the member's name; with the field absent, the default
    ["PARABOLIC"] resolves to PARABOLIC. *)
Theorem get_enum_reads_names_and_values :
  forall (ty : FloatCurveType) (jd : list (string * pyval)) (key : string),
    upper (FloatCurveType_value ty) = name_of ty
    /\ (lookup jd key = Some (VStr (name_of ty)) ->
        get_enum jd key "PARABOLIC" = Ok ty)
    /\ (lookup jd key = Some (VStr (FloatCurveType_value ty)) ->
        get_enum jd key "PARABOLIC" = Ok ty)
    /\ (lookup jd key = None -> get_enum jd key "PARABOLIC" = Ok PARABOLIC).
Proof.
  intros ty jd key.
  split; [destruct ty; reflexivity |].
  split; [| split].
  - intros E. unfold get_enum. rewrite E. destruct ty; reflexivity.
  - intros E. unfold get_enum. rewrite E. destruct ty; reflexivity.
  - intros E. unfold get_enum. rewrite E. reflexivity.
Qed.

Lemma get_enum_reads_names_and_values_witness :
  lookup [("R_float_curve_type", VStr "euler_spiral")] "R_float_curve_type"
  = Some (VStr (FloatCurveType_value EULER_SPIRAL))
  /\ get_enum [("R_float_curve_type", VStr "euler_spiral")] "R_float_curve_type"
              "PARABOLIC" = Ok EULER_SPIRAL.
Proof.
  split; [reflexivity |].
  destruct (get_enum_reads_names_and_values
              EULER_SPIRAL [("R_float_curve_type", VStr "euler_spiral")]
              "R_float_curve_type") as [_ [_ [Hv _]]].
  apply Hv. reflexivity.
Defined.

(** ** Generate_random_key *)

Lemma uniform_between (lo hi u : Q) :
  0 <= u -> u < 1 ->
  (lo <= hi -> lo <= lo + (hi - lo) * u <= hi)
  /\ (hi <= lo -> hi <= lo + (hi - lo) * u <= lo).
Proof. intros H0 H1. split; intros Hle; split; nra. Qed.

(** X7.  [generate_random_key] returns a key whose time lies between the two
    ends of [time_range] (whichever is the larger), whose value and leave
    weight lie in [0, 1), whose interpolation mode is one of the three
    listed, each the value of an [InterpMode] member, whose tangent mode is
    one of the three listed, and whose other tangent fields are 0. *)
Theorem generate_random_key_stays_in_its_ranges :
  forall (lo hi : Q),
    returns (generate_random_key (lo, hi))
      (fun k =>
         (lo <= hi -> lo <= time k <= hi)
         /\ (hi <= lo -> hi <= time k <= lo)
         /\ 0 <= value k < 1
         /\ 0 <= leaveTangentWeight k < 1
         /\ In (interpMode k) ["RCIM_Constant"; "RCIM_Linear"; "RCIM_Cubic"]
         /\ (exists m, InterpMode_call (interpMode k) = Ok m)
         /\ In (tangentMode k) ["RCTM_Auto"; "RCTM_Break"; "RCTM_User"]
         /\ tangentWeightMode k = "RCTWM_WeightedNone"
         /\ arriveTangent k = 0 /\ arriveTangentWeight k = 0 /\ leaveTangent k = 0).
Proof.
  intros lo hi. unfold generate_random_key.
  eapply returns_bind; [apply returns_choice; discriminate | intros im Him].
  eapply returns_bind; [apply returns_choice; discriminate | intros tm Htm].
  eapply returns_bind; [apply returns_uniform | intros t [u [Hu0 [Hu1 ->]]]].
  eapply returns_bind; [apply returns_uniform | intros v [u2 [Hv0 [Hv1 ->]]]].
  eapply returns_bind; [apply returns_uniform | intros w [u3 [Hw0 [Hw1 ->]]]].
  apply returns_ret. cbn [time value leaveTangentWeight interpMode tangentMode
                          tangentWeightMode arriveTangent arriveTangentWeight
                          leaveTangent fst snd].
  destruct (uniform_between lo hi u Hu0 Hu1) as [Ha Hb].
  split; [exact Ha |]. split; [exact Hb |].
  split; [split; lra |]. split; [split; lra |].
  split; [exact Him |].
  split; [simpl in Him; destruct Him as [<- | [<- | [<- | []]]]; eexists; reflexivity |].
  split; [exact Htm |]. repeat split.
Qed.

(** ** Create_checkered_background *)

Lemma map_index_nth_error {A B : Type} (f : nat -> A -> B) (l : list A) :
  forall i k, nth_error (map_index f i l) k = option_map (f (i + k)%nat) (nth_error l k).
Proof.
  induction l as [|a l IH]; intros i k; simpl.
  - now destruct k.
  - destruct k as [|k]; simpl.
    + now rewrite Nat.add_0_r.
    + rewrite IH. now rewrite Nat.add_succ_r.
Qed.

Lemma map_index_length {A B : Type} (f : nat -> A -> B) (l : list A) :
  forall i, List.length (map_index f i l) = List.length l.
Proof. induction l as [|a l IH]; intros i; simpl; [reflexivity | now rewrite IH]. Qed.

Lemma map_index_Forall {A B : Type} (f : nat -> A -> B) (P : A -> Prop)
  (R : B -> Prop) :
  (forall i a, P a -> R (f i a)) ->
  forall l i, Forall P l -> Forall R (map_index f i l).
Proof.
  intros Hf l. induction l as [|a l IH]; intros i HF; simpl; constructor.
  - apply Hf. now inversion HF.
  - apply IH. now inversion HF.
Qed.

Lemma pixel_at_draw_rectangle (img : Image) (x0 y0 x1 y1 : nat) (c : pixel)
  (x y : nat) :
  pixel_at (draw_rectangle img x0 y0 x1 y1 c) x y
  = option_map
      (fun p => if (Nat.leb y0 y && Nat.leb y y1 && Nat.leb x0 x && Nat.leb x x1)%bool
                then c else p)
      (pixel_at img x y).
Proof.
  unfold pixel_at, draw_rectangle. rewrite map_index_nth_error. simpl.
  destruct (nth_error img y) as [row |]; simpl; [| reflexivity].
  rewrite map_index_nth_error. reflexivity.
Qed.

Lemma draw_rectangle_rows (img : Image) (x0 y0 x1 y1 : nat) (c : pixel) (w : nat) :
  Forall (fun row => List.length row = w) img ->
  Forall (fun row => List.length row = w) (draw_rectangle img x0 y0 x1 y1 c).
Proof.
  unfold draw_rectangle. apply map_index_Forall.
  intros i row Hrow. now rewrite map_index_length.
Qed.

Lemma draw_rectangle_length (img : Image) (x0 y0 x1 y1 : nat) (c : pixel) :
  List.length (draw_rectangle img x0 y0 x1 y1 c) = List.length img.
Proof. unfold draw_rectangle. apply map_index_length. Qed.

Lemma band_fold_pixel (s : nat) (xs : list nat) (y0 x y : nat) :
  forall img,
    pixel_at
      (fold_left
         (fun img x0 =>
            draw_rectangle img x0 y0 (x0 + s) (y0 + s)
              (square_color s x0 y0))
         xs img) x y
    = option_map (fun p => paint_band s xs x y p y0) (pixel_at img x y).
Proof.
  induction xs as [|x0 xs IH]; intros img; simpl.
  - now destruct (pixel_at img x y).
  - rewrite IH, pixel_at_draw_rectangle.
    destruct (pixel_at img x y) as [p |]; reflexivity.
Qed.

Lemma band_fold_shape (s : nat) (xs : list nat) (y0 w : nat) :
  forall img,
    Forall (fun row => List.length row = w) img ->
    let img' :=
      fold_left
        (fun img x0 =>
           draw_rectangle img x0 y0 (x0 + s) (y0 + s)
             (square_color s x0 y0))
        xs img in
    List.length img' = List.length img
    /\ Forall (fun row => List.length row = w) img'.
Proof.
  induction xs as [|x0 xs IH]; intros img HF; simpl; [now split |].
  destruct (IH _ (draw_rectangle_rows img x0 y0 (x0 + s) (y0 + s)
                                      (square_color s x0 y0) w HF)) as [H1 H2].
  split; [now rewrite H1, draw_rectangle_length | exact H2].
Qed.

Lemma checkered_fold_pixel (s : nat) (xs ys : list nat) (x y : nat) :
  forall img,
    pixel_at
      (fold_left
         (fun img y0 =>
            fold_left
              (fun img x0 =>
                 draw_rectangle img x0 y0 (x0 + s) (y0 + s)
                   (square_color s x0 y0))
              xs img)
         ys img) x y
    = option_map (fun p => fold_left (paint_band s xs x y) ys p) (pixel_at img x y).
Proof.
  induction ys as [|y0 ys IH]; intros img; simpl.
  - now destruct (pixel_at img x y).
  - rewrite IH, band_fold_pixel.
    destruct (pixel_at img x y) as [p |]; reflexivity.
Qed.

Lemma checkered_fold_shape (s : nat) (xs ys : list nat) (w : nat) :
  forall img,
    Forall (fun row => List.length row = w) img ->
    let img' :=
      fold_left
        (fun img y0 =>
           fold_left
             (fun img x0 =>
                draw_rectangle img x0 y0 (x0 + s) (y0 + s)
                  (square_color s x0 y0))
             xs img)
        ys img in
    List.length img' = List.length img
    /\ Forall (fun row => List.length row = w) img'.
Proof.
  induction ys as [|y0 ys IH]; intros img HF; simpl; [now split |].
  destruct (band_fold_shape s xs y0 w img HF) as [H1 H2].
  destruct (IH _ H2) as [H3 H4].
  split; [now rewrite H3, H1 | exact H4].
Qed.

(** In a fold where all the steps after one leave the state as it is, the
    result is the result of that step. *)
Lemma fold_left_last_effective {A S : Type} (f : S -> A -> S) (l1 l2 : list A)
  (a : A) (p : S) :
  (forall b q, In b l2 -> f q b = q) ->
  fold_left f (l1 ++ a :: l2) p = f (fold_left f l1 p) a.
Proof.
  intros Hid. rewrite fold_left_app. simpl.
  generalize (f (fold_left f l1 p) a). intros q.
  induction l2 as [|b l2 IH]; simpl; [reflexivity |].
  rewrite Hid by now left. apply IH. intros c r Hc. apply Hid. now right.
Qed.

(** The starts of the squares, split around the square that holds [x]. *)
Lemma range_step_split (n s x : nat) :
  (0 < s)%nat -> (x < n)%nat ->
  exists before after,
    range_step n s = (before ++ (x / s * s)%nat :: after)%list
    /\ Forall (fun x0 => (x < x0)%nat) after.
Proof.
  intros Hs Hx. unfold range_step.
  set (m := ((n + s - 1) / s)%nat).
  assert (Hm : (x / s < m)%nat).
  { unfold m. apply Nat.Div0.div_lt_upper_bound.
    pose proof (Nat.div_mod_eq (n + s - 1) s) as Hdm.
    pose proof (Nat.mod_upper_bound (n + s - 1) s ltac:(lia)) as Hmod.
    nia. }
  exists (map (fun i => (i * s)%nat) (seq 0 (x / s))),
         (map (fun i => (i * s)%nat) (seq (S (x / s)) (m - S (x / s)))).
  split.
  - assert (Em : seq 0 m = (seq 0 (x / s) ++ (x / s)%nat :: seq (S (x / s)) (m - S (x / s)))%list).
    { generalize dependent m. intros m Hm.
      remember (m - S (x / s))%nat as r eqn:Er.
      assert (E : m = (x / s + S r)%nat) by lia.
      rewrite E, seq_app. reflexivity. }
    rewrite Em, map_app. reflexivity.
  - apply Forall_forall. intros x0 Hin. apply in_map_iff in Hin.
    destruct Hin as [i [<- Hi]]. apply in_seq in Hi.
    pose proof (Nat.div_mod_eq x s) as Hdm.
    pose proof (Nat.mod_upper_bound x s ltac:(lia)) as Hmod.
    nia.
Qed.

Lemma paint_band_result (s w x y y0 : nat) (p : pixel) :
  (0 < s)%nat -> (x < w)%nat ->
  paint_band s (range_step w s) x y p y0
  = if (Nat.leb y0 y && Nat.leb y (y0 + s))%bool
    then square_color s (x / s * s) y0
    else p.
Proof.
  intros Hs Hx.
  destruct (range_step_split w s x Hs Hx) as [before [after [E Hafter]]].
  unfold paint_band. rewrite E.
  rewrite fold_left_last_effective.
  - unfold paint_cell at 1.
    pose proof (Nat.div_mod_eq x s) as Hdm.
    pose proof (Nat.mod_upper_bound x s ltac:(lia)) as Hmod.
    assert (H1 : Nat.leb (x / s * s) x = true) by (apply Nat.leb_le; nia).
    assert (H2 : Nat.leb x (x / s * s + s) = true) by (apply Nat.leb_le; nia).
    rewrite H1, H2, !andb_true_r.
    destruct (Nat.leb y0 y && Nat.leb y (y0 + s))%bool eqn:Eb; [reflexivity |].
    (* the band does not hold y: no square of it paints the pixel *)
    clear -Eb. revert p. induction before as [|b before IH]; intros p; simpl;
      [reflexivity |].
    unfold paint_cell at 2. rewrite Eb. simpl. apply IH.
  - intros b q Hb. rewrite Forall_forall in Hafter. specialize (Hafter b Hb).
    unfold paint_cell.
    assert (Hf : Nat.leb b x = false) by (apply Nat.leb_gt; exact Hafter).
    rewrite Hf, andb_false_r. reflexivity.
Qed.

Lemma nth_mod_2 {A : Type} (n : nat) (a b d : A) :
  nth (n mod 2) [a; b] d = if Nat.even n then a else b.
Proof.
  pose proof (Nat.div_mod_eq n 2) as Hdm.
  pose proof (Nat.mod_upper_bound n 2 ltac:(lia)) as Hm.
  destruct (Nat.even n) eqn:E.
  - apply Nat.even_spec in E. destruct E as [k Hk].
    assert (E0 : (n mod 2 = 0)%nat) by lia. now rewrite E0.
  - assert (Ho : Nat.odd n = true) by (unfold Nat.odd; now rewrite E).
    apply Nat.odd_spec in Ho. destruct Ho as [k Hk].
    assert (E1 : (n mod 2 = 1)%nat) by lia. now rewrite E1.
Qed.

(** X8.  For a positive square size, [create_checkered_background] returns
    an image of [height] rows of [width] pixels in which the pixel in column
    [x] of row [y] is light gray when [x // square_size + y // square_size]
    is even and white otherwise: a regular checkerboard, fully opaque, with
    none of the transparent pixels the image started from.  (Every square is
    drawn one pixel wider and higher than [square_size]; the squares drawn
    later cover the excess.) *)
Theorem checkered_background_is_a_checkerboard :
  forall (width height square_size x y : nat),
    (0 < square_size)%nat ->
    let img := create_checkered_background width height square_size in
    List.length img = height
    /\ Forall (fun row => List.length row = width) img
    /\ ((x < width)%nat -> (y < height)%nat ->
        pixel_at img x y
        = Some (if Nat.even (x / square_size + y / square_size)
                then (200, 200, 200, 255)%Z
                else (255, 255, 255, 255)%Z)).
Proof.
  intros w h s x y Hs img.
  assert (Eimg : img
                 = fold_left
                     (fun img y0 =>
                        fold_left
                          (fun img x0 =>
                             draw_rectangle img x0 y0 (x0 + s) (y0 + s)
                                            (square_color s x0 y0))
                          (range_step w s) img)
                     (range_step h s) (repeat (repeat (255, 255, 255, 0)%Z w) h))
    by reflexivity.
  rewrite Eimg. clear Eimg img.
  assert (Hbg : Forall (fun row : list pixel => List.length row = w)
                       (repeat (repeat (255, 255, 255, 0)%Z w) h)).
  { apply Forall_forall. intros row Hrow. apply repeat_spec in Hrow. subst row.
    apply repeat_length. }
  destruct (checkered_fold_shape s (range_step w s) (range_step h s) w _ Hbg)
    as [Hlen Hrows].
  split; [rewrite Hlen; apply repeat_length |].
  split; [exact Hrows |].
  intros Hx Hy. rewrite checkered_fold_pixel.
  assert (Ebg : pixel_at (repeat (repeat (255, 255, 255, 0)%Z w) h) x y
                = Some (255, 255, 255, 0)%Z).
  { unfold pixel_at. rewrite nth_error_repeat by exact Hy.
    now rewrite nth_error_repeat by exact Hx. }
  rewrite Ebg. simpl option_map. f_equal.
  destruct (range_step_split h s y Hs Hy) as [before [after [E Hafter]]].
  rewrite E, fold_left_last_effective.
  - rewrite (paint_band_result s w x y _ _ Hs Hx).
    pose proof (Nat.div_mod_eq y s) as Hdm.
    pose proof (Nat.mod_upper_bound y s ltac:(lia)) as Hmod.
    assert (H1 : Nat.leb (y / s * s) y = true) by (apply Nat.leb_le; nia).
    assert (H2 : Nat.leb y (y / s * s + s) = true) by (apply Nat.leb_le; nia).
    rewrite H1, H2. simpl andb. cbv iota. unfold square_color.
    rewrite !Nat.div_mul by lia. apply nth_mod_2.
  - intros b q Hb. rewrite Forall_forall in Hafter. specialize (Hafter b Hb).
    rewrite (paint_band_result s w x y b q Hs Hx).
    assert (Hf : Nat.leb b y = false) by (apply Nat.leb_gt; exact Hafter).
    now rewrite Hf.
Qed.

Lemma checkered_background_is_a_checkerboard_witness :
  (0 < 8)%nat /\ (8 < 128)%nat /\ (17 < 128)%nat
  /\ pixel_at (create_checkered_background 128 128 8) 8 17
     = Some (255, 255, 255, 255)%Z
  /\ List.length (create_checkered_background 128 128 8) = 128%nat.
Proof.
  destruct (checkered_background_is_a_checkerboard 128 128 8 8 17 ltac:(lia))
    as [Hlen [_ Hpx]].
  split; [lia |]. split; [lia |]. split; [lia |].
  split; [exact (Hpx ltac:(lia) ltac:(lia)) | exact Hlen].
Defined.

(** ** What extraction can raise *)

Lemma mapM_raises {A B : Type} (f : A -> result B) (l : list A) (e : exn) :
  mapM f l = Raise e -> exists x, In x l /\ f x = Raise e.
Proof.
  induction l as [|x xs IH]; simpl; [discriminate |].
  destruct (f x) as [y |] eqn:Ex; simpl.
  - destruct (mapM f xs) as [ys |] eqn:Exs; simpl; [discriminate |].
    intros E. inversion E; subst. destruct (IH eq_refl) as [z [Hz Ez]].
    exists z. split; [now right | exact Ez].
  - intros E. inversion E; subst. exists x. split; [now left | exact Ex].
Qed.

Lemma getitem_raises (v : pyval) (k : string) (e : exn) :
  getitem v k = Raise e -> e = KeyError \/ e = TypeError.
Proof.
  unfold getitem. destruct v; try (intros E; inversion E; now right).
  destruct (lookup d k); intros E; inversion E. now left.
Qed.

Lemma extract_curve_data_raises (curve : pyval) (epsilon : Q) (e : exn) :
  extract_curve_data curve epsilon = Raise e -> caught_by_rasterizer e.
Proof.
  unfold extract_curve_data, caught_by_rasterizer.
  destruct (len curve) as [n |] eqn:En; simpl.
  - destruct (Nat.eqb n 1).
    + destruct (getitem0 curve) as [k0 |] eqn:E0; simpl.
      * destruct (getitem k0 "value") as [cv |] eqn:Ev; simpl; [discriminate |].
        intros E. inversion E; subst.
        destruct (getitem_raises _ _ _ Ev) as [-> | ->]; tauto.
      * intros E. inversion E; subst.
        destruct curve as [| | | s | l | d]; simpl in E0;
          try (inversion E0; tauto).
        -- destruct s; inversion E0; tauto.
        -- destruct l; inversion E0; tauto.
    + destruct (iter curve) as [ks |] eqn:Ei; simpl.
      * destruct (mapM (fun key => getitem key "time") ks) as [ts |] eqn:Et; simpl.
        -- destruct (mapM (fun key => getitem key "value") ks) as [vs |] eqn:Ev; simpl.
           ++ destruct (mapM (snap epsilon) vs) as [vs' |] eqn:Es; simpl;
                [discriminate |].
              intros E. inversion E; subst.
              destruct (mapM_raises _ _ _ Es) as [v [_ Hv]].
              unfold snap in Hv. destruct v; simpl in Hv; inversion Hv; tauto.
           ++ intros E. inversion E; subst.
              destruct (mapM_raises _ _ _ Ev) as [k [_ Hk]].
              destruct (getitem_raises _ _ _ Hk) as [-> | ->]; tauto.
        -- intros E. inversion E; subst.
           destruct (mapM_raises _ _ _ Et) as [k [_ Hk]].
           destruct (getitem_raises _ _ _ Hk) as [-> | ->]; tauto.
      * intros E. inversion E; subst.
        destruct curve; simpl in Ei; inversion Ei; tauto.
  - intros E. inversion E; subst.
    destruct curve; simpl in En; inversion En; tauto.
Qed.

Lemma channel_data_raises (fcs : pyval) (c : string) (e : exn) :
  channel_data fcs c = Raise e -> caught_by_rasterizer e.
Proof.
  unfold channel_data.
  destruct (getitem fcs c) as [fc |] eqn:E1; simpl.
  - destruct (getitem fc "keys") as [ks |] eqn:E2; simpl.
    + apply extract_curve_data_raises.
    + intros E. inversion E; subst.
      destruct (getitem_raises _ _ _ E2) as [-> | ->]; unfold caught_by_rasterizer; tauto.
  - intros E. inversion E; subst.
    destruct (getitem_raises _ _ _ E1) as [-> | ->]; unfold caught_by_rasterizer; tauto.
Qed.

Lemma caught_by_rasterizer_existsb (e : exn) :
  caught_by_rasterizer e ->
  existsb (exn_eqb e) [IndexError; KeyError; TypeError] = true.
Proof. intros [-> | [-> | ->]]; reflexivity. Qed.

(** When one of the four extractions fails, the sampling stops with the
    exception of the first that does, in the order R, G, B, A. *)
Lemma sample_channels_extraction_error (fcs : pyval) (width : Z) (c : string) (e : exn) :
  In c channels -> channel_data fcs c = Raise e ->
  exists e', sample_channels fcs width = Raise e' /\ caught_by_rasterizer e'.
Proof.
  intros Hin Hc. unfold sample_channels.
  destruct (channel_data fcs "R") as [[rt rv] |] eqn:ER; simpl;
    [| eexists; split; [reflexivity | exact (channel_data_raises _ _ _ ER)]].
  destruct (channel_data fcs "G") as [[gt gv] |] eqn:EG; simpl;
    [| eexists; split; [reflexivity | exact (channel_data_raises _ _ _ EG)]].
  destruct (channel_data fcs "B") as [[bt bv] |] eqn:EB; simpl;
    [| eexists; split; [reflexivity | exact (channel_data_raises _ _ _ EB)]].
  destruct (channel_data fcs "A") as [[at_ av] |] eqn:EA; simpl;
    [| eexists; split; [reflexivity | exact (channel_data_raises _ _ _ EA)]].
  unfold channels in Hin.
  destruct Hin as [<- | [<- | [<- | [<- | []]]]]; congruence.
Qed.

(** X9.  Keyframe data that cannot be read gives "no result".  For a record
    with the four channels, when the extraction of one channel's keys fails
    (a curve without ["keys"], a key without ["time"] or ["value"], a key or
    a value of the wrong type), the exception is an [IndexError], a
    [KeyError] or a [TypeError]; the rasterizer returns [(None, None)] and
    the row integral returns [None]. *)
Theorem unreadable_keys_give_no_result :
  forall (H : Host) (d : list (string * pyval)) (fcs : pyval) (c : string) (e : exn)
         (transparent_background : bool) (width : Z),
    lookup d "floatCurves" = Some fcs ->
    all_channels_in channels fcs = Ok true ->
    In c channels ->
    channel_data fcs c = Raise e ->
    caught_by_rasterizer e
    /\ generate_thumbnail_from_curve (VDict d) transparent_background = Ok (None, None)
    /\ compute_integral_from_curve_json (VDict d) width = None.
Proof.
  intros H d fcs c e tb width Hd Hall Hin Hc.
  split; [exact (channel_data_raises _ _ _ Hc) |].
  split.
  - destruct (sample_channels_extraction_error fcs 128 c e Hin Hc) as [e' [Es He']].
    unfold generate_thumbnail_from_curve, getitem. rewrite Hd. cbv beta iota.
    rewrite Hall. cbn [Py.bind negb].
    unfold thumbnail_signals. rewrite Es. cbn [Py.bind].
    now rewrite (caught_by_rasterizer_existsb _ He').
  - destruct (sample_channels_extraction_error fcs width c e Hin Hc) as [e' [Es He']].
    unfold compute_integral_from_curve_json, grayscale_row, getitem.
    rewrite Hd. cbn [Py.bind]. rewrite Hall. cbn [Py.bind negb].
    rewrite Es. reflexivity.
Qed.

Lemma unreadable_keys_give_no_result_witness :
  all_channels_in channels broken_key_curves = Ok true
  /\ channel_data broken_key_curves "G" = Raise KeyError
  /\ generate_thumbnail_from_curve (H := quiet_host) broken_key_record false
     = Ok (None, None)
  /\ compute_integral_from_curve_json broken_key_record 128 = None.
Proof.
  split; [reflexivity |]. split; [reflexivity |].
  assert (Hin : In "G" channels) by (right; now left).
  destruct (unreadable_keys_give_no_result
              quiet_host [("floatCurves", broken_key_curves)] broken_key_curves
              "G" KeyError false 128 eq_refl eq_refl Hin eq_refl) as [_ [Ht Hi]].
  split; [exact Ht | exact Hi].
Defined.

(** ** Complete records *)

(** The samples of the four channels of complete curves: [width] numbers
    each, the alpha samples remapped. *)
Lemma sample_channels_complete (fcs : list (string * pyval)) (width : Z) :
  complete_curves fcs -> (0 < width)%Z ->
  exists r g b an ar,
    sample_channels (VDict fcs) width = Ok (r, g, b, an, ar)
    /\ List.length r = Z.to_nat width /\ List.length g = Z.to_nat width
    /\ List.length b = Z.to_nat width /\ List.length ar = Z.to_nat width
    /\ process_alpha_channel an = Ok ar.
Proof.
  intros [cR [cG [cB [cA [HR [HG [HB [HA [KR [KG [KB KA]]]]]]]]]]] Hw.
  destruct (channel_data_numbers fcs "R" cR HR KR) as [tR [vR [ER [NR LR]]]].
  destruct (channel_data_numbers fcs "G" cG HG KG) as [tG [vG [EG [NG LG]]]].
  destruct (channel_data_numbers fcs "B" cB HB KB) as [tB [vB [EB [NB LB]]]].
  destruct (channel_data_numbers fcs "A" cA HA KA) as [tA [vA [EA [NA LA]]]].
  destruct (linspace01_length width ltac:(lia)) as [xs [Exs Lxs]].
  assert (Hne : map (Np.interp1 tA vA) xs <> []).
  { destruct xs; [simpl in Lxs; lia | discriminate]. }
  destruct (process_alpha_channel_length _ Hne) as [out [Eout Lout]].
  unfold sample_channels. rewrite ER, EG, EB, EA, Exs. cbn [Py.bind].
  rewrite (interp_numbers xs tR vR NR LR), (interp_numbers xs tG vG NG LG),
    (interp_numbers xs tB vB NB LB), (interp_numbers xs tA vA NA LA).
  cbn [Py.bind]. rewrite Eout. cbn [Py.bind].
  do 5 eexists. split; [reflexivity |].
  rewrite !length_map, Lout, length_map. repeat split; try exact Lxs. exact Eout.
Qed.

Lemma complete_curves_all_channels (fcs : list (string * pyval)) :
  complete_curves fcs -> all_channels_in channels (VDict fcs) = Ok true.
Proof.
  intros [cR [cG [cB [cA [HR [HG [HB [HA _]]]]]]]].
  apply all_channels_in_present. unfold channels.
  repeat constructor; eexists; eassumption.
Qed.


Lemma gradient_returns (a : list Q) :
  (2 <= List.length a)%nat -> exists g, Np.gradient a = Ok g.
Proof.
  destruct a as [|x0 [|x1 rest]]; simpl; try lia. intros _. eexists. reflexivity.
Qed.

Lemma int_clamp_is_byte (q : Q) : (0 <= Py.int (clamp q 0 255) <= 255)%Z.
Proof.
  destruct (clamp_bounds q 0 255 ltac:(lra)) as [H0 H255].
  rewrite (int_nonneg _ H0). now apply Qfloor_byte.
Qed.

Lemma zip4_map_Forall {A B : Type} (f : A * A * A * A -> B) (P : B -> Prop)
  (r g b a : list A) :
  (forall p, P (f p)) -> Forall P (map f (zip4 r g b a)).
Proof. intros Hf. apply Forall_forall. intros y Hy. apply in_map_iff in Hy.
  destruct Hy as [p [<- _]]. apply Hf. Qed.

(** The rasterizer on complete curves: one row of 128 pixels, repeated. *)
Lemma thumbnail_of_complete_curves {H : Host} (d fcs : list (string * pyval))
  (transparent_background : bool) :
  lookup d "floatCurves" = Some (VDict fcs) -> complete_curves fcs ->
  exists row info,
    List.length row = 128%nat
    /\ Forall is_rgba row
    /\ generate_thumbnail_from_curve (VDict d) transparent_background
       = Ok (Some (if transparent_background then repeat row 128
                   else alpha_composite (create_checkered_background 128 128 8)
                                        (repeat row 128)),
             Some info).
Proof.
  intros Hd Hc.
  destruct (sample_channels_complete fcs 128 Hc ltac:(lia))
    as [r [g [b [an [ar [Es [Lr [Lg [Lb [La _]]]]]]]]]].
  destruct (gradient_returns r ltac:(rewrite Lr; simpl; lia)) as [gr Egr].
  destruct (gradient_returns g ltac:(rewrite Lg; simpl; lia)) as [gg Egg].
  destruct (gradient_returns b ltac:(rewrite Lb; simpl; lia)) as [gb Egb].
  destruct (gradient_returns ar ltac:(rewrite La; simpl; lia)) as [ga Ega].
  unfold generate_thumbnail_from_curve, getitem. rewrite Hd. cbv beta iota.
  rewrite (complete_curves_all_channels fcs Hc). cbn [Py.bind negb].
  unfold thumbnail_signals. rewrite Es. cbn [Py.bind].
  rewrite Egr, Egg, Egb, Ega. cbn [Py.bind].
  eexists; eexists. split; [| split; [| destruct transparent_background; reflexivity]].
  - rewrite length_map. apply zip4_length; assumption.
  - apply zip4_map_Forall. intros [[[pr pg] pb] pa]. unfold is_rgba.
    repeat split; apply int_clamp_is_byte.
Qed.






(** ** The monad *)

Lemma returns_conj {A : Type} (m : M A) (P R : A -> Prop) :
  returns m P -> returns m R -> returns m (fun a => P a /\ R a).
Proof.
  intros HP HR g. destruct (HP g) as [a [g1 [E Ha]]].
  destruct (HR g) as [a' [g1' [E' Ha']]].
  rewrite E in E'. inversion E'; subst a' g1'.
  exists a, g1. split; [exact E | now split].
Qed.

Lemma returns_of_produces {A : Type} (m : M A) (P : A -> Prop) (a : A) :
  returns m P -> produces m a -> P a.
Proof.
  intros HP [g [g' E]]. destruct (HP g) as [a' [g1 [E' Ha']]].
  rewrite E in E'. inversion E'; subst. exact Ha'.
Qed.

Lemma returns_uniform_range (a b : Q) :
  a <= b -> returns (uniform a b) (fun x => a <= x <= b).
Proof.
  intros Hab. eapply returns_mono; [apply returns_uniform |].
  intros x [u [H0 [H1 ->]]]. split; nra.
Qed.

Lemma returns_uniform_unit : returns (uniform 0 1) (fun x => 0 <= x < 1).
Proof.
  eapply returns_mono; [apply returns_uniform |].
  intros x [u [H0 [H1 ->]]]. split; lra.
Qed.

(** ** The keyframe synthesizer *)

Section SynthesizedKeys.

Context {ML : MathLib}.

Lemma returns_draw_tangents_range (a b c d e f g h : Q) :
  a <= b -> c <= d -> e <= f -> g <= h ->
  returns (draw_tangents a b c d e f g h)
          (fun tg => let '(at_, lt_, aw, lw) := tg in
                     a <= at_ <= b /\ c <= lt_ <= d /\ e <= aw <= f /\ g <= lw <= h).
Proof.
  intros H1 H2 H3 H4. unfold draw_tangents.
  eapply returns_bind; [apply (returns_uniform_range _ _ H1) | intros x1 Hx1].
  eapply returns_bind; [apply (returns_uniform_range _ _ H2) | intros x2 Hx2].
  eapply returns_bind; [apply (returns_uniform_range _ _ H3) | intros x3 Hx3].
  eapply returns_bind; [apply (returns_uniform_range _ _ H4) | intros x4 Hx4].
  apply returns_ret. cbv beta iota. cbv beta in Hx1, Hx2, Hx3, Hx4. tauto.
Qed.

Lemma returns_shape_tangents_range (ty : FloatCurveType) :
  returns (shape_tangents ty)
          (fun tg => let '(at_, lt_, aw, lw) := tg in
                     -0.5 <= at_ <= 0.5 /\ -0.5 <= lt_ <= 1
                     /\ 0 <= aw <= 1 /\ 0 <= lw <= 1).
Proof.
  destruct ty; simpl;
    try (apply returns_ret; repeat split; lra);
    (eapply returns_mono;
     [apply returns_draw_tangents_range; lra
     | intros [[[at_ lt_] aw] lw] [Ha [Hl [Haw Hlw]]]; repeat split; lra]).
Qed.

Lemma build_key_fields (ty : FloatCurveType) (t v at_ lt_ aw lw : Q) :
  let k := build_key ty t v (at_, lt_, aw, lw) in
  time k = t /\ value k = v /\ key_modes k = shape_modes ty
  /\ arriveTangent k = at_ /\ leaveTangent k = lt_
  /\ arriveTangentWeight k = aw /\ leaveTangentWeight k = lw.
Proof.
  unfold build_key, key_modes. destruct (shape_modes ty) as [[im tm] twm].
  simpl. repeat split.
Qed.

Lemma returns_random_key_fields (ty : FloatCurveType) (num_keys : Z) (t : Q) :
  returns (random_key ty num_keys t)
          (fun k => time k = t /\ key_modes k = shape_modes ty /\ tangents_in_range k).
Proof.
  unfold random_key.
  eapply returns_bind; [apply returns_shape_value | intros v0 _].
  eapply returns_bind; [apply returns_shape_tangents_range |].
  intros [[[at_ lt_] aw] lw] Htg.
  eapply returns_bind; [apply returns_uniform_any | intros noise _].
  apply returns_ret.
  destruct (build_key_fields ty t (clamp (v0 + noise) 0 1) at_ lt_ aw lw)
    as [Ht [_ [Hm [E1 [E2 [E3 E4]]]]]].
  split; [exact Ht |]. split; [exact Hm |].
  unfold tangents_in_range. rewrite E1, E2, E3, E4. exact Htg.
Qed.

Lemma returns_scaled_key_fields (ty : FloatCurveType) (num_keys : Z)
  (noise_scale t : Q) :
  returns (scaled_key ty num_keys noise_scale t)
          (fun k => time k = t /\ key_modes k = shape_modes ty /\ tangents_in_range k
                    /\ (Qeq_bool noise_scale 0 = false -> 0 <= value k <= 1)).
Proof.
  unfold scaled_key.
  eapply returns_bind; [apply returns_shape_value | intros v0 _].
  eapply returns_bind; [apply returns_shape_tangents_range |].
  intros [[[at_ lt_] aw] lw] Htg.
  eapply returns_bind
    with (Q := fun v => Qeq_bool noise_scale 0 = false -> 0 <= v <= 1).
  - destruct (Qeq_bool noise_scale 0); simpl.
    + apply returns_ret. discriminate.
    + eapply returns_bind; [apply returns_uniform_any | intros noise _].
      apply returns_ret. intros _. apply clamp_bounds. lra.
  - intros v Hv. apply returns_ret.
    destruct (build_key_fields ty t v at_ lt_ aw lw)
      as [Ht [Hval [Hm [E1 [E2 [E3 E4]]]]]].
    split; [exact Ht |]. split; [exact Hm |].
    split; [unfold tangents_in_range; rewrite E1, E2, E3, E4; exact Htg |].
    rewrite Hval. exact Hv.
Qed.

(** The times both generators draw: [num_keys] numbers of [0, 1), sorted. *)
Lemma returns_sorted_times (n : nat) :
  returns (replicateM n (uniform 0 1))
          (fun ds => Forall (fun t => 0 <= t < 1) (sorted ds)).
Proof.
  eapply returns_mono; [apply (returns_replicateM _ _ _ returns_uniform_unit) |].
  intros ds [_ HF]. apply Forall_forall. intros t Ht.
  rewrite Forall_forall in HF. apply HF. now apply sorted_In.
Qed.

Lemma keys_of_times (P : Key -> Prop) (ts : list Q) (ks : list Key) :
  Forall (fun t => 0 <= t < 1) ts ->
  Forall2 (fun t k => time k = t /\ P k) ts ks ->
  Forall (fun k => 0 <= time k < 1 /\ P k) ks.
Proof.
  intros Hts HF. eapply Forall2_right; [| exact HF].
  intros t k Hin [Ht Hk]. cbv beta. rewrite Ht.
  rewrite Forall_forall in Hts. split; [now apply Hts | exact Hk].
Qed.

Lemma generate_random_float_curve_keys
  (min_keys max_keys : Z) (float_curve_type : option FloatCurveType) :
  (min_keys <= max_keys)%Z ->
  returns (generate_random_float_curve min_keys max_keys float_curve_type)
    (fun c =>
       exists ty,
         (forall t0, float_curve_type = Some t0 -> ty = t0)
         /\ Forall (fun k => 0 <= time k < 1
                             /\ key_modes k = shape_modes ty /\ tangents_in_range k)
                   (keys c)).
Proof.
  intros Hle. unfold generate_random_float_curve.
  eapply returns_bind; [apply returns_chosen_type | intros ty Hty].
  eapply returns_bind; [apply (returns_randint _ _ Hle) | intros num_keys Hn].
  eapply returns_bind; [apply returns_sorted_times | intros ds Hds].
  eapply returns_bind;
    [apply (returns_forM _ _ (fun t k => time k = t
                                         /\ (key_modes k = shape_modes ty
                                             /\ tangents_in_range k)));
     intros t _; apply returns_random_key_fields |].
  intros ks HF. apply returns_ret. simpl keys. exists ty. split; [exact Hty |].
  exact (keys_of_times _ _ _ Hds HF).
Qed.

Lemma generate_float_curve_keys
  (float_curve_type : option FloatCurveType) (resolution_scale noise_scale : Q) :
  returns (generate_float_curve float_curve_type resolution_scale noise_scale)
    (fun c =>
       exists ty,
         (forall t0, float_curve_type = Some t0 -> ty = t0)
         /\ Forall (fun k => 0 <= time k < 1
                             /\ key_modes k = shape_modes ty /\ tangents_in_range k
                             /\ (Qeq_bool noise_scale 0 = false -> 0 <= value k <= 1))
                   (keys c)).
Proof.
  unfold generate_float_curve.
  eapply returns_bind; [apply returns_chosen_type | intros ty Hty].
  eapply returns_bind; [apply (returns_randint 2 100); lia | intros fallback _].
  eapply returns_bind with (Q := fun _ => True).
  { destruct (FloatCurveType_eqb ty RANDOM).
    - eapply returns_mono; [apply (returns_randint 2 100); lia | trivial].
    - now apply returns_ret. }
  intros num_keys _.
  eapply returns_bind; [apply returns_sorted_times | intros ds Hds].
  eapply returns_bind;
    [apply (returns_forM _ _
              (fun t k => time k = t
                          /\ (key_modes k = shape_modes ty /\ tangents_in_range k
                              /\ (Qeq_bool noise_scale 0 = false -> 0 <= value k <= 1))));
     intros t _; apply returns_scaled_key_fields |].
  intros ks HF. apply returns_ret. simpl keys. exists ty. split; [exact Hty |].
  exact (keys_of_times _ _ _ Hds HF).
Qed.

(** The key count of [generate_float_curve]. *)
Lemma generate_float_curve_count
  (float_curve_type : option FloatCurveType) (resolution_scale noise_scale : Q) :
  returns (generate_float_curve float_curve_type resolution_scale noise_scale)
    (fun c =>
       exists ty num_keys,
         (forall t0, float_curve_type = Some t0 -> ty = t0)
         /\ (2 <= num_keys <= 100)%Z
         /\ (ty <> RANDOM ->
             num_keys = Z.max 2 (Z.min (Py.int (inject_Z (default_key_counts ty)
                                                * resolution_scale)) 100))
         /\ List.length (keys c) = Z.to_nat num_keys).
Proof.
  eapply returns_mono; [apply generate_float_curve_spec |].
  intros c [ty [n [Hty [Hn [Hlen _]]]]]. exists ty, n.
  split; [exact Hty |].
  destruct ty; simpl in Hn; (split; [lia |]); (split; [| exact Hlen]);
    intros Hne; try exact Hn; contradiction.
Qed.





(** X13.  In both synthesis modes every key time is a number of [0, 1), and
    in scaled mode the times are in non-decreasing order.  When
    [noise_scale] is not zero, every value of a scaled-mode curve lies in
    [0, 1] (the clamp is applied only together with the noise). *)
Theorem key_times_lie_in_the_unit_interval :
  (forall (float_curve_type : option FloatCurveType) (resolution_scale noise_scale : Q),
      returns (generate_float_curve float_curve_type resolution_scale noise_scale)
        (fun c =>
           Forall (fun k => 0 <= time k < 1) (keys c)
           /\ StronglySorted Qle (map time (keys c))
           /\ (~ noise_scale == 0 ->
               Forall (fun k => 0 <= value k <= 1) (keys c))))
  /\ (forall (float_curve_type : option FloatCurveType) (min_keys max_keys : Z),
         (min_keys <= max_keys)%Z ->
         returns (generate_random_float_curve min_keys max_keys float_curve_type)
           (fun c => Forall (fun k => 0 <= time k < 1) (keys c))).
Proof.
  split.
  - intros fty rs ns.
    eapply returns_mono;
      [apply (returns_conj _ _ _ (generate_float_curve_keys fty rs ns)
                           (generate_float_curve_spec fty rs ns)) |].
    intros c [[ty [_ Hkeys]] [ty' [n [_ [_ [_ [Hsorted _]]]]]]].
    split; [| split; [exact Hsorted |]].
    + eapply Forall_impl; [| exact Hkeys]. intros k Hk. apply Hk.
    + intros Hns. eapply Forall_impl; [| exact Hkeys].
      intros k [_ [_ [_ Hv]]]. apply Hv.
      destruct (Qeq_bool ns 0) eqn:E; [| reflexivity].
      apply Qeq_bool_iff in E. contradiction.
  - intros fty a b Hle.
    eapply returns_mono; [apply (generate_random_float_curve_keys a b fty Hle) |].
    intros c [ty [_ Hkeys]].
    eapply Forall_impl; [| exact Hkeys]. intros k Hk. apply Hk.
Qed.

(** X14.  Every key of a synthesized curve carries the three mode strings of
    the curve's family, so all keys of a curve agree on them; its
    interpolation mode is the value of a member of [InterpMode] whose
    plotting kind is ["cubic"], ["linear"] or ["constant"]; its tangents
    lie in [-0.5, 1] and its tangent weights in [0, 1]. *)
Theorem keys_carry_the_modes_of_their_family :
  (forall (float_curve_type : option FloatCurveType) (resolution_scale noise_scale : Q),
      returns (generate_float_curve float_curve_type resolution_scale noise_scale)
        (fun c =>
           exists ty,
             (forall t0, float_curve_type = Some t0 -> ty = t0)
             /\ Forall (fun k =>
                          key_modes k = shape_modes ty
                          /\ (exists m, InterpMode_call (interpMode k) = Ok m
                                /\ In (to_plotting_kind m) ["cubic"; "linear"; "constant"])
                          /\ tangents_in_range k)
                       (keys c)))
  /\ (forall (float_curve_type : option FloatCurveType) (min_keys max_keys : Z),
         (min_keys <= max_keys)%Z ->
         returns (generate_random_float_curve min_keys max_keys float_curve_type)
           (fun c =>
              exists ty,
                (forall t0, float_curve_type = Some t0 -> ty = t0)
                /\ Forall (fun k =>
                             key_modes k = shape_modes ty
                             /\ (exists m, InterpMode_call (interpMode k) = Ok m
                                   /\ In (to_plotting_kind m)
                                         ["cubic"; "linear"; "constant"])
                             /\ tangents_in_range k)
                          (keys c))).
Proof.
  assert (Hmode : forall ty k, key_modes k = shape_modes ty ->
                    exists m, InterpMode_call (interpMode k) = Ok m
                      /\ In (to_plotting_kind m) ["cubic"; "linear"; "constant"]).
  { intros ty k Hk. unfold key_modes in Hk.
    assert (E : interpMode k = fst (fst (shape_modes ty))) by now rewrite <- Hk.
    rewrite E. destruct ty; simpl; eexists; (split; [reflexivity |]); simpl; tauto. }
  split.
  - intros fty rs ns.
    eapply returns_mono; [apply (generate_float_curve_keys fty rs ns) |].
    intros c [ty [Hty Hkeys]]. exists ty. split; [exact Hty |].
    eapply Forall_impl; [| exact Hkeys]. intros k [_ [Hm [Htg _]]].
    split; [exact Hm |]. split; [exact (Hmode ty k Hm) | exact Htg].
  - intros fty a b Hle.
    eapply returns_mono; [apply (generate_random_float_curve_keys a b fty Hle) |].
    intros c [ty [Hty Hkeys]]. exists ty. split; [exact Hty |].
    eapply Forall_impl; [| exact Hkeys]. intros k [_ [Hm Htg]].
    split; [exact Hm |]. split; [exact (Hmode ty k Hm) | exact Htg].
Qed.

End SynthesizedKeys.


Lemma key_times_lie_in_the_unit_interval_witness :
  (2 <= 5)%Z
  /\ returns (generate_random_float_curve (ML := placeholder_math) 2 5 (Some CUBIC))
             (fun c => Forall (fun k => 0 <= time k < 1) (keys c))
  /\ ~ 0.5 == 0
  /\ returns (generate_float_curve (ML := placeholder_math) (Some CUBIC) 1 0.5)
             (fun c => Forall (fun k => 0 <= value k <= 1) (keys c)).
Proof.
  destruct (@key_times_lie_in_the_unit_interval placeholder_math) as [Hscaled Hrandom].
  assert (Hne : ~ 0.5 == 0) by (intro E; discriminate E).
  split; [lia |]. split; [apply Hrandom; lia |]. split; [exact Hne |].
  eapply returns_mono; [apply (Hscaled (Some CUBIC) 1 0.5) |].
  intros c [_ [_ Hv]]. exact (Hv Hne).
Defined.

Lemma keys_carry_the_modes_of_their_family_witness :
  (2 <= 5)%Z
  /\ returns (generate_random_float_curve (ML := placeholder_math) 2 5 (Some STEP))
             (fun c => Forall (fun k => interpMode k = "RCIM_Constant") (keys c)).
Proof.
  destruct (@keys_carry_the_modes_of_their_family placeholder_math) as [_ Hrandom].
  split; [lia |].
  eapply returns_mono; [apply (Hrandom (Some STEP) 2%Z 5%Z); lia |].
  intros c [ty [Hty Hkeys]]. rewrite (Hty STEP eq_refl) in Hkeys.
  eapply Forall_impl; [| exact Hkeys]. intros k [Hm _].
  unfold key_modes in Hm. simpl in Hm. now inversion Hm.
Defined.

(** ** Assembled records *)

Section AssembledRecords.

Context {ML : MathLib} {H : Host}.

Lemma nonempty_of_count (c : FloatCurve) (n : Z) :
  (2 <= n)%Z -> List.length (keys c) = Z.to_nat n -> keys c <> [].
Proof. intros Hn Hlen E. rewrite E in Hlen. simpl in Hlen. lia. Qed.

Lemma returns_random_curve_entry_nonempty (ch : string) (ty : FloatCurveType) :
  returns (c <~ generate_random_float_curve 2 100 (Some ty) ;;
           ret (ch, FloatCurve_to_py c))
          (fun e => exists c, e = (ch, FloatCurve_to_py c) /\ keys c <> []).
Proof.
  eapply returns_bind.
  - apply (generate_random_float_curve_spec 2 100 (Some ty)). lia.
  - intros c [_ [n [_ [Hn [Hlen _]]]]]. apply returns_ret. exists c.
    split; [reflexivity |]. apply (nonempty_of_count c n); [lia | exact Hlen].
Qed.

Lemma four_entries_complete (P : string -> string * pyval -> Prop)
  (fcs : list (string * pyval)) :
  (forall ch e, P ch e -> exists c, e = (ch, FloatCurve_to_py c) /\ keys c <> []) ->
  Forall2 P channels fcs ->
  (exists cR cG cB cA,
      fcs = [("R", FloatCurve_to_py cR); ("G", FloatCurve_to_py cG);
             ("B", FloatCurve_to_py cB); ("A", FloatCurve_to_py cA)])
  /\ complete_curves fcs.
Proof.
  intros HP HF. unfold channels in HF.
  inversion HF as [| ? e1 ? l1 P1 HF1]; subst.
  inversion HF1 as [| ? e2 ? l2 P2 HF2]; subst.
  inversion HF2 as [| ? e3 ? l3 P3 HF3]; subst.
  inversion HF3 as [| ? e4 ? l4 P4 HF4]; subst.
  inversion HF4; subst.
  destruct (HP _ _ P1) as [c1 [-> K1]]. destruct (HP _ _ P2) as [c2 [-> K2]].
  destruct (HP _ _ P3) as [c3 [-> K3]]. destruct (HP _ _ P4) as [c4 [-> K4]].
  split; [now exists c1, c2, c3, c4 |].
  exists c1, c2, c3, c4. repeat split; assumption.
Qed.

Lemma returns_random_curve_entries_complete (tys : list FloatCurveType) :
  Forall2 (fun _ _ => True) channels tys ->
  returns (forM (combine channels tys)
             (fun ct => c <~ generate_random_float_curve 2 100 (Some (snd ct)) ;;
                        ret (fst ct, FloatCurve_to_py c)))
          complete_curves.
Proof.
  intros Htys.
  eapply returns_mono;
    [apply (returns_forM _ _ (fun ct e => exists c, e = (fst ct, FloatCurve_to_py c)
                                                    /\ keys c <> []));
     intros ct _; apply returns_random_curve_entry_nonempty |].
  intros fcs Hfcs.
  pose proof (Forall2_combine _ _ _ _ _ Htys Hfcs) as HF.
  apply (four_entries_complete
           (fun a e => exists t : FloatCurveType,
                True /\ (exists c, e = (fst (a, t), FloatCurve_to_py c) /\ keys c <> []))).
  - intros ch e [t [_ Hc]]. exact Hc.
  - exact HF.
Qed.

Lemma spec_channels_complete (jd fcs : list (string * pyval)) :
  Forall2 (spec_channel_post jd) channels fcs -> complete_curves fcs.
Proof.
  intros HF. apply (four_entries_complete (spec_channel_post jd)); [| exact HF].
  intros ch e [ty [rs [ns [c [_ [_ [_ [Hp ->]]]]]]]]. exists c.
  split; [reflexivity |].
  destruct (returns_of_produces _ _ c (generate_float_curve_count (Some ty) rs ns) Hp)
    as [ty' [n [_ [Hn [_ Hlen]]]]].
  apply (nonempty_of_count c n); [lia | exact Hlen].
Qed.

Lemma rasterizes_of_complete (final : pyval) (d fcs : list (string * pyval)) :
  getitem final "curve_json" = Ok (VDict d) ->
  lookup d "floatCurves" = Some (VDict fcs) ->
  complete_curves fcs ->
  rasterizes final.
Proof.
  intros Hrec Hd Hc.
  destruct (thumbnail_of_complete_curves d fcs true Hd Hc) as [row [info [_ [_ Et]]]].
  destruct Hc as [cR [cG [cB [cA [HR [HG [HB [HA [KR [KG [KB KA]]]]]]]]]]].
  destruct (row_integral_returned_for_complete_record
              d fcs cR cG cB cA 128 Hd HR HG HB HA KR KG KB KA ltac:(lia))
    as [r [Er Lr]].
  exists (VDict d), (repeat row 128), info, r.
  split; [exact Hrec |]. split; [exact Et |]. split; [exact Er | exact Lr].
Qed.

Lemma returns_draw_adjustments_range (r : Q) :
  returns (draw_adjustments r)
          (fun adj => exists a1 a2 a3 a4 a5 a6 a7,
               adj = adjustment_fields a1 a2 a3 a4 a5 a6 a7
               /\ Forall (drawn_up_to r) [a1; a2; a3; a4; a5; a6; a7]).
Proof.
  unfold draw_adjustments.
  eapply returns_bind; [apply returns_uniform | intros a1 [u1 [L1 [U1 E1]]]].
  eapply returns_bind; [apply returns_uniform | intros a2 [u2 [L2 [U2 E2]]]].
  eapply returns_bind; [apply returns_uniform | intros a3 [u3 [L3 [U3 E3]]]].
  eapply returns_bind; [apply returns_uniform | intros a4 [u4 [L4 [U4 E4]]]].
  eapply returns_bind; [apply returns_uniform | intros a5 [u5 [L5 [U5 E5]]]].
  eapply returns_bind; [apply returns_uniform | intros a6 [u6 [L6 [U6 E6]]]].
  eapply returns_bind; [apply returns_uniform | intros a7 [u7 [L7 [U7 E7]]]].
  apply returns_ret. exists a1, a2, a3, a4, a5, a6, a7. split; [reflexivity |].
  assert (Hd : forall a u, a = 0 + (r - 0) * u -> 0 <= u -> u < 1 -> drawn_up_to r a).
  { intros a u E L U. exists u. auto. }
  repeat (apply Forall_cons; [eapply Hd; eassumption |]).
  apply Forall_nil.
Qed.

Lemma adjustments_of_assembled (P : Q -> Prop) (r : Q)
  (fcs extra : list (string * pyval)) (a1 a2 a3 a4 a5 a6 a7 : Q) :
  (forall a, drawn_up_to r a -> P a) ->
  Forall (drawn_up_to r) [a1; a2; a3; a4; a5; a6; a7] ->
  adjustments_satisfy P
    (VDict (base_curve_json fcs (adjustment_fields a1 a2 a3 a4 a5 a6 a7) ++ extra)%list).
Proof.
  intros HP HF.
  inversion HF as [| ? ? D1 HF1]; subst. inversion HF1 as [| ? ? D2 HF2]; subst.
  inversion HF2 as [| ? ? D3 HF3]; subst. inversion HF3 as [| ? ? D4 HF4]; subst.
  inversion HF4 as [| ? ? D5 HF5]; subst. inversion HF5 as [| ? ? D6 HF6]; subst.
  inversion HF6 as [| ? ? D7 HF7]; subst.
  unfold adjustments_satisfy, adjust_keys.
  repeat (apply Forall_cons; [eexists; split; [reflexivity | apply HP; assumption] |]).
  apply Forall_nil.
Qed.

(** [generate_random_color_curve], with what the claims leave out: the
    curves are complete and the adjustments are draws of [uniform(0, 0.1)]. *)
Lemma generate_random_color_curve_record :
  returns generate_random_color_curve
    (fun final =>
       exists fcs a1 a2 a3 a4 a5 a6 a7,
         complete_curves fcs
         /\ Forall (drawn_up_to 0.1) [a1; a2; a3; a4; a5; a6; a7]
         /\ getitem final "curve_json"
            = Ok (VDict (base_curve_json fcs (adjustment_fields a1 a2 a3 a4 a5 a6 a7)))).
Proof.
  unfold generate_random_color_curve.
  eapply returns_bind;
    [apply (returns_forM _ _ (fun _ _ => True)); intros ch _;
     eapply returns_mono; [apply returns_choice; discriminate | trivial] |].
  intros tys Htys.
  eapply returns_bind; [apply (returns_random_curve_entries_complete _ Htys) |].
  intros fcs Hfcs.
  eapply returns_bind; [apply returns_draw_adjustments_range |].
  intros adj [a1 [a2 [a3 [a4 [a5 [a6 [a7 [-> Hadj]]]]]]]].
  apply returns_ret. exists fcs, a1, a2, a3, a4, a5, a6, a7.
  split; [exact Hfcs |]. split; [exact Hadj | reflexivity].
Qed.

Lemma generate_without_spec_record (float_curve_type : option FloatCurveType) :
  returns (generate_color_curve_from_spec None float_curve_type)
    (fun final =>
       exists fcs a1 a2 a3 a4 a5 a6 a7,
         complete_curves fcs
         /\ Forall (drawn_up_to 0) [a1; a2; a3; a4; a5; a6; a7]
         /\ getitem final "curve_json"
            = Ok (VDict (base_curve_json fcs (adjustment_fields a1 a2 a3 a4 a5 a6 a7)))).
Proof.
  unfold generate_color_curve_from_spec.
  eapply returns_bind;
    [apply (returns_forM _ _ (fun _ _ => True)); intros ch _;
     destruct float_curve_type;
     [now apply returns_ret
     | eapply returns_mono; [apply returns_choice; discriminate | trivial]] |].
  intros tys Htys.
  eapply returns_bind; [apply (returns_random_curve_entries_complete _ Htys) |].
  intros fcs Hfcs.
  eapply returns_bind; [apply returns_draw_adjustments_range |].
  intros adj [a1 [a2 [a3 [a4 [a5 [a6 [a7 [-> Hadj]]]]]]]].
  apply returns_ret. exists fcs, a1, a2, a3, a4, a5, a6, a7.
  split; [exact Hfcs |]. split; [exact Hadj | reflexivity].
Qed.

(** The adjustments of spec-mode assembly are draws of
    [uniform(0, randomize_adjustments)]. *)
Lemma generate_from_spec_adjustments
  (jd : list (string * pyval)) (float_curve_type : option FloatCurveType) (r : Q) :
  hook_succeeds -> well_typed_spec jd = true ->
  randomize_adjustments_of jd = Ok r ->
  returns (generate_color_curve_from_spec (Some jd) float_curve_type)
          (fun final =>
             exists fcs a1 a2 a3 a4 a5 a6 a7 extra,
               Forall (drawn_up_to r) [a1; a2; a3; a4; a5; a6; a7]
               /\ getitem final "curve_json"
                  = Ok (VDict (base_curve_json
                                 fcs (adjustment_fields a1 a2 a3 a4 a5 a6 a7)
                               ++ extra)%list)).
Proof.
  intros Hhook Hwt Hr. unfold generate_color_curve_from_spec.
  eapply returns_bind;
    [apply (returns_forM _ _ (fun _ _ => True)); intros ch Hch;
     eapply returns_mono;
     [apply returns_get_enum; [exact Hwt | apply (channel_keys_in ch Hch)]
     | trivial] |].
  intros tys _.
  eapply returns_bind;
    [apply (returns_forM _ _ (fun _ _ => True)) |].
  { intros [ch0 ty0] Hct. apply in_combine_l in Hct. cbn [fst snd].
    destruct (channel_keys_in _ Hct) as [_ [Hrs Hns]].
    eapply returns_bind; [apply (returns_get_number _ _ _ Hwt Hrs) | intros rs _].
    eapply returns_bind; [apply (returns_get_number _ _ _ Hwt Hns) | intros ns _].
    eapply returns_bind; [apply returns_generate_float_curve_any | intros c _].
    now apply returns_ret. }
  intros fcs _.
  eapply returns_bind;
    [apply (returns_get_enum _ _ Hwt); vm_compute; tauto | intros x_type _].
  eapply returns_bind;
    [apply (returns_get_number _ _ _ Hwt); vm_compute; tauto | intros x_rs _].
  eapply returns_bind;
    [apply (returns_get_number _ _ _ Hwt); vm_compute; tauto | intros x_ns _].
  eapply returns_bind; [apply returns_generate_float_curve_any | intros x_curve _].
  eapply returns_bind;
    [apply (returns_get_enum _ _ Hwt); vm_compute; tauto | intros y_type _].
  eapply returns_bind;
    [apply (returns_get_number _ _ _ Hwt); vm_compute; tauto | intros y_rs _].
  eapply returns_bind;
    [apply (returns_get_number _ _ _ Hwt); vm_compute; tauto | intros y_ns _].
  eapply returns_bind; [apply returns_generate_float_curve_any | intros y_curve _].
  eapply returns_bind with (Q := fun ra => ra = r).
  { unfold randomize_adjustments_of in Hr. destruct (is_truthy_dict jd).
    - rewrite Hr. now apply (returns_lift _ r).
    - inversion Hr. now apply returns_ret. }
  intros ra ->.
  eapply returns_bind; [apply returns_draw_adjustments_range |].
  intros adj [a1 [a2 [a3 [a4 [a5 [a6 [a7 [-> Hadj]]]]]]]].
  eapply returns_bind; [apply (returns_lift _ tt (fun _ => True)); auto |].
  intros _ _. apply returns_ret.
  exists fcs, a1, a2, a3, a4, a5, a6, a7. eexists. split; [exact Hadj | reflexivity].
Qed.

Lemma base_curve_json_floatCurves (fcs adj extra : list (string * pyval)) :
  lookup (base_curve_json fcs adj ++ extra)%list "floatCurves" = Some (VDict fcs).
Proof. reflexivity. Qed.

(** X15.  Every record the assemblers return can be rasterized: in random
    mode, without a spec, and from a well-typed spec, the [curve_json] of
    the record has the four channels with at least two keys each, so
    [generate_thumbnail_from_curve] returns a picture with its statistics
    and [compute_integral_from_curve_json] a row of 128 entries. *)
Theorem assembled_records_always_rasterize :
  returns generate_random_color_curve rasterizes
  /\ (forall float_curve_type,
         returns (generate_color_curve_from_spec None float_curve_type) rasterizes)
  /\ (forall jd float_curve_type,
         hook_succeeds -> well_typed_spec jd = true ->
         returns (generate_color_curve_from_spec (Some jd) float_curve_type)
                 rasterizes).
Proof.
  split; [| split].
  - eapply returns_mono; [apply generate_random_color_curve_record |].
    intros final [fcs [a1 [a2 [a3 [a4 [a5 [a6 [a7 [Hc [_ Hrec]]]]]]]]]].
    rewrite <- (app_nil_r (base_curve_json _ _)) in Hrec.
    exact (rasterizes_of_complete final _ fcs Hrec
             (base_curve_json_floatCurves _ _ _) Hc).
  - intros fty. eapply returns_mono; [apply generate_without_spec_record |].
    intros final [fcs [a1 [a2 [a3 [a4 [a5 [a6 [a7 [Hc [_ Hrec]]]]]]]]]].
    rewrite <- (app_nil_r (base_curve_json _ _)) in Hrec.
    exact (rasterizes_of_complete final _ fcs Hrec
             (base_curve_json_floatCurves _ _ _) Hc).
  - intros jd fty Hhook Hwt.
    eapply returns_mono; [apply (returns_generate_from_spec _ _ Hhook Hwt) |].
    intros final [fcs [a1 [a2 [a3 [a4 [a5 [a6 [a7 [extra [HF Hrec]]]]]]]]]].
    exact (rasterizes_of_complete final _ fcs Hrec
             (base_curve_json_floatCurves _ _ _) (spec_channels_complete _ _ HF)).
Qed.

(** X16.  The seven adjustments of a record of [generate_random_color_curve]
    are numbers of [0, 0.1).  Those of a record that
    [generate_color_curve_from_spec] builds without a spec are all zero (the
    seven draws are [uniform(0, 0)]).  From a well-typed spec they lie
    between 0 and the spec's [randomize_adjustments], which counts as 0
    when the spec does not give it: then they are all zero too. *)
Theorem adjustments_stay_within_their_range :
  returns generate_random_color_curve
    (fun final => exists rec,
         getitem final "curve_json" = Ok rec
         /\ adjustments_satisfy (fun a => 0 <= a < 0.1) rec)
  /\ (forall float_curve_type,
         returns (generate_color_curve_from_spec None float_curve_type)
           (fun final => exists rec,
                getitem final "curve_json" = Ok rec
                /\ adjustments_satisfy (fun a => a == 0) rec))
  /\ (forall jd float_curve_type r,
         hook_succeeds -> well_typed_spec jd = true ->
         randomize_adjustments_of jd = Ok r ->
         returns (generate_color_curve_from_spec (Some jd) float_curve_type)
           (fun final => exists rec,
                getitem final "curve_json" = Ok rec
                /\ adjustments_satisfy
                     (fun a => (0 <= r -> 0 <= a <= r) /\ (r <= 0 -> r <= a <= 0))
                     rec))
  /\ (forall jd, lookup jd "randomize_adjustments" = None ->
                 randomize_adjustments_of jd = Ok 0).
Proof.
  split; [| split; [| split]].
  - eapply returns_mono; [apply generate_random_color_curve_record |].
    intros final [fcs [a1 [a2 [a3 [a4 [a5 [a6 [a7 [_ [Hadj Hrec]]]]]]]]]].
    eexists. split; [exact Hrec |].
    rewrite <- (app_nil_r (base_curve_json _ _)).
    apply (adjustments_of_assembled _ 0.1); [| exact Hadj].
    intros a [u [H0 [H1 ->]]]. split; lra.
  - intros fty. eapply returns_mono; [apply generate_without_spec_record |].
    intros final [fcs [a1 [a2 [a3 [a4 [a5 [a6 [a7 [_ [Hadj Hrec]]]]]]]]]].
    eexists. split; [exact Hrec |].
    rewrite <- (app_nil_r (base_curve_json _ _)).
    apply (adjustments_of_assembled _ 0); [| exact Hadj].
    intros a [u [H0 [H1 ->]]]. ring.
  - intros jd fty r Hhook Hwt Hr.
    eapply returns_mono; [apply (generate_from_spec_adjustments _ _ _ Hhook Hwt Hr) |].
    intros final [fcs [a1 [a2 [a3 [a4 [a5 [a6 [a7 [extra [Hadj Hrec]]]]]]]]]].
    eexists. split; [exact Hrec |].
    apply (adjustments_of_assembled _ r); [| exact Hadj].
    intros a [u [H0 [H1 ->]]]. split; intros Hr0; split; nra.
  - intros jd Hnone. unfold randomize_adjustments_of, get_number.
    rewrite Hnone. now destruct (is_truthy_dict jd).
Qed.

End AssembledRecords.

Lemma assembled_records_always_rasterize_witness :
  hook_succeeds (H := quiet_host)
  /\ well_typed_spec [("name", VStr "demo"); ("A_float_curve_type", VStr "step");
                      ("A_resolution_scale", VNum 0.25)] = true
  /\ returns (generate_color_curve_from_spec
                (ML := placeholder_math) (H := quiet_host)
                (Some [("name", VStr "demo"); ("A_float_curve_type", VStr "step");
                       ("A_resolution_scale", VNum 0.25)])
                None)
             (rasterizes (H := quiet_host)).
Proof.
  split; [exact quiet_host_hook_succeeds |]. split; [reflexivity |].
  destruct (@assembled_records_always_rasterize placeholder_math quiet_host)
    as [_ [_ Hspec]].
  apply Hspec; [exact quiet_host_hook_succeeds | reflexivity].
Defined.

Lemma adjustments_stay_within_their_range_witness :
  hook_succeeds (H := quiet_host)
  /\ well_typed_spec [("name", VStr "demo"); ("randomize_adjustments", VNum 0.25)] = true
  /\ randomize_adjustments_of [("name", VStr "demo"); ("randomize_adjustments", VNum 0.25)]
     = Ok 0.25
  /\ returns (generate_color_curve_from_spec
                (ML := placeholder_math) (H := quiet_host)
                (Some [("name", VStr "demo"); ("randomize_adjustments", VNum 0.25)])
                None)
             (fun final => exists rec,
                  getitem final "curve_json" = Ok rec
                  /\ adjustments_satisfy (fun a => 0 <= a <= 0.25) rec).
Proof.
  split; [exact quiet_host_hook_succeeds |]. split; [reflexivity |].
  split; [reflexivity |].
  destruct (@adjustments_stay_within_their_range placeholder_math quiet_host)
    as [_ [_ [Hspec _]]].
  eapply returns_mono;
    [apply (Hspec [("name", VStr "demo"); ("randomize_adjustments", VNum 0.25)]
                  None 0.25 quiet_host_hook_succeeds eq_refl eq_refl) |].
  intros final [rec [Hrec Hadj]]. exists rec. split; [exact Hrec |].
  eapply Forall_impl; [| exact Hadj].
  intros k [a [Hk [Hpos _]]]. exists a. split; [exact Hk |].
  apply Hpos. vm_compute. discriminate.
Defined.

(** ** A shape family that is not text *)

Lemma get_enum_not_text (jd : list (string * pyval)) (key : string) (v : pyval) :
  lookup jd key = Some v -> (forall s, v <> VStr s) ->
  get_enum jd key "PARABOLIC" = Raise AttributeError.
Proof.
  intros Hl Hv. unfold get_enum. rewrite Hl.
  destruct v; try reflexivity. now contradiction (Hv s).
Qed.

Lemma get_enum_cases (jd : list (string * pyval)) (key : string) :
  (exists ty, get_enum jd key "PARABOLIC" = Ok ty)
  \/ get_enum jd key "PARABOLIC" = Raise AttributeError.
Proof.
  unfold get_enum. destruct (lookup jd key) as [v |].
  - destruct v; try (now right).
    destruct (FloatCurveType_getitem_cases (upper s)) as [[ty E] | E]; rewrite E;
      left; eexists; reflexivity.
  - left. eexists. reflexivity.
Qed.

(** A loop over fields that stops at the first field that is not text. *)
Lemma forM_get_enum_raises (jd : list (string * pyval)) (l : list string) (ch : string) :
  In ch l ->
  get_enum jd (ch ++ "_float_curve_type") "PARABOLIC" = Raise AttributeError ->
  forall g,
    forM l (fun ch => lift (get_enum jd (ch ++ "_float_curve_type") "PARABOLIC")) g
    = Raise AttributeError.
Proof.
  intros Hin Hbad g. induction l as [|x xs IH]; [contradiction |].
  simpl. unfold bindM at 1.
  destruct (get_enum_cases jd (x ++ "_float_curve_type")) as [[ty E] | E];
    rewrite E; simpl; [| reflexivity].
  destruct Hin as [-> | Hin]; [congruence |].
  unfold bindM at 1. now rewrite (IH Hin).
Qed.

(** X17.  A shape-family field of a channel that is present in the spec and is
    not a string (a number, [null], a list, ...) makes
    [generate_color_curve_from_spec] raise [AttributeError]: [get_enum]
    handles only the [KeyError] of an unknown name, not the missing
    [upper] method.  The exception leaves the function whatever the other
    fields are, before any curve is synthesized. *)
Theorem family_that_is_not_text_stops_the_assembly :
  forall (ML : MathLib) (H : Host) (jd : list (string * pyval))
         (float_curve_type : option FloatCurveType) (ch : string) (v : pyval),
    In ch channels ->
    lookup jd (ch ++ "_float_curve_type") = Some v ->
    (forall s, v <> VStr s) ->
    get_enum jd (ch ++ "_float_curve_type") "PARABOLIC" = Raise AttributeError
    /\ forall g, generate_color_curve_from_spec (Some jd) float_curve_type g
                 = Raise AttributeError.
Proof.
  intros ML H jd fty ch v Hin Hl Hv.
  pose proof (get_enum_not_text _ _ _ Hl Hv) as Hbad.
  split; [exact Hbad |].
  intros g. unfold generate_color_curve_from_spec. unfold bindM at 1.
  now rewrite (forM_get_enum_raises jd channels ch Hin Hbad g).
Qed.

Lemma family_that_is_not_text_stops_the_assembly_witness :
  In "B" channels
  /\ lookup [("name", VStr "demo"); ("B_float_curve_type", VNum 3)]
            ("B" ++ "_float_curve_type") = Some (VNum 3)
  /\ generate_color_curve_from_spec
       (ML := placeholder_math) (H := quiet_host)
       (Some [("name", VStr "demo"); ("B_float_curve_type", VNum 3)]) None zero_rng
     = Raise AttributeError.
Proof.
  assert (Hin : In "B" channels) by (right; right; now left).
  assert (Hv : forall s, VNum 3 <> VStr s) by (intros s E; discriminate E).
  destruct (family_that_is_not_text_stops_the_assembly
              placeholder_math quiet_host
              [("name", VStr "demo"); ("B_float_curve_type", VNum 3)] None
              "B" (VNum 3) Hin eq_refl Hv) as [_ Hraise].
  split; [exact Hin |]. split; [reflexivity | apply Hraise].
Defined.

(** ** The export transform *)

Lemma get_dict (d : list (string * pyval)) (k : string) (default : pyval) :
  get (VDict d) k default
  = Ok (match lookup d k with Some x => x | None => default end).
Proof. reflexivity. Qed.

Lemma export_channel_dict (fcs : list (string * pyval)) (ch : string) :
  (forall v, lookup fcs ch = Some v -> exists fc, v = VDict fc) ->
  match lookup fcs ch with
  | None => export_channel (VDict fcs) ch = Ok None
  | Some _ => exists curve, export_channel (VDict fcs) ch = Ok (Some curve)
                            /\ exports_channel fcs ch curve
  end.
Proof.
  intros Hd. unfold export_channel. simpl contains. cbn [Py.bind].
  destruct (lookup fcs ch) as [v |] eqn:El; [| reflexivity].
  destruct (Hd v eq_refl) as [fc ->].
  unfold getitem. rewrite El. cbn [Py.bind]. rewrite !get_dict. cbn [Py.bind].
  eexists. split; [reflexivity |].
  exists fc. split; [exact El |]. split; [reflexivity |]. split.
  - intros k v Hk Hv. unfold curve_fields in Hk.
    destruct Hk as [<- | [<- | [<- | [<- | []]]]]; simpl; rewrite Hv; reflexivity.
  - intros Hnone. simpl. now rewrite Hnone.
Qed.

Lemma export_channels_dict (fcs : list (string * pyval)) (chs : list string) :
  (forall ch v, In ch chs -> lookup fcs ch = Some v -> exists fc, v = VDict fc) ->
  exists entries,
    mapM (export_channel (VDict fcs)) chs = Ok entries
    /\ Forall2 (exports_channel fcs)
               (filter (fun ch => match lookup fcs ch with
                                  | Some _ => true | None => false end) chs)
               (cat_options entries).
Proof.
  induction chs as [|ch chs IH]; intros Hd.
  - exists []. split; [reflexivity | constructor].
  - destruct IH as [entries [E HF]].
    { intros c v Hc. apply Hd. now right. }
    pose proof (export_channel_dict fcs ch (fun v => Hd ch v (or_introl eq_refl)))
      as Hch.
    simpl mapM. simpl filter.
    destruct (lookup fcs ch) as [v |].
    + destruct Hch as [curve [Ec Hc]]. rewrite Ec, E. cbn [Py.bind].
      eexists. split; [reflexivity |]. simpl. now constructor.
    + rewrite Hch, E. cbn [Py.bind]. eexists. split; [reflexivity | exact HF].
Qed.

(** X18.  [convert_to_UE_output_format] tolerates missing channels and
    ignores the order and the other entries of [floatCurves]: when every
    channel of R, G, B, A that is present holds a dict, the transform
    returns, and the exported list has one curve per present channel, in
    the order R, G, B, A; each exported curve has exactly the fields [keys],
    [defaultValue], [preInfinityExtrap], [postInfinityExtrap], with the
    channel's own value where it has one and an empty key list where the
    channel has no [keys]. *)
Theorem export_lists_the_present_channels_in_order :
  forall (d fcs : list (string * pyval)),
    lookup d "floatCurves" = Some (VDict fcs) ->
    (forall ch v, In ch channels -> lookup fcs ch = Some v -> exists fc, v = VDict fc) ->
    exists out curves,
      convert_to_UE_output_format (VDict d) = Ok out
      /\ getitem out "floatCurves" = Ok (VList curves)
      /\ Forall2 (exports_channel fcs) (present_channels fcs) curves.
Proof.
  intros d fcs Hd Hdicts.
  destruct (export_channels_dict fcs ["R"; "G"; "B"; "A"] Hdicts) as [entries [E HF]].
  unfold convert_to_UE_output_format. rewrite !get_dict. cbn [Py.bind].
  rewrite Hd, E. cbn [Py.bind].
  eexists; eexists. split; [reflexivity |]. split; [reflexivity | exact HF].
Qed.

Lemma export_lists_the_present_channels_in_order_witness :
  exists out curveA curveR,
    convert_to_UE_output_format
      (VDict [("floatCurves",
               VDict [("A", curve_of [key_at 0 1]);
                      ("X", VNum 7);
                      ("R", VDict [("defaultValue", VNum 0)])])]) = Ok out
    /\ getitem out "floatCurves" = Ok (VList [curveR; curveA])
    /\ getitem curveR "keys" = Ok (VList [])
    /\ getitem curveR "defaultValue" = Ok (VNum 0).
Proof.
  destruct (export_lists_the_present_channels_in_order
              [("floatCurves",
                VDict [("A", curve_of [key_at 0 1]);
                       ("X", VNum 7);
                       ("R", VDict [("defaultValue", VNum 0)])])]
              [("A", curve_of [key_at 0 1]);
               ("X", VNum 7);
               ("R", VDict [("defaultValue", VNum 0)])]
              eq_refl) as [out [curves [E [Hc HF]]]].
  { unfold channels. intros ch v [<- | [<- | [<- | [<- | []]]]] Hv;
      vm_compute in Hv; inversion Hv; eexists; reflexivity. }
  change (present_channels _) with ["R"; "A"] in HF.
  inversion HF as [| ? cR ? l1 PR HF1]; subst.
  inversion HF1 as [| ? cA ? l2 PA HF2]; subst.
  inversion HF2; subst.
  exists out, cA, cR. split; [exact E |]. split; [exact Hc |].
  destruct PR as [fc [Hfc [_ [Hval Hnokeys]]]].
  vm_compute in Hfc. inversion Hfc; subst fc.
  split; [apply Hnokeys; reflexivity |].
  apply Hval; [right; now left | reflexivity].
Defined.

Lemma export_channel_gives_a_dict (fcs : pyval) (ch : string) (x : pyval) :
  export_channel fcs ch = Ok (Some x) -> exists d, x = VDict d.
Proof.
  unfold export_channel.
  destruct (contains ch fcs) as [[|] |]; cbn [Py.bind]; try discriminate.
  destruct (getitem fcs ch) as [fc |]; cbn [Py.bind]; [| discriminate].
  destruct (get fc "keys" (VList [])) as [ks |]; cbn [Py.bind]; [| discriminate].
  destruct (get fc "defaultValue" (VNum FLT_MAX)) as [dv |]; cbn [Py.bind];
    [| discriminate].
  destruct (get fc "preInfinityExtrap" (VStr "RCCE_Constant")) as [pre |];
    cbn [Py.bind]; [| discriminate].
  destruct (get fc "postInfinityExtrap" (VStr "RCCE_Constant")) as [post |];
    cbn [Py.bind]; [| discriminate].
  intros E. inversion E. eexists. reflexivity.
Qed.

Lemma exported_entries_are_dicts (fcs : pyval) (chs : list string)
  (entries : list (option pyval)) :
  mapM (export_channel fcs) chs = Ok entries ->
  Forall (fun x => exists d, x = VDict d) (cat_options entries).
Proof.
  revert entries. induction chs as [|ch chs IH]; intros entries; simpl.
  - intros E. inversion E. constructor.
  - destruct (export_channel fcs ch) as [o |] eqn:Ec; cbn [Py.bind]; [| discriminate].
    destruct (mapM (export_channel fcs) chs) as [os |]; cbn [Py.bind];
      [| discriminate].
    intros E. inversion E; subst. destruct o as [x |]; simpl.
    + constructor; [exact (export_channel_gives_a_dict _ _ _ Ec) | now apply IH].
    + now apply IH.
Qed.

Lemma no_channel_in_a_list_of_dicts (l : list pyval) (ch : string) :
  Forall (fun x => exists d, x = VDict d) l ->
  export_channel (VList l) ch = Ok None.
Proof.
  intros HF. unfold export_channel. simpl contains.
  assert (E : existsb (is_str ch) l = false).
  { induction HF as [|x l [d ->] _ IH]; simpl; [reflexivity | exact IH]. }
  rewrite E. reflexivity.
Qed.

(** X19.  The export transform is not idempotent.  Applied to its own output
    (decoded again), it returns, keeps the seven adjustments and
    [assetImportData] as they are, and exports no curve at all: [floatCurves]
    is now a list, in which no channel name is found. *)
Theorem exporting_twice_loses_the_curves :
  forall (data out : pyval),
    convert_to_UE_output_format data = Ok out ->
    exists out2,
      convert_to_UE_output_format out = Ok out2
      /\ getitem out2 "floatCurves" = Ok (VList [])
      /\ dict_keys out2 = dict_keys out
      /\ Forall (fun k => exists v, getitem out k = Ok v /\ getitem out2 k = Ok v)
                exported_fields.
Proof.
  intros data out. unfold convert_to_UE_output_format at 1.
  destruct (get data "adjustHue" (VNum 0.0)) as [v1 |]; cbn [Py.bind]; [| discriminate].
  destruct (get data "adjustSaturation" (VNum 0.0)) as [v2 |]; cbn [Py.bind];
    [| discriminate].
  destruct (get data "adjustBrightness" (VNum 0.0)) as [v3 |]; cbn [Py.bind];
    [| discriminate].
  destruct (get data "adjustBrightnessCurve" (VNum 0.0)) as [v4 |]; cbn [Py.bind];
    [| discriminate].
  destruct (get data "adjustVibrance" (VNum 0.0)) as [v5 |]; cbn [Py.bind];
    [| discriminate].
  destruct (get data "adjustMinAlpha" (VNum 0.0)) as [v6 |]; cbn [Py.bind];
    [| discriminate].
  destruct (get data "adjustMaxAlpha" (VNum 0.0)) as [v7 |]; cbn [Py.bind];
    [| discriminate].
  destruct (get data "assetImportData" (VDict [])) as [v8 |]; cbn [Py.bind];
    [| discriminate].
  destruct (get data "floatCurves" (VDict [])) as [fcs |]; cbn [Py.bind];
    [| discriminate].
  destruct (mapM (export_channel fcs) ["R"; "G"; "B"; "A"]) as [entries |] eqn:Em;
    cbn [Py.bind]; [| discriminate].
  intros E. inversion E; subst out. clear E.
  pose proof (exported_entries_are_dicts _ _ _ Em) as Hdicts.
  unfold convert_to_UE_output_format. rewrite !get_dict. cbn [Py.bind].
  simpl lookup. cbn [mapM].
  rewrite !(no_channel_in_a_list_of_dicts _ _ Hdicts). cbn [Py.bind cat_options].
  eexists. split; [reflexivity |]. split; [reflexivity |]. split; [reflexivity |].
  unfold exported_fields.
  repeat (apply Forall_cons; [eexists; split; reflexivity |]). apply Forall_nil.
Qed.

Lemma exporting_twice_loses_the_curves_witness :
  exists out out2 curves,
    convert_to_UE_output_format sample_record = Ok out
    /\ getitem out "floatCurves" = Ok (VList curves)
    /\ List.length curves = 4%nat
    /\ convert_to_UE_output_format out = Ok out2
    /\ getitem out2 "floatCurves" = Ok (VList []).
Proof.
  destruct (convert_to_UE_output_format sample_record) as [out |] eqn:E;
    [| vm_compute in E; discriminate].
  destruct (exporting_twice_loses_the_curves sample_record out E)
    as [out2 [E2 [Hfc _]]].
  vm_compute in E. inversion E; subst out.
  eexists; exists out2; eexists. split; [reflexivity |].
  split; [reflexivity |]. split; [reflexivity |]. split; [exact E2 | exact Hfc].
Defined.

(** ** Compute_integral_from_curve_data *)

Lemma zip4_map {A B : Type} (f : A -> B) (r g b a : list A) :
  zip4 (map f r) (map f g) (map f b) (map f a)
  = map (fun p => let '(x, y, z, w) := p in (f x, f y, f z, f w)) (zip4 r g b a).
Proof.
  revert g b a. induction r as [|r0 r IH]; intros g b a; [reflexivity |].
  destruct g, b, a; try reflexivity. simpl. now rewrite IH.
Qed.

Lemma zip4_length_min {A : Type} (r g b a : list A) :
  List.length (zip4 r g b a)
  = Nat.min (Nat.min (List.length r) (List.length g))
            (Nat.min (List.length b) (List.length a)).
Proof.
  revert g b a. induction r as [|r0 r IH]; intros g b a; [reflexivity |].
  destruct g, b, a; simpl; try lia. rewrite IH. lia.
Qed.

(** The result on curves of numbers. *)
Lemma compute_integral_from_curve_data_numbers
  (d : list (string * pyval)) (width height : Z) (rs gs bs alphas : list Q) :
  curve_or_fill d "r_curve" 0 width = VList (map VNum rs) ->
  curve_or_fill d "g_curve" 0 width = VList (map VNum gs) ->
  curve_or_fill d "b_curve" 0 width = VList (map VNum bs) ->
  curve_or_fill d "a_curve" 1 width = VList (map VNum alphas) ->
  compute_integral_from_curve_data (VDict d) width height
  = Ok (outer (arange1 height) (Np.cumsum (map gray_level (zip4 rs gs bs alphas)))).
Proof.
  unfold curve_or_fill, get_value. intros Hr Hg Hb Ha.
  unfold compute_integral_from_curve_data. rewrite !get_dict. cbn [Py.bind].
  rewrite Hr, Hg, Hb, Ha. cbn [iter Py.bind].
  rewrite zip4_map.
  rewrite (mapM_map_ok _ _ gray_level); [reflexivity |].
  intros [[[r g] b] a] _. reflexivity.
Qed.








(** X21.  The shape of the result of [compute_integral_from_curve_data]: it
    has [height] rows (none for a height of 0 or less), and as many columns
    as the shortest of the four curves has entries, a missing curve counting
    for [width] entries: [zip] cuts the longer curves, nothing is padded.
    With none of the four curves given, the result is [height] rows of
    [width] zeros.  Data that is not a dict raises [AttributeError]. *)
Theorem integral_image_has_the_shape_of_the_shortest_curve :
  forall (d : list (string * pyval)) (width height : Z),
    (forall rs gs bs alphas,
        curve_or_fill d "r_curve" 0 width = VList (map VNum rs) ->
        curve_or_fill d "g_curve" 0 width = VList (map VNum gs) ->
        curve_or_fill d "b_curve" 0 width = VList (map VNum bs) ->
        curve_or_fill d "a_curve" 1 width = VList (map VNum alphas) ->
        exists integral_image,
          compute_integral_from_curve_data (VDict d) width height = Ok integral_image
          /\ List.length integral_image = Z.to_nat height
          /\ Forall (fun row =>
                       List.length row
                       = Nat.min (Nat.min (List.length rs) (List.length gs))
                                 (Nat.min (List.length bs) (List.length alphas)))
                    integral_image)
    /\ (lookup d "r_curve" = None -> lookup d "g_curve" = None ->
        lookup d "b_curve" = None -> lookup d "a_curve" = None ->
        compute_integral_from_curve_data (VDict d) width height
        = Ok (repeat (repeat 0%Z (Z.to_nat width)) (Z.to_nat height)))
    /\ (forall v, (forall d', v <> VDict d') ->
                  compute_integral_from_curve_data v width height
                  = Raise AttributeError).
Proof.
  intros d width height. split; [| split].
  - intros rs gs bs alphas Hr Hg Hb Ha.
    eexists. split;
      [apply (compute_integral_from_curve_data_numbers d width height rs gs bs alphas);
       assumption |].
    split.
    + unfold outer, arange1. now rewrite !length_map, length_seq.
    + unfold outer. apply Forall_forall. intros row Hrow.
      apply in_map_iff in Hrow. destruct Hrow as [x [<- _]].
      rewrite length_map. unfold Np.cumsum.
      now rewrite cumsum_from_length, length_map, zip4_length_min.
  - intros Hr Hg Hb Ha.
    set (n := Z.to_nat width).
    assert (Hfill : forall c, VList (repeat (VNum c) n) = VList (map VNum (repeat c n))).
    { intros c. now rewrite map_repeat. }
    rewrite (compute_integral_from_curve_data_numbers
               d width height (repeat 0 n) (repeat 0 n) (repeat 0 n) (repeat 1 n));
      try (unfold curve_or_fill, get_value; rewrite ?Hr, ?Hg, ?Hb, ?Ha; apply Hfill).
    f_equal.
    assert (Hrow : Np.cumsum (map gray_level
                                  (zip4 (repeat 0 n) (repeat 0 n) (repeat 0 n)
                                        (repeat 1 n)))
                   = repeat 0%Z n).
    { unfold Np.cumsum. generalize n. clear. intros n.
      induction n as [|n IH]; [reflexivity |]. simpl.
      change (Py.int ((0 + 0 + 0) / 3 * 1)) with 0%Z. simpl. f_equal. exact IH. }
    rewrite Hrow. unfold outer, arange1. rewrite map_map.
    rewrite (map_ext _ (fun _ => repeat 0%Z n)).
    + now rewrite map_const, length_seq.
    + intros x. rewrite map_repeat. f_equal. lia.
  - intros v Hv. destruct v; try reflexivity. now contradiction (Hv d0).
Qed.

Lemma integral_image_has_the_shape_of_the_shortest_curve_witness :
  exists integral_image,
    compute_integral_from_curve_data
      (VDict [("r_curve", VList [VNum 30; VNum 60])]) 5 3 = Ok integral_image
    /\ List.length integral_image = 3%nat
    /\ Forall (fun row => List.length row = 2%nat) integral_image.
Proof.
  destruct (integral_image_has_the_shape_of_the_shortest_curve
              [("r_curve", VList [VNum 30; VNum 60])] 5 3) as [Hshape _].
  destruct (Hshape [30; 60] [0; 0; 0; 0; 0] [0; 0; 0; 0; 0] [1; 1; 1; 1; 1]
                   eq_refl eq_refl eq_refl eq_refl) as [img [E [Hl Hr]]].
  exists img. split; [exact E |]. split; [exact Hl | exact Hr].
Defined.

(** ** Read.py: pages *)

(** X22.  The page arithmetic of [read_page], for [records_per_page >= 1] and
    a count that is not negative: [total_pages] is the count divided by the
    page size, rounded up, so the pages hold all the records and the last
    page is not empty; no records give no page.  For a page number of
    [1 .. total_pages] the offset handed to [fetch_records] points at a
    record ([0 <= offset < total_records]), and the navigation buttons keep
    the page number in [1 .. total_pages]; the page number never goes
    below 1. *)
Theorem pages_cover_the_records :
  forall (total_records records_per_page : Z),
    (0 <= total_records)%Z -> (1 <= records_per_page)%Z ->
    let pages := total_pages total_records records_per_page in
    (total_records <= pages * records_per_page)%Z
    /\ ((pages - 1) * records_per_page < total_records \/ total_records = 0%Z)%Z
    /\ (total_records = 0%Z <-> pages = 0%Z)
    /\ (forall page, (1 <= page <= pages)%Z ->
          (0 <= page_offset page records_per_page < total_records)%Z
          /\ forall previous next,
               (1 <= turn_page previous next page pages <= pages)%Z)
    /\ (forall page previous next,
          (1 <= page)%Z -> (1 <= turn_page previous next page pages)%Z).
Proof.
  intros total rpp Htot Hrpp pages.
  pose proof (Z.div_mod total rpp ltac:(lia)) as Hdm.
  pose proof (Z.mod_pos_bound total rpp ltac:(lia)) as Hmod.
  assert (Hdiv : (0 <= total / rpp)%Z) by (apply Z.div_pos; lia).
  assert (Hpages : pages
                   = (total / rpp + (if (0 <? total mod rpp)%Z then 1 else 0))%Z)
    by reflexivity.
  destruct (Z.ltb_spec 0 (total mod rpp)) as [Hpos | Hzero].
  - (* a last page that is not full *)
    assert (H1 : (total <= pages * rpp)%Z) by nia.
    assert (H2 : ((pages - 1) * rpp < total)%Z) by nia.
    split; [exact H1 |]. split; [now left |].
    split; [split; intros; nia |].
    split.
    + intros page Hpage. unfold page_offset. split; [nia |].
      intros previous next. unfold turn_page.
      destruct previous, next; simpl;
        repeat match goal with
               | |- context [(?a <? ?b)%Z] => destruct (Z.ltb_spec a b)
               end; lia.
    + intros page previous next Hpage. unfold turn_page.
      destruct previous, next; simpl;
        repeat match goal with
               | |- context [(?a <? ?b)%Z] => destruct (Z.ltb_spec a b)
               end; lia.
  - (* the records fill the pages exactly *)
    assert (Hm0 : (total mod rpp = 0)%Z) by lia.
    assert (H1 : (total = pages * rpp)%Z) by nia.
    split; [lia |].
    split; [destruct (Z.eq_dec total 0); [now right | left; nia] |].
    split; [split; intros; nia |].
    split.
    + intros page Hpage. unfold page_offset. split; [nia |].
      intros previous next. unfold turn_page.
      destruct previous, next; simpl;
        repeat match goal with
               | |- context [(?a <? ?b)%Z] => destruct (Z.ltb_spec a b)
               end; lia.
    + intros page previous next Hpage. unfold turn_page.
      destruct previous, next; simpl;
        repeat match goal with
               | |- context [(?a <? ?b)%Z] => destruct (Z.ltb_spec a b)
               end; lia.
Qed.

Lemma pages_cover_the_records_witness :
  (0 <= 25)%Z /\ (1 <= 10)%Z
  /\ total_pages 25 10 = 3%Z
  /\ (0 <= page_offset 3 10 < 25)%Z
  /\ (1 <= turn_page false true 3 (total_pages 25 10) <= total_pages 25 10)%Z.
Proof.
  destruct (pages_cover_the_records 25 10 ltac:(lia) ltac:(lia))
    as [_ [_ [_ [Hpage _]]]].
  destruct (Hpage 3%Z ltac:(vm_compute; split; discriminate)) as [Hoff Hturn].
  split; [lia |]. split; [lia |]. split; [reflexivity |].
  split; [exact Hoff | exact (Hturn false true)].
Defined.

(** ** Np.interp *)




(** ** Step_through_curve *)



Lemma inject_Z_pred (c : Z) : inject_Z (c - 1) = inject_Z c - 1.
Proof. unfold Z.sub. now rewrite inject_Z_plus, inject_Z_opp. Qed.

(** The number of steps for a positive step size: at least two, the last
    one at or past 1 and the one before it short of 1. *)
Lemma step_count (s : Q) :
  0 < s ->
  let n := Z.to_nat (Qceiling ((1 + s) / s)) in
  (2 <= n)%nat
  /\ 1 <= inject_Z (Z.of_nat (n - 1)) * s
  /\ forall i, (i < n - 1)%nat -> inject_Z (Z.of_nat i) * s < 1.
Proof.
  intros Hs n.
  set (c := Qceiling ((1 + s) / s)) in *.
  set (q := (1 + s) / s) in *.
  assert (Eq : q * s == 1 + s) by (unfold q; field; lra).
  assert (Hup : q <= inject_Z c) by apply Qle_ceiling.
  assert (Hlow : inject_Z c - 1 < q).
  { pose proof (Qceiling_lt q) as Hc. fold c in Hc.
    now rewrite inject_Z_pred in Hc. }
  assert (Hq1 : 1 < q).
  { apply (Qmult_lt_r _ _ s Hs). rewrite Eq. lra. }
  assert (Hc2 : (2 <= c)%Z).
  { assert (H1 : inject_Z 1 < inject_Z c) by (change (inject_Z 1) with 1; lra).
    rewrite <- Zlt_Qlt in H1. lia. }
  assert (Hup' : 1 + s <= inject_Z c * s).
  { rewrite <- Eq. apply Qmult_le_compat_r; [exact Hup | lra]. }
  assert (Hlow' : (inject_Z c - 1) * s < 1 + s).
  { rewrite <- Eq. apply Qmult_lt_compat_r; [exact Hs | exact Hlow]. }
  assert (En : Z.of_nat n = c) by (unfold n; lia).
  split; [lia |]. split.
  - replace (Z.of_nat (n - 1)) with (c - 1)%Z by lia.
    rewrite inject_Z_pred. lra.
  - intros i Hi.
    assert (Hic : inject_Z (Z.of_nat i) <= inject_Z (c - 2)).
    { rewrite <- Zle_Qle. lia. }
    assert (E2 : inject_Z (c - 2) = inject_Z c - 2).
    { unfold Z.sub. now rewrite inject_Z_plus, inject_Z_opp. }
    rewrite E2 in Hic.
    assert (Hm : inject_Z (Z.of_nat i) * s <= (inject_Z c - 2) * s)
      by (apply Qmult_le_compat_r; [exact Hic | lra]).
    lra.
Qed.



(** X24.  The edges of [step_through_curve].  For a float curve whose key
    list is empty, and a positive step size, the first [next] raises the
    [ValueError] of [np.interp] and nothing is yielded.  For a curve whose
    key data can be read: a zero step size makes [np.arange] divide by zero,
    so the first [next] raises [ZeroDivisionError]; a step size of (-1, 0)
    yields nothing and ends normally.  A curve whose key data cannot be read
    raises the extraction's exception, whatever the step size. *)
Theorem step_through_curve_edges :
  forall (float_curve : pyval) (step_size : Q),
    (forall d, float_curve = VDict d -> lookup d "keys" = Some (VList []) ->
               0 < step_size ->
               step_through_curve float_curve step_size = ([], Raises ValueError))
    /\ (forall e,
           (ks <- getitem float_curve "keys" ;; extract_curve_data ks epsilon_default)
           = Raise e ->
           step_through_curve float_curve step_size = ([], Raises e))
    /\ (forall times values,
           (ks <- getitem float_curve "keys" ;; extract_curve_data ks epsilon_default)
           = Ok (times, values) ->
           (step_size == 0 ->
            step_through_curve float_curve step_size = ([], RaisesZeroDivisionError))
           /\ (-1 < step_size -> step_size < 0 ->
               step_through_curve float_curve step_size = ([], StopIteration))).
Proof.
  intros fc s. split; [| split].
  - intros d -> Hk Hs. unfold step_through_curve, getitem. rewrite Hk.
    cbn [Py.bind]. change (extract_curve_data (VList []) epsilon_default)
      with (@Ok (list pyval * list pyval) ([], [])).
    cbv beta iota. unfold arange0.
    destruct (Qeq_bool s 0) eqn:E0; [apply Qeq_bool_iff in E0; lra |].
    destruct (step_count s Hs) as [Hn2 _].
    destruct (Z.to_nat (Qceiling ((1 + s) / s))) as [|n]; [lia |].
    reflexivity.
  - intros e E. unfold step_through_curve. now rewrite E.
  - intros times values E. split.
    + intros H0. unfold step_through_curve. rewrite E. unfold arange0.
      apply Qeq_bool_iff in H0. now rewrite H0.
    + intros Hlo Hhi. unfold step_through_curve. rewrite E. unfold arange0.
      destruct (Qeq_bool s 0) eqn:E0; [apply Qeq_bool_iff in E0; lra |].
      assert (Hneg : (1 + s) / s <= 0).
      { assert (En : (1 + s) / s == - ((1 + s) / - s)) by (field; lra).
        assert (Hp : 0 <= (1 + s) / - s) by (apply Qle_shift_div_l; lra).
        rewrite En. lra. }
      pose proof (Qceiling_resp_le _ _ Hneg) as Hc.
      change 0 with (inject_Z 0) in Hc. rewrite Qceiling_Z in Hc.
      replace (Z.to_nat (Qceiling ((1 + s) / s))) with 0%nat by lia.
      reflexivity.
Qed.

Lemma step_through_curve_edges_witness :
  step_through_curve (curve_of []) 0.1 = ([], Raises ValueError)
  /\ step_through_curve (curve_of [key_at 0 0.25; key_at 1 0.75]) 0
     = ([], RaisesZeroDivisionError)
  /\ step_through_curve (curve_of [key_at 0 0.25; key_at 1 0.75]) (-0.5)
     = ([], StopIteration).
Proof.
  destruct (step_through_curve_edges (curve_of []) 0.1) as [Hempty _].
  destruct (step_through_curve_edges (curve_of [key_at 0 0.25; key_at 1 0.75]) 0)
    as [_ [_ Hzero]].
  destruct (step_through_curve_edges (curve_of [key_at 0 0.25; key_at 1 0.75]) (-0.5))
    as [_ [_ Hneg]].
  split; [apply (Hempty _ eq_refl eq_refl); reflexivity |].
  split.
  - destruct (Hzero _ _ eq_refl) as [H0 _]. apply H0. reflexivity.
  - destruct (Hneg _ _ eq_refl) as [_ Hn]. apply Hn; reflexivity.
Defined.
